(** * FlashVocab: the spaced-repetition scheduler, the study session,
      the lookup cache and the search controller.

    Shallow embedding of [App.tsx], [services/geminiService.ts] and
    [components/StudySession.tsx].

    Conventions of the embedding.
    - A JavaScript string is a [string]; [trim] and [toLowerCase] are
      given on the ASCII characters.
    - A JavaScript number that holds a count, a level or a time in
      milliseconds is an integer ([Z] or [nat]); every such value of the
      program stays far below 2^53, where the arithmetic of doubles on
      integers is exact.  [NaN] is kept where the program can produce it.
    - An optional field is an [option]; [None] is [undefined].
    - [Math.random], [Date.now] and the answer of the language model are
      inputs of the functions that consult them. *)

From Stdlib Require Import ZArith Lia Bool Ascii String.
From stdpp Require Import base option list gmap strings.

Local Open Scope string_scope.
Local Open Scope list_scope.
Local Open Scope Z_scope.

(** ** JavaScript values *)

Module JS.

(** A number: an integer, or [NaN]. *)
Inductive num : Type :=
| Num (z : Z)
| NaN.

Definition add (a b : num) : num :=
  match a, b with
  | Num x, Num y => Num (x + y)
  | _, _ => NaN
  end.

Definition mul (a b : num) : num :=
  match a, b with
  | Num x, Num y => Num (x * y)
  | _, _ => NaN
  end.

(** [ToNumber] of an optional number: [undefined] becomes [NaN]. *)
Definition to_num (o : option num) : num :=
  match o with
  | Some n => n
  | None => NaN
  end.

(** [a <= b]; false as soon as one side is [NaN]. *)
Definition leb (a b : num) : bool :=
  match a, b with
  | Num x, Num y => x <=? y
  | _, _ => false
  end.

(** [ToBoolean] of an optional number: [undefined], [0] and [NaN] are
    falsy. *)
Definition truthy (o : option num) : bool :=
  match o with
  | Some (Num z) => negb (z =? 0)
  | Some NaN => false
  | None => false
  end.

(** [x || 0] on an optional integer. *)
Definition or_zero (o : option Z) : Z :=
  match o with
  | Some z => if z =? 0 then 0 else z
  | None => 0
  end.

(** [a[i]] for an integer [i]: [undefined] outside [0 .. length - 1]. *)
Definition index {A : Type} (a : list A) (i : Z) : option A :=
  if i <? 0 then None else a !! Z.to_nat i.

(** White space and line terminators below code point 128. *)
Definition is_white (c : ascii) : bool :=
  let n := nat_of_ascii c in
  ((n =? 9) || (n =? 10) || (n =? 11) || (n =? 12) || (n =? 13)
   || (n =? 32))%nat.

Fixpoint trimStart (s : string) : string :=
  match s with
  | EmptyString => EmptyString
  | String c s' => if is_white c then trimStart s' else s
  end.

Definition trimEnd (s : string) : string :=
  String.rev (trimStart (String.rev s)).

Definition trim (s : string) : string := trimEnd (trimStart s).

Definition lower_char (c : ascii) : ascii :=
  let n := nat_of_ascii c in
  if ((65 <=? n) && (n <=? 90))%nat then ascii_of_nat (n + 32) else c.

Fixpoint toLowerCase (s : string) : string :=
  match s with
  | EmptyString => EmptyString
  | String c s' => String (lower_char c) (toLowerCase s')
  end.

(** [!s] on a string: only the empty string is falsy. *)
Definition is_empty (s : string) : bool :=
  match s with
  | EmptyString => true
  | String _ _ => false
  end.

End JS.

(** [trimStart] on the list of characters. *)
Fixpoint dropWhite (l : list ascii) : list ascii :=
  match l with
  | [] => []
  | c :: l' => if JS.is_white c then dropWhite l' else l
  end.

(** ** Records of [types.ts]

    [types.ts] is not among the sources; the fields are those of
    [wordSchema] and [sentenceSchema] in the service (optional when the
    schema does not require them), with the two scheduling fields that
    [App.tsx] and [StudySession.tsx] read and write. *)

Record WordData : Type := mkWord {
  word : string;
  meaning_vi : string;
  definition_en : string;
  ipa : string;
  syllables : option string;
  spelling_tip : option string;
  part_of_speech : option string;
  example_en : string;
  example_vi : string;
  example_b2_en : option string;
  example_b2_vi : option string;
  root_word : string;
  mnemonic : string;
  synonyms : list string;
  antonyms : list string;
  word_family : option (list string);
  collocations : option (list string);
  srs_level : option Z;
  next_review : option JS.num
}.

Record SentenceData : Type := mkSentence {
  sentence : string;
  s_meaning_vi : string;
  grammar_breakdown : string;
  usage_context : string;
  naturalness_score : JS.num;
  similar_sentences : list (string * string);
  s_srs_level : option Z;
  s_next_review : option JS.num
}.

(** [{ ...w, srs_level: l, next_review: t }] *)
Definition with_schedule (w : WordData) (l : Z) (t : JS.num) : WordData :=
  {| word := word w;
     meaning_vi := meaning_vi w;
     definition_en := definition_en w;
     ipa := ipa w;
     syllables := syllables w;
     spelling_tip := spelling_tip w;
     part_of_speech := part_of_speech w;
     example_en := example_en w;
     example_vi := example_vi w;
     example_b2_en := example_b2_en w;
     example_b2_vi := example_b2_vi w;
     root_word := root_word w;
     mnemonic := mnemonic w;
     synonyms := synonyms w;
     antonyms := antonyms w;
     word_family := word_family w;
     collocations := collocations w;
     srs_level := Some l;
     next_review := Some t |}.

(** A word with the required fields of the schema and nothing else. *)
Definition plain_word (text meaning : string) (l : option Z)
    (t : option JS.num) : WordData :=
  {| word := text; meaning_vi := meaning; definition_en := "";
     ipa := ""; syllables := None; spelling_tip := None;
     part_of_speech := None; example_en := ""; example_vi := "";
     example_b2_en := None; example_b2_vi := None; root_word := "";
     mnemonic := ""; synonyms := []; antonyms := [];
     word_family := None; collocations := None;
     srs_level := l; next_review := t |}.

#[global] Instance num_eq_dec : EqDecision JS.num.
Proof. solve_decision. Defined.

#[global] Instance WordData_eq_dec : EqDecision WordData.
Proof. solve_decision. Defined.

#[global] Instance SentenceData_eq_dec : EqDecision SentenceData.
Proof. solve_decision. Defined.

(** [{ ...d, srs_level: l, next_review: t }] for a sentence. *)
Definition s_with_schedule (d : SentenceData) (l : Z) (t : JS.num)
    : SentenceData :=
  {| sentence := sentence d;
     s_meaning_vi := s_meaning_vi d;
     grammar_breakdown := grammar_breakdown d;
     usage_context := usage_context d;
     naturalness_score := naturalness_score d;
     similar_sentences := similar_sentences d;
     s_srs_level := Some l;
     s_next_review := Some t |}.

(** [WordData | SentenceData]; ['word' in item] tells the two apart. *)
Definition Item : Type := (WordData + SentenceData)%type.

(** ** [components/StudySession.tsx] *)

Module Study.

Inductive StudyMode : Type := flashcard | typing | quiz.

#[global] Instance StudyMode_eq_dec : EqDecision StudyMode.
Proof. solve_decision. Defined.

(** The rating strings ['fail'], ['hard'], ['good'] and ['easy']. *)
Inductive Rating : Type := rate_fail | rate_hard | rate_good | rate_easy.

Definition SRS_INTERVALS : list Z := [1; 3; 7; 14; 30; 90; 180].

(** [SRS_INTERVALS.length - 1] *)
Definition lastIndex : Z := Z.of_nat (length SRS_INTERVALS) - 1.

Record Stats : Type := mkStats { reviewed : nat; forgotten : nat }.

(** The state cells of the component.  [timers] counts the pending
    [setTimeout] callbacks that advance [currentIndex]. *)
Record State : Type := mkState {
  queue : list WordData;
  currentIndex : nat;
  isFlipped : bool;
  studyMode : option StudyMode;
  sessionStats : Stats;
  autoRead : bool;
  userInput : string;
  quizOptions : list string;
  isAnswered : bool;
  isCorrectAnswer : option bool;
  isRecording : bool;
  timers : nat
}.

(** What a handler asks of the outside: the [onUpdateWord] and
    [onComplete] callbacks of the parent and the speech synthesis. *)
Inductive Effect : Type :=
| UpdateWord (w : WordData)
| Speak (text : string)
| FocusTyping.

Definition set_queue (q : list WordData) (s : State) : State :=
  mkState q (currentIndex s) (isFlipped s) (studyMode s) (sessionStats s)
    (autoRead s) (userInput s) (quizOptions s) (isAnswered s)
    (isCorrectAnswer s) (isRecording s) (timers s).

Definition set_currentIndex (i : nat) (s : State) : State :=
  mkState (queue s) i (isFlipped s) (studyMode s) (sessionStats s)
    (autoRead s) (userInput s) (quizOptions s) (isAnswered s)
    (isCorrectAnswer s) (isRecording s) (timers s).

Definition set_isFlipped (b : bool) (s : State) : State :=
  mkState (queue s) (currentIndex s) b (studyMode s) (sessionStats s)
    (autoRead s) (userInput s) (quizOptions s) (isAnswered s)
    (isCorrectAnswer s) (isRecording s) (timers s).

Definition set_studyMode (m : option StudyMode) (s : State) : State :=
  mkState (queue s) (currentIndex s) (isFlipped s) m (sessionStats s)
    (autoRead s) (userInput s) (quizOptions s) (isAnswered s)
    (isCorrectAnswer s) (isRecording s) (timers s).

Definition set_sessionStats (t : Stats) (s : State) : State :=
  mkState (queue s) (currentIndex s) (isFlipped s) (studyMode s) t
    (autoRead s) (userInput s) (quizOptions s) (isAnswered s)
    (isCorrectAnswer s) (isRecording s) (timers s).

Definition set_userInput (u : string) (s : State) : State :=
  mkState (queue s) (currentIndex s) (isFlipped s) (studyMode s)
    (sessionStats s) (autoRead s) u (quizOptions s) (isAnswered s)
    (isCorrectAnswer s) (isRecording s) (timers s).

Definition set_quizOptions (o : list string) (s : State) : State :=
  mkState (queue s) (currentIndex s) (isFlipped s) (studyMode s)
    (sessionStats s) (autoRead s) (userInput s) o (isAnswered s)
    (isCorrectAnswer s) (isRecording s) (timers s).

Definition set_isAnswered (b : bool) (s : State) : State :=
  mkState (queue s) (currentIndex s) (isFlipped s) (studyMode s)
    (sessionStats s) (autoRead s) (userInput s) (quizOptions s) b
    (isCorrectAnswer s) (isRecording s) (timers s).

Definition set_isCorrectAnswer (c : option bool) (s : State) : State :=
  mkState (queue s) (currentIndex s) (isFlipped s) (studyMode s)
    (sessionStats s) (autoRead s) (userInput s) (quizOptions s)
    (isAnswered s) c (isRecording s) (timers s).

Definition set_timers (n : nat) (s : State) : State :=
  mkState (queue s) (currentIndex s) (isFlipped s) (studyMode s)
    (sessionStats s) (autoRead s) (userInput s) (quizOptions s)
    (isAnswered s) (isCorrectAnswer s) (isRecording s) n.

(** The initial values of the [useState] cells; [autoRead] is read from
    the local storage. *)
Definition initial (storedAutoRead : bool) : State :=
  mkState [] 0 false None (mkStats 0 0) storedAutoRead "" [] false None
    false 0.

(** [useEffect(() => { if (words.length > 0) setQueue(words); }, [words])] *)
Definition syncQueue (words : list WordData) (s : State) : State :=
  if (0 <? length words)%nat then set_queue words s else s.

(** The component as it stands after its first effects. *)
Definition mount (storedAutoRead : bool) (words : list WordData) : State :=
  syncQueue words (initial storedAutoRead).

(** [const currentWord = queue[currentIndex]] *)
Definition currentWord (s : State) : option WordData :=
  queue s !! currentIndex s.

(** [words.filter(w => w.word !== correctWord)] *)
Definition others (correctWord : string) (words : list WordData)
    : list WordData :=
  List.filter (fun w => negb (String.eqb (word w) correctWord)) words.

(** [generateQuizOptions]; the two [sort(() => Math.random() - 0.5)]
    are the arguments [shuffleW] and [shuffleS]. *)
Definition generateQuizOptions
    (shuffleW : list WordData -> list WordData)
    (shuffleS : list string -> list string)
    (words : list WordData) (correctWord : string) : list string :=
  if (length words <? 2)%nat then [correctWord]
  else
    let distractors :=
      map word (take 3 (shuffleW (others correctWord words)))
    in shuffleS (distractors ++ [correctWord]).

(** The level that [handleRate] computes from the current one. *)
Definition nextLevel (rating : Rating) (level : Z) : Z :=
  match rating with
  | rate_fail => 0
  | rate_hard => Z.max 0 level
  | rate_good => Z.min (level + 1) lastIndex
  | rate_easy => Z.min (level + 2) lastIndex
  end.

(** [Date.now() + (days * 24 * 60 * 60 * 1000)] with
    [days = SRS_INTERVALS[newLevel]]. *)
Definition nextReviewDate (now : Z) (newLevel : Z) : JS.num :=
  let days := JS.to_num (JS.Num <$> JS.index SRS_INTERVALS newLevel) in
  JS.add (JS.Num now)
    (JS.mul (JS.mul (JS.mul (JS.mul days (JS.Num 24)) (JS.Num 60))
       (JS.Num 60)) (JS.Num 1000)).

Definition bump_forgotten (t : Stats) : Stats :=
  mkStats (reviewed t) (forgotten t + 1).

Definition bump_reviewed (t : Stats) : Stats :=
  mkStats (reviewed t + 1) (forgotten t).

(** [handleRate(rating)], called at time [now]. *)
Definition handleRate (now : Z) (rating : Rating) (s : State)
    : State * list Effect :=
  match currentWord s with
  | None => (s, [])
  | Some w =>
      let newLevel := nextLevel rating (JS.or_zero (srs_level w)) in
      let s1 :=
        match rating with
        | rate_fail => set_sessionStats (bump_forgotten (sessionStats s)) s
        | _ => s
        end in
      let updated := with_schedule w newLevel (nextReviewDate now newLevel) in
      let s2 := set_sessionStats (bump_reviewed (sessionStats s1)) s1 in
      let s3 :=
        if Z.of_nat (currentIndex s) <? Z.of_nat (length (queue s)) - 1
        then set_timers (timers s2 + 1) (set_isFlipped false s2)
        else set_currentIndex (currentIndex s2 + 1) s2 in
      (s3, [UpdateWord updated])
  end.

(** The callback of [setTimeout(() => setCurrentIndex(prev => prev + 1), 200)]. *)
Definition timerFires (s : State) : State :=
  match timers s with
  | O => s
  | S n => set_timers n (set_currentIndex (currentIndex s + 1) s)
  end.

(** The three buttons of the mode chooser: [setStudyMode(m)]. *)
Definition chooseMode (m : StudyMode) (s : State) : State :=
  set_studyMode (Some m) s.

(** [handleFlip] *)
Definition handleFlip (s : State) : State :=
  if isRecording s || negb (bool_decide (studyMode s = Some flashcard))
  then s
  else set_isFlipped (negb (isFlipped s)) s.

(** [handleCheckTyping]; [None] is the [TypeError] of reading [.word] of
    an undefined [currentWord]. *)
Definition handleCheckTyping (s : State) : option (State * list Effect) :=
  if JS.is_empty (JS.trim (userInput s)) then Some (s, [])
  else
    match currentWord s with
    | None => None
    | Some w =>
        let correct :=
          bool_decide (JS.toLowerCase (JS.trim (userInput s))
                       = JS.toLowerCase (word w)) in
        Some (set_isAnswered true (set_isCorrectAnswer (Some correct) s),
              if correct then [Speak (word w)] else [])
    end.

(** [handleSelectQuiz(option)] *)
Definition handleSelectQuiz (opt : string) (s : State)
    : option (State * list Effect) :=
  if isAnswered s then Some (s, [])
  else
    match currentWord s with
    | None => None
    | Some w =>
        let correct := bool_decide (opt = word w) in
        Some (set_isAnswered true (set_isCorrectAnswer (Some correct) s),
              if correct then [Speak (word w)] else [])
    end.

(** The effect that prepares the per-item state (source lines 97-106). *)
Definition itemEffect
    (shuffleW : list WordData -> list WordData)
    (shuffleS : list string -> list string)
    (words : list WordData) (s : State) : State * list Effect :=
  match currentWord s with
  | None => (s, [])
  | Some w =>
      let s1 :=
        if bool_decide (studyMode s = Some quiz)
        then set_quizOptions
               (generateQuizOptions shuffleW shuffleS words (word w)) s
        else s in
      (set_isCorrectAnswer None (set_isAnswered false (set_userInput "" s1)),
       (if autoRead s && bool_decide (studyMode s = Some flashcard)
           && negb (isFlipped s)
        then [Speak (word w)] else [])
       ++ (if bool_decide (studyMode s = Some typing)
           then [FocusTyping] else []))
  end.

(** What the component returns: the mode chooser, the final screen with
    the statistics, or the card of the current word. *)
Inductive Screen : Type :=
| ModeSelect (count : nat)
| Complete (stats : Stats)
| Active (mode : option StudyMode) (w : WordData) (position total : nat)
    (ratingsShown : bool).

(** The three [return]s of the component; [None] is the [TypeError] of
    reading a field of an undefined [currentWord] in the last one. *)
Definition render (s : State) : option Screen :=
  if negb (bool_decide (is_Some (studyMode s)))
     && (0 <? length (queue s))%nat
  then Some (ModeSelect (length (queue s)))
  else if (length (queue s) =? 0)%nat
          || (length (queue s) <=? currentIndex s)%nat
  then Some (Complete (sessionStats s))
  else
    match currentWord s with
    | None => None
    | Some w =>
        Some (Active (studyMode s) w (currentIndex s + 1)
                (length (queue s)) (isFlipped s || isAnswered s))
    end.

(** *** The session as a machine

    What the user can do on each screen, and the effect of lines 97-106
    after every change of one of its dependencies. *)

(** The outcome of the two random sorts of one [generateQuizOptions]. *)
Record Random : Type := mkRandom {
  shuffleWords : list WordData -> list WordData;
  shuffleTexts : list string -> list string
}.

Inductive Action : Type :=
| Choose (m : StudyMode)
| Flip
| Input (text : string)
| CheckTyping
| SelectQuiz (opt : string)
| Rate (now : Z) (rating : Rating)
| Timer.

(** The controls that the screen of [s] offers: the three mode buttons
    on the chooser; the card (flashcard), the input and its form while
    not [disabled] (typing), the option buttons while not [disabled]
    (quiz); the four rating buttons, which are on every card: the bar
    around them is only made transparent and closed to the pointer
    while nothing is flipped or answered, the buttons are never
    [disabled] and [handleRate] does not look at [isFlipped] or
    [isAnswered], so a key press on a focused button rates all the
    same.  A pending timer fires whatever the screen. *)
Definition enabled (a : Action) (s : State) : bool :=
  match a, render s with
  | Choose _, Some (ModeSelect _) => true
  | Flip, Some (Active (Some flashcard) _ _ _ _) => true
  | Input _, Some (Active (Some typing) _ _ _ _) => negb (isAnswered s)
  | CheckTyping, Some (Active (Some typing) _ _ _ _) => negb (isAnswered s)
  | SelectQuiz opt, Some (Active (Some quiz) _ _ _ _) =>
      negb (isAnswered s) && bool_decide (opt ∈ quizOptions s)
  | Rate _ _, Some (Active _ _ _ _ _) => true
  | Timer, _ => (0 <? timers s)%nat
  | _, _ => false
  end.

(** The handler behind each control; [None] is a [TypeError]. *)
Definition handle (a : Action) (s : State) : option (State * list Effect) :=
  match a with
  | Choose m => Some (chooseMode m s, [])
  | Flip => Some (handleFlip s, [])
  | Input text => Some (set_userInput text s, [])
  | CheckTyping => handleCheckTyping s
  | SelectQuiz opt => handleSelectQuiz opt s
  | Rate now rating => Some (handleRate now rating s)
  | Timer => Some (timerFires s, [])
  end.

(** One of [currentIndex], [studyMode], [autoRead], [isFlipped] differs
    (the queue is set once, so [currentWord] follows [currentIndex]). *)
Definition depsChanged (s s' : State) : bool :=
  negb (currentIndex s =? currentIndex s')%nat
  || negb (bool_decide (studyMode s = studyMode s'))
  || negb (Bool.eqb (autoRead s) (autoRead s'))
  || negb (Bool.eqb (isFlipped s) (isFlipped s')).

Inductive Result : Type :=
| Stepped (s : State) (effects : list Effect)
| NotEnabled
| Throws.

(** One action on the session over the list [words], with [rnd] for the
    random sorts of the effect if it runs. *)
Definition step (words : list WordData) (a : Action) (rnd : Random)
    (s : State) : Result :=
  if enabled a s then
    match handle a s with
    | None => Throws
    | Some (s1, e1) =>
        if depsChanged s s1 then
          let '(s2, e2) :=
            itemEffect (shuffleWords rnd) (shuffleTexts rnd) words s1 in
          Stepped s2 (e1 ++ e2)
        else Stepped s1 e1
    end
  else NotEnabled.

(** A sequence of actions, with the effects it asks for in order. *)
Fixpoint run (words : list WordData) (acts : list (Action * Random))
    (s : State) : Result :=
  match acts with
  | [] => Stepped s []
  | (a, rnd) :: acts' =>
      match step words a rnd s with
      | Stepped s1 e1 =>
          match run words acts' s1 with
          | Stepped s2 e2 => Stepped s2 (e1 ++ e2)
          | other => other
          end
      | other => other
      end
  end.

(** The facts about the state that every action keeps. *)
Definition steady (s : State) : Prop :=
  (studyMode s <> Some flashcard -> isFlipped s = false)
  /\ (studyMode s <> Some typing -> studyMode s <> Some quiz ->
      isAnswered s = false)
  /\ isRecording s = false
  /\ (currentIndex s + timers s)%nat = reviewed (sessionStats s)
  /\ (forgotten (sessionStats s) <= reviewed (sessionStats s))%nat
  /\ (studyMode s = None -> reviewed (sessionStats s) = 0%nat).

Definition isUpdate (e : Effect) : bool :=
  match e with
  | UpdateWord _ => true
  | _ => false
  end.

Definition isRate (a : Action * Random) : bool :=
  match fst a with
  | Rate _ _ => true
  | _ => false
  end.

Definition isFail (a : Action * Random) : bool :=
  match fst a with
  | Rate _ rate_fail => true
  | _ => false
  end.

End Study.

(** ** [services/geminiService.ts] *)

Module Gemini.

(** The two module-level caches, and the prompts sent to the language
    model so far (most recent first). *)
Record Service : Type := mkService {
  wordCache : gmap string WordData;
  sentenceCache : gmap string SentenceData;
  prompts : list string
}.

Definition fresh : Service := mkService ∅ ∅ [].

Definition quoted (s : string) : string :=
  let q := String (ascii_of_nat 34) EmptyString in
  String.append q (String.append s q).

(** [ai.models.generateContent(...)] is sent; the service records it. *)
Definition send (prompt : string) (v : Service) : Service :=
  mkService (wordCache v) (sentenceCache v) (prompt :: prompts v).

(** A lookup as far as its [await]: the record found in the cache, or
    the key under which the reply of the model will be stored. *)
Inductive Started (R : Type) : Type :=
| Hit (cached : R)
| Asked (normalized : string).

Arguments Hit {R} cached.
Arguments Asked {R} normalized.

(** [lookupWord(input)] up to [await ai.models.generateContent(...)]. *)
Definition lookupWord_start (input : string) (v : Service)
    : Started WordData * Service :=
  let normalized := JS.toLowerCase (JS.trim input) in
  match wordCache v !! normalized with
  | Some cached => (Hit cached, v)
  | None =>
      (Asked normalized,
       send (String.append "Analyze this word: " (quoted normalized)) v)
  end.

(** [lookupWord] from its [await] on.  [reply] is what
    [JSON.parse(response.text)] gives, [None] when the call or the
    parsing throws; the promise is then rejected ([None]). *)
Definition lookupWord_resume (normalized : string) (reply : option WordData)
    (v : Service) : option WordData * Service :=
  match reply with
  | None => (None, v)
  | Some result =>
      (Some result,
       mkService (<[normalized := result]> (wordCache v)) (sentenceCache v)
         (prompts v))
  end.

(** A [lookupWord(input)] that runs to its end before anything else
    touches the service. *)
Definition lookupWord (input : string) (reply : option WordData)
    (v : Service) : option WordData * Service :=
  match lookupWord_start input v with
  | (Hit cached, v1) => (Some cached, v1)
  | (Asked normalized, v1) => lookupWord_resume normalized reply v1
  end.

(** [lookupSentence(input)], in the same three parts. *)
Definition lookupSentence_start (input : string) (v : Service)
    : Started SentenceData * Service :=
  let normalized := JS.trim input in
  match sentenceCache v !! normalized with
  | Some cached => (Hit cached, v)
  | None =>
      (Asked normalized,
       send (String.append "Analyze: " (quoted normalized)) v)
  end.

Definition lookupSentence_resume (normalized : string)
    (reply : option SentenceData) (v : Service)
    : option SentenceData * Service :=
  match reply with
  | None => (None, v)
  | Some result =>
      (Some result,
       mkService (wordCache v) (<[normalized := result]> (sentenceCache v))
         (prompts v))
  end.

Definition lookupSentence (input : string) (reply : option SentenceData)
    (v : Service) : option SentenceData * Service :=
  match lookupSentence_start input v with
  | (Hit cached, v1) => (Some cached, v1)
  | (Asked normalized, v1) => lookupSentence_resume normalized reply v1
  end.

(** The steps of lookups that overlap: any lookup may start, and any
    lookup that waits may get its reply. *)
Inductive Op : Type :=
| StartWord (input : string)
| ResumeWord (normalized : string) (reply : option WordData)
| StartSentence (input : string)
| ResumeSentence (normalized : string) (reply : option SentenceData).

Definition op (o : Op) (v : Service) : Service :=
  match o with
  | StartWord input => snd (lookupWord_start input v)
  | ResumeWord normalized reply => snd (lookupWord_resume normalized reply v)
  | StartSentence input => snd (lookupSentence_start input v)
  | ResumeSentence normalized reply =>
      snd (lookupSentence_resume normalized reply v)
  end.

(** The service after the steps [os], first to last. *)
Definition ops (os : list Op) (v : Service) : Service :=
  fold_left (fun v o => op o v) os v.

(** The step stores a record under the key [k] of the word cache, of
    the sentence cache. *)
Definition storesWord (k : string) (o : Op) : bool :=
  match o with
  | ResumeWord normalized (Some _) => String.eqb normalized k
  | _ => false
  end.

Definition storesSentence (k : string) (o : Op) : bool :=
  match o with
  | ResumeSentence normalized (Some _) => String.eqb normalized k
  | _ => false
  end.

End Gemini.

(** ** [App.tsx] *)

Module App.

Inductive SearchMode : Type := wordMode | sentenceMode.

#[global] Instance SearchMode_eq_dec : EqDecision SearchMode.
Proof. solve_decision. Defined.

Inductive View : Type := search | flashcards | study.

#[global] Instance View_eq_dec : EqDecision View.
Proof. solve_decision. Defined.

Record State : Type := mkState {
  query : string;
  searchMode : SearchMode;
  wordData : option WordData;
  sentenceData : option SentenceData;
  loading : bool;
  error : option string;
  currentView : View;
  latestQueryRef : string;
  savedWords : list WordData;
  savedSentences : list SentenceData;
  studyQueue : list WordData
}.

Definition set_query (q : string) (s : State) : State :=
  mkState q (searchMode s) (wordData s) (sentenceData s) (loading s)
    (error s) (currentView s) (latestQueryRef s) (savedWords s)
    (savedSentences s) (studyQueue s).

Definition set_searchMode (m : SearchMode) (s : State) : State :=
  mkState (query s) m (wordData s) (sentenceData s) (loading s)
    (error s) (currentView s) (latestQueryRef s) (savedWords s)
    (savedSentences s) (studyQueue s).

Definition set_wordData (d : option WordData) (s : State) : State :=
  mkState (query s) (searchMode s) d (sentenceData s) (loading s)
    (error s) (currentView s) (latestQueryRef s) (savedWords s)
    (savedSentences s) (studyQueue s).

Definition set_sentenceData (d : option SentenceData) (s : State) : State :=
  mkState (query s) (searchMode s) (wordData s) d (loading s)
    (error s) (currentView s) (latestQueryRef s) (savedWords s)
    (savedSentences s) (studyQueue s).

Definition set_loading (b : bool) (s : State) : State :=
  mkState (query s) (searchMode s) (wordData s) (sentenceData s) b
    (error s) (currentView s) (latestQueryRef s) (savedWords s)
    (savedSentences s) (studyQueue s).

Definition set_error (e : option string) (s : State) : State :=
  mkState (query s) (searchMode s) (wordData s) (sentenceData s)
    (loading s) e (currentView s) (latestQueryRef s) (savedWords s)
    (savedSentences s) (studyQueue s).

Definition set_currentView (v : View) (s : State) : State :=
  mkState (query s) (searchMode s) (wordData s) (sentenceData s)
    (loading s) (error s) v (latestQueryRef s) (savedWords s)
    (savedSentences s) (studyQueue s).

Definition set_latestQueryRef (q : string) (s : State) : State :=
  mkState (query s) (searchMode s) (wordData s) (sentenceData s)
    (loading s) (error s) (currentView s) q (savedWords s)
    (savedSentences s) (studyQueue s).

Definition set_savedWords (l : list WordData) (s : State) : State :=
  mkState (query s) (searchMode s) (wordData s) (sentenceData s)
    (loading s) (error s) (currentView s) (latestQueryRef s) l
    (savedSentences s) (studyQueue s).

Definition set_savedSentences (l : list SentenceData) (s : State) : State :=
  mkState (query s) (searchMode s) (wordData s) (sentenceData s)
    (loading s) (error s) (currentView s) (latestQueryRef s)
    (savedWords s) l (studyQueue s).

Definition set_studyQueue (l : list WordData) (s : State) : State :=
  mkState (query s) (searchMode s) (wordData s) (sentenceData s)
    (loading s) (error s) (currentView s) (latestQueryRef s)
    (savedWords s) (savedSentences s) l.

(** The initial cells; the two decks are what the local storage held. *)
Definition initial (storedWords : list WordData)
    (storedSentences : list SentenceData) : State :=
  mkState "" wordMode None None false None search "" storedWords
    storedSentences [].

(** [!x.next_review || x.next_review <= now] *)
Definition isDue (now : Z) (next : option JS.num) : bool :=
  negb (JS.truthy next) || JS.leb (JS.to_num next) (JS.Num now).

(** [dueCount], with [now] the [Date.now()] of the render. *)
Definition dueCount (now : Z) (s : State) : nat :=
  let dWords :=
    length (List.filter (fun w => isDue now (next_review w)) (savedWords s)) in
  let dSentences :=
    length (List.filter (fun d => isDue now (s_next_review d))
              (savedSentences s)) in
  (dWords + dSentences)%nat.

(** [onStartStudy]; the [sort(() => Math.random() - 0.5)] is the
    argument [shuffle]. *)
Definition onStartStudy (shuffle : list WordData -> list WordData)
    (s : State) : State :=
  set_currentView study (set_studyQueue (shuffle (savedWords s)) s).

(** [onUpdateWord] as passed to the study session. *)
Definition onUpdateWord (w : WordData) (s : State) : State :=
  set_savedWords
    (map (fun old => if String.eqb (word old) (word w) then w else old)
       (savedWords s)) s.

(** The study session that [App] renders in the [study] view. *)
Definition studySession (storedAutoRead : bool) (s : State) : Study.State :=
  Study.mount storedAutoRead (studyQueue s).

(** *** The decks *)

(** [isItemSaved(item)] *)
Definition isItemSaved (item : option Item) (s : State) : bool :=
  match item with
  | None => false
  | Some (inl w) =>
      existsb
        (fun x => String.eqb (JS.toLowerCase (word x))
                    (JS.toLowerCase (word w)))
        (savedWords s)
  | Some (inr d) =>
      existsb (fun x => String.eqb (sentence x) (sentence d))
        (savedSentences s)
  end.

(** [handleToggleSave(item)], called at time [now]. *)
Definition handleToggleSave (now : Z) (item : option Item) (s : State)
    : State :=
  match item with
  | None => s
  | Some (inl w) =>
      if isItemSaved item s
      then set_savedWords
             (List.filter
                (fun x => negb (String.eqb (JS.toLowerCase (word x))
                                  (JS.toLowerCase (word w))))
                (savedWords s)) s
      else set_savedWords (with_schedule w 0 (JS.Num now) :: savedWords s) s
  | Some (inr d) =>
      if isItemSaved item s
      then set_savedSentences
             (List.filter
                (fun x => negb (String.eqb (sentence x) (sentence d)))
                (savedSentences s)) s
      else set_savedSentences
             (s_with_schedule d 0 (JS.Num now) :: savedSentences s) s
  end.

(** [onRemoveWord] and [onRemoveSentence] as passed to the deck page. *)
Definition onRemoveWord (text : string) (s : State) : State :=
  set_savedWords
    (List.filter (fun w => negb (String.eqb (word w) text)) (savedWords s)) s.

Definition onRemoveSentence (text : string) (s : State) : State :=
  set_savedSentences
    (List.filter (fun d => negb (String.eqb (sentence d) text))
       (savedSentences s)) s.

(** [onComplete] as passed to the study session. *)
Definition onComplete (s : State) : State := set_currentView flashcards s.

(** The [onUpdateWord] calls among the effects of a session handler. *)
Definition applyEffects (effects : list Study.Effect) (s : State) : State :=
  fold_left
    (fun s e => match e with
                | Study.UpdateWord w => onUpdateWord w s
                | _ => s
                end)
    effects s.

(** What happens to the decks: an item is saved or unsaved at a time, a
    word or a sentence is removed, studying starts with the outcome
    [shuffled] of the random sort, the session rates the word at the
    index [i] of its queue, the session is left. *)
Inductive DeckEvent : Type :=
| ToggleSave (now : Z) (item : Item)
| RemoveWord (text : string)
| RemoveSentence (text : string)
| StartStudy (shuffled : list WordData)
| Rated (i : nat) (now : Z) (rating : Study.Rating)
| LeaveStudy.

(** One event; [None] when it cannot happen: a sort gives a reordering
    of its input, and only a running session rates a word of its
    queue. *)
Definition deckStep (e : DeckEvent) (s : State) : option State :=
  match e with
  | ToggleSave now item => Some (handleToggleSave now (Some item) s)
  | RemoveWord text => Some (onRemoveWord text s)
  | RemoveSentence text => Some (onRemoveSentence text s)
  | StartStudy shuffled =>
      if bool_decide (Permutation (savedWords s) shuffled)
      then Some (onStartStudy (fun _ => shuffled) s)
      else None
  | Rated i now rating =>
      if bool_decide (currentView s = study)
         && (i <? length (studyQueue s))%nat
      then Some (applyEffects
                   (snd (Study.handleRate now rating
                           (Study.set_currentIndex i
                              (studySession false s))))
                   s)
      else None
  | LeaveStudy => Some (onComplete s)
  end.

Fixpoint deckRun (es : list DeckEvent) (s : State) : option State :=
  match es with
  | [] => Some s
  | e :: es' =>
      match deckStep e s with
      | Some s' => deckRun es' s'
      | None => None
      end
  end.

(** The text of a word as [isItemSaved] compares it. *)
Definition lowerText (w : WordData) : string := JS.toLowerCase (word w).

(** The word carries a level of the table and an integer review time. *)
Definition scheduled (w : WordData) : bool :=
  match srs_level w, next_review w with
  | Some l, Some (JS.Num _) => (0 <=? l) && (l <=? Study.lastIndex)
  | _, _ => false
  end.

(** The time of the event, if it saves or rates at one. *)
Definition eventTime (e : DeckEvent) : option Z :=
  match e with
  | ToggleSave now _ => Some now
  | Rated _ now _ => Some now
  | _ => None
  end.

(** *** The search controller *)

(** A call of [handleSearch] that is waiting for its lookup: the
    [cleanQuery] and the [searchMode] of its closure. *)
Record Request : Type := mkRequest {
  req_query : string;
  req_mode : SearchMode
}.

#[global] Instance Request_eq_dec : EqDecision Request.
Proof. solve_decision. Defined.

(** How the awaited lookup ends. *)
Inductive Outcome : Type :=
| FoundWord (w : WordData)
| FoundSentence (d : SentenceData)
| Rejected.

Definition notFound : string := "Không tìm thấy kết quả.".

(** [handleSearch] up to its [await]. *)
Definition handleSearch (s : State) : State * option Request :=
  let cleanQuery := JS.trim (query s) in
  if JS.is_empty cleanQuery then (s, None)
  else
    (set_error None (set_loading true (set_latestQueryRef cleanQuery s)),
     Some (mkRequest cleanQuery (searchMode s))).

(** [handleSearch] from its [await] on, for the call [r]. *)
Definition handleSearch_resume (r : Request) (o : Outcome) (s : State)
    : State :=
  let s1 :=
    match o with
    | FoundWord w =>
        if bool_decide (latestQueryRef s = req_query r)
        then set_wordData (Some w) s else s
    | FoundSentence d =>
        if bool_decide (latestQueryRef s = req_query r)
        then set_sentenceData (Some d) s else s
    | Rejected =>
        if bool_decide (latestQueryRef s = req_query r)
        then set_error (Some notFound) s else s
    end in
  if bool_decide (latestQueryRef s1 = req_query r)
  then set_loading false s1 else s1.

(** The lookup of a request returns data of the kind of its mode. *)
Definition fits (r : Request) (o : Outcome) : bool :=
  match o, req_mode r with
  | FoundWord _, wordMode => true
  | FoundSentence _, sentenceMode => true
  | Rejected, _ => true
  | _, _ => false
  end.

(** What the search view shows (source lines 144-152). *)
Inductive Display : Type :=
| Skeleton
| ErrorBox (message : string)
| WordCard (w : WordData)
| SentenceCard (d : SentenceData)
| Placeholder
| Nothing.

Definition display (s : State) : Display :=
  if loading s then Skeleton
  else
    match error s with
    | Some message => ErrorBox message
    | None =>
        match searchMode s, wordData s, sentenceData s with
        | wordMode, Some w, _ => WordCard w
        | sentenceMode, _, Some d => SentenceCard d
        | _, None, None => Placeholder
        | _, _, _ => Nothing
        end
    end.

(** The events of the search view, and the controller with the calls
    of [handleSearch] that are still waiting. *)
Inductive Event : Type :=
| SetQuery (text : string)
| SetSearchMode (m : SearchMode)
| Submit
| Arrive (r : Request) (o : Outcome).

Record Config : Type := mkConfig {
  app : State;
  inflight : list Request
}.

Fixpoint remove_first (r : Request) (l : list Request) : list Request :=
  match l with
  | [] => []
  | x :: l' => if bool_decide (x = r) then l' else x :: remove_first r l'
  end.

(** One event; [None] when the event cannot happen (a lookup that was
    never started cannot end). *)
Definition step (e : Event) (c : Config) : option Config :=
  match e with
  | SetQuery text => Some (mkConfig (set_query text (app c)) (inflight c))
  | SetSearchMode m =>
      Some (mkConfig (set_searchMode m (app c)) (inflight c))
  | Submit =>
      let '(s, r) := handleSearch (app c) in
      Some (mkConfig s (option_list r ++ inflight c))
  | Arrive r o =>
      if bool_decide (r ∈ inflight c) && fits r o
      then Some (mkConfig (handleSearch_resume r o (app c))
                   (remove_first r (inflight c)))
      else None
  end.

Fixpoint run (es : list Event) (c : Config) : option Config :=
  match es with
  | [] => Some c
  | e :: es' =>
      match step e c with
      | Some c' => run es' c'
      | None => None
      end
  end.

(** The clean query of the last effective submission in a run that
    starts with [q] in the input box and [latest] as the last one. *)
Fixpoint lastSubmitted (es : list Event) (q latest : string) : string :=
  match es with
  | [] => latest
  | SetQuery text :: es' => lastSubmitted es' text latest
  | Submit :: es' =>
      lastSubmitted es' q
        (if JS.is_empty (JS.trim q) then latest else JS.trim q)
  | _ :: es' => lastSubmitted es' q latest
  end.

(** The search view on the stored decks, with the mode [m] chosen and
    nothing typed yet. *)
Definition start (m : SearchMode) (storedWords : list WordData)
    (storedSentences : list SentenceData) : Config :=
  mkConfig (set_searchMode m (initial storedWords storedSentences)) [].

(** *** The debounced search (source lines 48-53) *)

(** [handleSearch] as the closure of a render whose [query] and
    [searchMode] were [q] and [m]; the reference and the setters are
    those of the component. *)
Definition handleSearch_from (q : string) (m : SearchMode) (s : State)
    : State * option Request :=
  let cleanQuery := JS.trim q in
  if JS.is_empty cleanQuery then (s, None)
  else
    (set_error None (set_loading true (set_latestQueryRef cleanQuery s)),
     Some (mkRequest cleanQuery m)).

(** A timer that has not fired and was not cleared: its identifier and
    the [query] and [searchMode] of the render that set it. *)
Record Pending : Type := mkPending {
  timer_id : nat;
  timer_query : string;
  timer_mode : SearchMode
}.

(** The search view with its timers: the timers alive, the identifier in
    [debounceTimerRef.current], the next identifier that [setTimeout]
    gives, and whether the last run of the effect returned a cleanup. *)
Record Page : Type := mkPage {
  config : Config;
  alive : list Pending;
  debounceTimerRef : option nat;
  nextTimer : nat;
  hasCleanup : bool
}.

(** [if (debounceTimerRef.current) clearTimeout(debounceTimerRef.current)] *)
Definition clearRef (p : Page) : Page :=
  match debounceTimerRef p with
  | Some id =>
      mkPage (config p)
        (List.filter (fun t => negb (timer_id t =? id)%nat) (alive p))
        (debounceTimerRef p) (nextTimer p) (hasCleanup p)
  | None => p
  end.

(** One run of the effect: the cleanup of the run before, then the
    body. *)
Definition debounceEffect (p : Page) : Page :=
  let p1 := if hasCleanup p then clearRef p else p in
  let s := app (config p1) in
  if negb (bool_decide (currentView s = search))
     || (String.length (JS.trim (query s)) <? 2)%nat
  then mkPage (config p1) (alive p1) (debounceTimerRef p1) (nextTimer p1)
         false
  else
    let p2 := clearRef p1 in
    mkPage (config p2)
      (mkPending (nextTimer p2) (query s) (searchMode s) :: alive p2)
      (Some (nextTimer p2)) (S (nextTimer p2)) true.

(** The page after its first effects: nothing typed, no timer. *)
Definition pageStart (storedWords : list WordData)
    (storedSentences : list SentenceData) : Page :=
  mkPage (mkConfig (initial storedWords storedSentences) []) [] None 1 false.

Inductive PageEvent : Type :=
| Typed (text : string)
| ModeChosen (m : SearchMode)
| ViewChosen (v : View)
| TimerFires (id : nat)
| FormSubmitted
| Arrives (r : Request) (o : Outcome).

(** A setter that changes one of [query], [searchMode], [currentView]
    lets the effect run; one that sets the value already held does
    nothing. *)
Definition setAndRun (changed : bool) (s : State) (p : Page) : Page :=
  if changed
  then debounceEffect
         (mkPage (mkConfig s (inflight (config p))) (alive p)
            (debounceTimerRef p) (nextTimer p) (hasCleanup p))
  else p.

Definition withConfig (c : Config) (p : Page) : Page :=
  mkPage c (alive p) (debounceTimerRef p) (nextTimer p) (hasCleanup p).

Definition pageStep (e : PageEvent) (p : Page) : option Page :=
  let s := app (config p) in
  match e with
  | Typed text =>
      Some (setAndRun (negb (String.eqb text (query s))) (set_query text s) p)
  | ModeChosen m =>
      Some (setAndRun (negb (bool_decide (m = searchMode s)))
              (set_searchMode m s) p)
  | ViewChosen v =>
      Some (setAndRun (negb (bool_decide (v = currentView s)))
              (set_currentView v s) p)
  | TimerFires id =>
      match List.find (fun t => (timer_id t =? id)%nat) (alive p) with
      | Some t =>
          let '(s', r) := handleSearch_from (timer_query t) (timer_mode t) s in
          Some (mkPage (mkConfig s' (option_list r ++ inflight (config p)))
                  (List.filter (fun t => negb (timer_id t =? id)%nat)
                     (alive p))
                  (debounceTimerRef p) (nextTimer p) (hasCleanup p))
      | None => None
      end
  | FormSubmitted =>
      if bool_decide (currentView s = search)
      then option_map (fun c => withConfig c p) (step Submit (config p))
      else None
  | Arrives r o =>
      option_map (fun c => withConfig c p) (step (Arrive r o) (config p))
  end.

Fixpoint pageRun (es : list PageEvent) (p : Page) : option Page :=
  match es with
  | [] => Some p
  | e :: es' =>
      match pageStep e p with
      | Some p' => pageRun es' p'
      | None => None
      end
  end.

(** No timer is alive, or one, set for what the box and the mode show
    now. *)
Definition settled (p : Page) : Prop :=
  alive p = []
  \/ exists id,
       alive p
       = [mkPending id (query (app (config p)))
            (searchMode (app (config p)))]
       /\ debounceTimerRef p = Some id
       /\ hasCleanup p = true
       /\ currentView (app (config p)) = search
       /\ (2 <= String.length (JS.trim (query (app (config p)))))%nat.

(** At most one timer is alive, and the reference names it. *)
Definition tracked (p : Page) : Prop :=
  alive p = []
  \/ exists t, alive p = [t] /\ debounceTimerRef p = Some (timer_id t)
               /\ hasCleanup p = true.

(** What the search view shows after each event of a run. *)
Fixpoint displays (es : list Event) (c : Config) : option (list Display) :=
  match es with
  | [] => Some []
  | e :: es' =>
      match step e c with
      | Some c' => cons (display (app c')) <$> displays es' c'
      | None => None
      end
  end.

Definition keepsMode (e : Event) : bool :=
  match e with
  | SetSearchMode _ => false
  | _ => true
  end.

End App.

(** ** Sample data *)

Module Sample.

Definition apple : WordData := plain_word "apple" "qua tao" (Some 0) None.
Definition river : WordData :=
  plain_word "river" "dong song" (Some 2) (Some (JS.Num 2000)).
Definition stone : WordData := plain_word "stone" "hon da" None None.
Definition cloud : WordData :=
  plain_word "cloud" "dam may" (Some 6) (Some (JS.Num 500)).

(** A word whose text ends with a space. *)
Definition padded : WordData := plain_word "cat " "con meo" (Some 0) None.

Definition greeting : SentenceData :=
  mkSentence "How are you?" "Ban khoe khong?" "" "" (JS.Num 9) []
    (Some 0) None.

Definition deck : list WordData := [apple; river; stone; cloud].

(** The session on [deck], in the mode [m]. *)
Definition session (m : Study.StudyMode) : Study.State :=
  Study.chooseMode m (Study.mount false deck).

(** Random sorts that reverse their input. *)
Definition reversing : Study.Random :=
  Study.mkRandom (@rev WordData) (@rev string).

End Sample.

(** * Properties *)

(** ** The scheduler *)

Section Scheduler.

Import Study.

Lemma or_zero_default (o : option Z) : JS.or_zero o = default 0 o.
Proof.
  destruct o as [z|]; simpl; [|reflexivity].
  destruct (Z.eqb_spec z 0); congruence.
Qed.

Lemma lastIndex_value : lastIndex = 6.
Proof. reflexivity. Qed.

(** The one [onUpdateWord] call of a rating, and the state it leaves. *)
Lemma handleRate_current (now : Z) (rating : Rating) (s : State)
    (w : WordData) :
  currentWord s = Some w ->
  exists s',
    handleRate now rating s
    = (s', [UpdateWord
              (with_schedule w
                 (nextLevel rating (default 0 (srs_level w)))
                 (nextReviewDate now
                    (nextLevel rating (default 0 (srs_level w)))))])
    /\ forgotten (sessionStats s')
       = (forgotten (sessionStats s)
          + match rating with rate_fail => 1 | _ => 0 end)%nat
    /\ reviewed (sessionStats s') = (reviewed (sessionStats s) + 1)%nat.
Proof.
  intros Hw. unfold handleRate. rewrite Hw, or_zero_default.
  eexists. split; [reflexivity|].
  destruct rating;
    destruct (Z.of_nat (currentIndex s) <? Z.of_nat (length (queue s)) - 1);
    simpl; split; lia.
Qed.

(** Without a current word a rating does nothing. *)
Lemma handleRate_guard (now : Z) (rating : Rating) (s : State) :
  currentWord s = None -> handleRate now rating s = (s, []).
Proof. intros Hw. unfold handleRate. now rewrite Hw. Qed.

Lemma index_valid (l : Z) :
  0 <= l <= lastIndex ->
  exists days, JS.index SRS_INTERVALS l = Some days
               /\ SRS_INTERVALS !! Z.to_nat l = Some days.
Proof.
  intros Hl. rewrite lastIndex_value in Hl. unfold JS.index.
  destruct (Z.ltb_spec l 0); [lia|].
  assert (Hn : (Z.to_nat l < length SRS_INTERVALS)%nat) by (simpl; lia).
  destruct (lookup_lt_is_Some_2 _ _ Hn) as [d Hd]. eauto.
Qed.

Lemma nextLevel_valid (rating : Rating) (l : Z) :
  0 <= l <= lastIndex -> 0 <= nextLevel rating l <= lastIndex.
Proof. unfold nextLevel. rewrite !lastIndex_value. destruct rating; lia. Qed.

Lemma interval_bounds (i : nat) (days : Z) :
  SRS_INTERVALS !! i = Some days -> 1 <= days <= 180.
Proof.
  intros Hd.
  do 7 (destruct i as [|i]; [injection Hd as <-; lia|]).
  discriminate.
Qed.

Lemma nextReviewDate_valid (now l days : Z) :
  JS.index SRS_INTERVALS l = Some days ->
  nextReviewDate now l = JS.Num (now + days * 86400000).
Proof.
  intros Hd. unfold nextReviewDate. rewrite Hd. simpl.
  f_equal. lia.
Qed.

(** C1: with [L] the current level of the rated word ([srs_level], 0 when
    absent), the level written by [handleRate] is 0 for [fail] (and the
    [forgotten] counter of the session grows by exactly 1),
    [max 0 L] for [hard] (which is [L] itself for a level that is not
    negative), [min (L + 1) lastIndex] for [good] and
    [min (L + 2) lastIndex] for [easy], where [lastIndex] is the last
    index of the interval table. *)
Theorem C1_new_level (now : Z) (rating : Rating) (s : State) (w : WordData) :
  currentWord s = Some w ->
  exists s' u,
    handleRate now rating s = (s', [UpdateWord u])
    /\ srs_level u
       = Some match rating with
              | rate_fail => 0
              | rate_hard => Z.max 0 (default 0 (srs_level w))
              | rate_good => Z.min (default 0 (srs_level w) + 1) lastIndex
              | rate_easy => Z.min (default 0 (srs_level w) + 2) lastIndex
              end
    /\ (rating = rate_hard -> 0 <= default 0 (srs_level w) ->
        srs_level u = Some (default 0 (srs_level w)))
    /\ (rating = rate_fail ->
        forgotten (sessionStats s') = (forgotten (sessionStats s) + 1)%nat)
    /\ (rating <> rate_fail ->
        forgotten (sessionStats s') = forgotten (sessionStats s))
    /\ Z.of_nat (length SRS_INTERVALS) = lastIndex + 1.
Proof.
  intros Hw.
  destruct (handleRate_current now rating s w Hw) as (s' & Hr & Hf & _).
  exists s'. eexists. split; [exact Hr|].
  split; [destruct rating; reflexivity|].
  split; [intros -> Hl; simpl; f_equal; lia|].
  split; [intros ->; exact Hf|].
  split; [|reflexivity].
  intros Hne. rewrite Hf. destruct rating; [congruence|lia..].
Qed.

(** C2: for a word whose level is an index of the table, the
    [next_review] written by [handleRate] is
    [now + SRS_INTERVALS[newLevel] * 86400000], an integer; the table is
    [1, 3, 7, 14, 30, 90, 180], strictly increasing.  For every time that
    a [Date] can hold the sum stays below 2^53, where the arithmetic of
    the program is exact. *)
Theorem C2_next_review (now : Z) (rating : Rating) (s : State)
    (w : WordData) :
  currentWord s = Some w ->
  0 <= default 0 (srs_level w) <= lastIndex ->
  exists s' u newLevel days,
    handleRate now rating s = (s', [UpdateWord u])
    /\ srs_level u = Some newLevel
    /\ SRS_INTERVALS !! Z.to_nat newLevel = Some days
    /\ 0 <= newLevel <= lastIndex
    /\ next_review u = Some (JS.Num (now + days * 86400000))
    /\ (0 <= now <= 8640000000000000 ->
        0 <= now + days * 86400000 < 2 ^ 53)
    /\ SRS_INTERVALS = [1; 3; 7; 14; 30; 90; 180]
    /\ (forall i j a b, (i < j)%nat ->
          SRS_INTERVALS !! i = Some a -> SRS_INTERVALS !! j = Some b ->
          a < b).
Proof.
  intros Hw Hl.
  destruct (handleRate_current now rating s w Hw) as (s' & Hr & _).
  pose proof (nextLevel_valid rating _ Hl) as Hn.
  destruct (index_valid _ Hn) as (days & Hi & Hd).
  exists s'. eexists. exists (nextLevel rating (default 0 (srs_level w))), days.
  split; [exact Hr|]. split; [reflexivity|]. split; [exact Hd|].
  split; [exact Hn|].
  split; [simpl; f_equal; now apply nextReviewDate_valid|].
  split; [intros Hrange; pose proof (interval_bounds _ _ Hd); lia|].
  split; [reflexivity|].
  intros i j a b Hij Ha Hb.
  assert (Hj : (j < 7)%nat) by (apply lookup_lt_Some in Hb; exact Hb).
  do 7 (destruct j as [|j]; [do 7 (destruct i as [|i]; [simpl in *; try lia;
     injection Ha as <-; injection Hb as <-; lia|]); lia|]).
  lia.
Qed.

(** C10: the word handed to [onUpdateWord] has every field of the rated
    word except [srs_level] and [next_review]. *)
Theorem C10_frame (now : Z) (rating : Rating) (s : State) (w : WordData) :
  currentWord s = Some w ->
  exists s' u,
    handleRate now rating s = (s', [UpdateWord u])
    /\ word u = word w
    /\ meaning_vi u = meaning_vi w
    /\ definition_en u = definition_en w
    /\ ipa u = ipa w
    /\ syllables u = syllables w
    /\ spelling_tip u = spelling_tip w
    /\ part_of_speech u = part_of_speech w
    /\ example_en u = example_en w
    /\ example_vi u = example_vi w
    /\ example_b2_en u = example_b2_en w
    /\ example_b2_vi u = example_b2_vi w
    /\ root_word u = root_word w
    /\ mnemonic u = mnemonic w
    /\ synonyms u = synonyms w
    /\ antonyms u = antonyms w
    /\ word_family u = word_family w
    /\ collocations u = collocations w.
Proof.
  intros Hw.
  destruct (handleRate_current now rating s w Hw) as (s' & Hr & _).
  exists s'. eexists. split; [exact Hr|].
  repeat split.
Qed.

Lemma C1_new_level_witness :
  exists s' u,
    handleRate 1000 rate_fail (Sample.session flashcard) = (s', [UpdateWord u])
    /\ srs_level u = Some 0
    /\ forgotten (sessionStats s') = 1%nat.
Proof.
  destruct (C1_new_level 1000 rate_fail (Sample.session flashcard)
              Sample.apple eq_refl)
    as (s' & u & Hr & Hl & _ & Hf & _).
  exists s', u. split; [exact Hr|]. split; [exact Hl|].
  exact (Hf eq_refl).
Defined.

Lemma C2_next_review_witness :
  exists s' u,
    handleRate 1000 rate_easy (Sample.session typing) = (s', [UpdateWord u])
    /\ srs_level u = Some 2
    /\ next_review u = Some (JS.Num 604801000).
Proof.
  destruct (C2_next_review 1000 rate_easy (Sample.session typing)
              Sample.apple eq_refl ltac:(simpl; rewrite lastIndex_value; lia))
    as (s' & u & l & d & Hr & Hl & Hd & _ & Hn & _ & _).
  exists s', u. split; [exact Hr|].
  injection Hr as _ <-. simpl in Hl. injection Hl as <-.
  simpl in Hd. injection Hd as <-.
  split; [reflexivity|exact Hn].
Defined.

Lemma C10_frame_witness :
  exists s' u,
    handleRate 1000 rate_good (Sample.session quiz) = (s', [UpdateWord u])
    /\ word u = "apple" /\ meaning_vi u = "qua tao".
Proof.
  destruct (C10_frame 1000 rate_good (Sample.session quiz) Sample.apple
              eq_refl)
    as (s' & u & Hr & Hword & Hmeaning & _).
  exists s', u. split; [exact Hr|]. split; [exact Hword|exact Hmeaning].
Defined.

End Scheduler.

(** ** The decks of [App] *)

Section Decks.

Import App.

(** The due test, case by case on the stored time. *)
Lemma isDue_cases (now : Z) (next : option JS.num) :
  isDue now next
  = match next with
    | None => true
    | Some JS.NaN => true
    | Some (JS.Num t) => (t =? 0) || (t <=? now)
    end.
Proof.
  destruct next as [[t|]|]; try reflexivity.
  unfold isDue. simpl. destruct (t =? 0); reflexivity.
Qed.

Lemma dueCount_cons_word (now : Z) (w : WordData) (s : State) :
  dueCount now (set_savedWords (w :: savedWords s) s)
  = ((if isDue now (next_review w) then 1 else 0) + dueCount now s)%nat.
Proof.
  unfold dueCount. simpl. destruct (isDue now (next_review w)); reflexivity.
Qed.

Lemma dueCount_cons_sentence (now : Z) (d : SentenceData) (s : State) :
  dueCount now (set_savedSentences (d :: savedSentences s) s)
  = ((if isDue now (s_next_review d) then 1 else 0) + dueCount now s)%nat.
Proof.
  unfold dueCount. simpl. destruct (isDue now (s_next_review d)); simpl; lia.
Qed.

(** C3: at a time [now] of the epoch, a saved item whose [next_review]
    is absent or an integer time is counted as due exactly when
    [next_review] is absent or at most [now]; so an item without
    [next_review] and one with [now - 1] are due, one with [now + 1] is
    not.  This holds for the words and for the sentences of [dueCount]. *)
Theorem C3_due_filter (now : Z) (next : option JS.num) :
  0 <= now ->
  next <> Some JS.NaN ->
  (isDue now next = true
   <-> next = None \/ exists t, next = Some (JS.Num t) /\ t <= now)
  /\ isDue now None = true
  /\ isDue now (Some (JS.Num (now - 1))) = true
  /\ isDue now (Some (JS.Num (now + 1))) = false
  /\ (forall (w : WordData) (s : State),
        next_review w = next ->
        (dueCount now (set_savedWords (w :: savedWords s) s)
         = S (dueCount now s)
         <-> next = None \/ exists t, next = Some (JS.Num t) /\ t <= now)
        /\ (dueCount now (set_savedWords (w :: savedWords s) s)
            = dueCount now s
            <-> ~ (next = None
                   \/ exists t, next = Some (JS.Num t) /\ t <= now)))
  /\ (forall (d : SentenceData) (s : State),
        s_next_review d = next ->
        (dueCount now (set_savedSentences (d :: savedSentences s) s)
         = S (dueCount now s)
         <-> next = None \/ exists t, next = Some (JS.Num t) /\ t <= now)).
Proof.
  intros Hnow Hnan.
  assert (Hiff : isDue now next = true
                 <-> next = None
                     \/ exists t, next = Some (JS.Num t) /\ t <= now).
  { rewrite isDue_cases. destruct next as [[t|]|].
    - rewrite orb_true_iff, Z.eqb_eq, Z.leb_le. split.
      + intros [Ht | Hle]; right; exists t; split; auto; lia.
      + intros [Hn | (t' & Ht & Hle)]; [discriminate|].
        injection Ht as ->. now right.
    - congruence.
    - split; auto. }
  split; [exact Hiff|].
  split; [reflexivity|].
  split.
  { rewrite isDue_cases. apply orb_true_iff. right. apply Z.leb_le. lia. }
  split.
  { rewrite isDue_cases. apply orb_false_iff.
    split; [apply Z.eqb_neq|apply Z.leb_gt]; lia. }
  split.
  - intros w s Hw. rewrite dueCount_cons_word, Hw, <- Hiff.
    destruct (isDue now next); split; split; intros; try lia;
      congruence.
  - intros d s Hd. rewrite dueCount_cons_sentence, Hd, <- Hiff.
    destruct (isDue now next); split; intros; try lia; congruence.
Qed.

Lemma C3_due_filter_witness :
  isDue 1000 (Some (JS.Num 999)) = true
  /\ isDue 1000 (Some (JS.Num 1001)) = false
  /\ dueCount 1000
       (set_savedWords (Sample.cloud :: savedWords (initial [] []))
          (initial [] []))
     = 1%nat.
Proof.
  destruct (C3_due_filter 1000 (Some (JS.Num 500)) ltac:(lia)
              ltac:(discriminate))
    as (_ & _ & Hbefore & Hafter & Hwords & _).
  split; [exact Hbefore|]. split; [exact Hafter|].
  apply (Hwords Sample.cloud (initial [] []) eq_refl).
  right. exists 500. split; [reflexivity|lia].
Defined.

(** The queue of a session is the list it was given. *)
Lemma mount_queue (auto : bool) (words : list WordData) :
  Study.queue (Study.mount auto words) = words.
Proof.
  unfold Study.mount, Study.syncQueue. destruct words; reflexivity.
Qed.

(** C5 fails as stated: a deck with one word that is due at 2000 is
    studied at 1000. *)
Lemma C5_counterexample :
  let s := onStartStudy (fun l => l) (initial [Sample.river] []) in
  Study.queue (Study.chooseMode Study.flashcard (studySession false s))
  = [Sample.river]
  /\ isDue 1000 (next_review Sample.river) = false.
Proof. split; reflexivity. Qed.

(** C5, amended: when studying starts, the queue of the session is the
    list that [App] supplies, and that list is a random reordering of
    all saved words; no word is left out for not being due. *)
Theorem C5_queue_is_deck (shuffle : list WordData -> list WordData)
    (s : State) (auto : bool) (m : Study.StudyMode) :
  (forall l, Permutation l (shuffle l)) ->
  let s' := onStartStudy shuffle s in
  let session := Study.chooseMode m (studySession auto s') in
  currentView s' = study
  /\ Study.queue session = studyQueue s'
  /\ Permutation (savedWords s) (Study.queue session)
  /\ (forall w, In w (Study.queue session) <-> In w (savedWords s))
  /\ (forall now,
        Forall (fun w => isDue now (next_review w) = true)
          (Study.queue session)
        <-> Forall (fun w => isDue now (next_review w) = true)
              (savedWords s)).
Proof.
  intros Hperm s' session.
  assert (Hq : Study.queue session = shuffle (savedWords s)).
  { unfold session, Study.chooseMode. simpl. apply mount_queue. }
  assert (Hp : Permutation (savedWords s) (Study.queue session)).
  { rewrite Hq. apply Hperm. }
  split; [reflexivity|]. split; [exact Hq|]. split; [exact Hp|].
  split.
  - intros w. split; intros Hin.
    + eapply Permutation_in; [symmetry; exact Hp|exact Hin].
    + eapply Permutation_in; [exact Hp|exact Hin].
  - intros now. rewrite !List.Forall_forall. split; intros H w Hin; apply H.
    + eapply Permutation_in; [exact Hp|exact Hin].
    + eapply Permutation_in; [symmetry; exact Hp|exact Hin].
Qed.

Lemma C5_queue_is_deck_witness :
  Permutation Sample.deck
    (Study.queue
       (Study.chooseMode Study.quiz
          (studySession false
             (onStartStudy (@rev WordData) (initial Sample.deck []))))).
Proof.
  exact (proj1 (proj2 (proj2
    (C5_queue_is_deck (@rev WordData) (initial Sample.deck []) false
       Study.quiz (@Permutation_rev WordData))))).
Defined.

End Decks.

(** ** The study session *)

Section Session.

Import Study.

(** *** Quiz options *)

Lemma others_In (c : string) (words : list WordData) (w : WordData) :
  In w (others c words) <-> In w words /\ word w <> c.
Proof.
  unfold others. rewrite List.filter_In, negb_true_iff.
  destruct (String.eqb_spec (word w) c); intuition congruence.
Qed.

Lemma others_all (c : string) (words : list WordData) :
  ~ In c (map word words) -> others c words = words.
Proof.
  induction words as [|a l IH]; simpl; [reflexivity|].
  intros Hnot. destruct (String.eqb_spec (word a) c) as [Heq|Hne]; simpl.
  - exfalso. apply Hnot. now left.
  - f_equal. apply IH. intros Hin. apply Hnot. now right.
Qed.

(** With pairwise distinct texts at most one word is set aside. *)
Lemma others_length (c : string) (words : list WordData) :
  List.NoDup (map word words) ->
  (length words <= S (length (others c words)))%nat.
Proof.
  induction words as [|a l IH]; simpl; [lia|].
  intros Hnd. apply List.NoDup_cons_iff in Hnd as [Hnot Hnd].
  destruct (String.eqb_spec (word a) c) as [Heq|Hne]; simpl.
  - subst c. fold (others (word a) l). rewrite others_all by exact Hnot. lia.
  - specialize (IH Hnd). unfold others in *. lia.
Qed.

Lemma others_NoDup (c : string) (words : list WordData) :
  List.NoDup (map word words) -> List.NoDup (map word (others c words)).
Proof.
  induction words as [|a l IH]; simpl; [auto|].
  intros Hnd. apply List.NoDup_cons_iff in Hnd as [Hnot Hnd].
  destruct (negb (String.eqb (word a) c)); simpl; [|now apply IH].
  apply List.NoDup_cons_iff. split; [|now apply IH].
  intros Hin. apply Hnot. apply in_map_iff in Hin as (x & Hx & Hin).
  apply in_map_iff. exists x. split; [exact Hx|].
  now apply others_In in Hin as [Hin _].
Qed.

(** C4: in a deck with pairwise distinct texts, a deck of at least four
    words gives four options: the current text once and three distinct
    texts of other words of the deck; a deck of fewer than two words
    gives the current text alone. *)
Theorem C4_quiz_options
    (shuffleW : list WordData -> list WordData)
    (shuffleS : list string -> list string)
    (words : list WordData) (correctWord : string) :
  (forall l, Permutation l (shuffleW l)) ->
  (forall l, Permutation l (shuffleS l)) ->
  List.NoDup (map word words) ->
  ((4 <= length words)%nat ->
   count_occ string_dec
     (generateQuizOptions shuffleW shuffleS words correctWord) correctWord
   = 1%nat
   /\ exists d1 d2 d3,
        Permutation (generateQuizOptions shuffleW shuffleS words correctWord)
          [d1; d2; d3; correctWord]
        /\ List.NoDup [d1; d2; d3]
        /\ Forall (fun d => d <> correctWord
                            /\ exists w, In w words /\ word w = d)
             [d1; d2; d3])
  /\ ((length words < 2)%nat ->
      generateQuizOptions shuffleW shuffleS words correctWord
      = [correctWord]).
Proof.
  intros HpW HpS Hnd. split.
  - intros Hlen. unfold generateQuizOptions.
    destruct (Nat.ltb_spec (length words) 2) as [Hlt|_]; [lia|].
    fold (others correctWord words).
    pose proof (HpW (others correctWord words)) as Hp.
    pose proof (others_length correctWord words Hnd) as Hl.
    pose proof (Permutation_length Hp) as Hpl.
    pose proof (Permutation_NoDup (Permutation_map word Hp)
                  (others_NoDup correctWord words Hnd)) as Hnd'.
    assert (Hfrom : forall w, In w (shuffleW (others correctWord words)) ->
                              word w <> correctWord
                              /\ exists w', In w' words /\ word w' = word w).
    { intros w Hin. apply (Permutation_in _ (Permutation_sym Hp)) in Hin.
      apply others_In in Hin as [Hin Hne]. split; [exact Hne|]. eauto. }
    destruct (shuffleW (others correctWord words)) as [|a [|b [|c rest]]];
      simpl in Hpl; try lia.
    simpl in Hnd'. simpl.
    pose proof (Hfrom a ltac:(simpl; auto)) as Ha.
    pose proof (Hfrom b ltac:(simpl; auto)) as Hb.
    pose proof (Hfrom c ltac:(simpl; auto)) as Hc.
    pose proof (Permutation_sym
                  (HpS [word a; word b; word c; correctWord])) as Hopts.
    split.
    + rewrite (proj1 (Permutation_count_occ string_dec _ _) Hopts). simpl.
      destruct (string_dec (word a) correctWord); [tauto|].
      destruct (string_dec (word b) correctWord); [tauto|].
      destruct (string_dec (word c) correctWord); [tauto|].
      destruct (string_dec correctWord correctWord); [reflexivity|tauto].
    + exists (word a), (word b), (word c).
      split; [exact Hopts|]. split.
      * apply List.NoDup_cons_iff in Hnd' as [Hna Hnd'].
        apply List.NoDup_cons_iff in Hnd' as [Hnb Hnd'].
        apply List.NoDup_cons_iff in Hnd' as [Hnc _].
        simpl in Hna, Hnb.
        repeat constructor; simpl; tauto.
      * repeat constructor; tauto.
  - intros Hlen. unfold generateQuizOptions.
    destruct (Nat.ltb_spec (length words) 2) as [_|Hge]; [reflexivity|lia].
Qed.

Lemma sample_deck_distinct : List.NoDup (map word Sample.deck).
Proof. repeat constructor; simpl; intuition discriminate. Defined.

Lemma C4_quiz_options_witness :
  count_occ string_dec
    (generateQuizOptions (@rev WordData) (@rev string) Sample.deck "apple")
    "apple" = 1%nat
  /\ generateQuizOptions (@rev WordData) (@rev string) [Sample.apple] "apple"
     = ["apple"].
Proof.
  split.
  - apply (C4_quiz_options (@rev WordData) (@rev string) Sample.deck "apple"
             (@Permutation_rev WordData) (@Permutation_rev string)
             sample_deck_distinct).
    simpl. lia.
  - apply (C4_quiz_options (@rev WordData) (@rev string) [Sample.apple]
             "apple" (@Permutation_rev WordData) (@Permutation_rev string)).
    + repeat constructor. simpl. tauto.
    + simpl. lia.
Defined.

(** *** Typing *)

Lemma is_empty_false (t : string) : JS.is_empty t = false <-> t <> "".
Proof. destruct t; simpl; split; congruence. Qed.

(** C6 fails as stated: the text of the word is not trimmed.  The
    answer [cat] to the word [cat ] (with a final space) is marked wrong,
    although both are equal once trimmed and lower-cased. *)
Lemma C6_counterexample :
  let s := set_userInput "cat" (chooseMode typing (mount false [Sample.padded])) in
  currentWord s = Some Sample.padded
  /\ JS.is_empty (JS.trim (userInput s)) = false
  /\ JS.toLowerCase (JS.trim (userInput s))
     = JS.toLowerCase (JS.trim (word Sample.padded))
  /\ exists s' effects,
       handleCheckTyping s = Some (s', effects)
       /\ isCorrectAnswer s' = Some false.
Proof.
  simpl. split; [reflexivity|]. split; [reflexivity|].
  split; [reflexivity|]. eexists. eexists. split; reflexivity.
Qed.

(** C6, amended: submitting an input that is not blank marks the answer
    correct exactly when the input, trimmed and lower-cased, equals the
    lower-cased text of the current word as it is stored (not trimmed);
    it sets [isAnswered], which shows the rating buttons, and leaves the
    current word, whose text the card then shows, in place. *)
Theorem C6_typing_check (s : State) (w : WordData) :
  currentWord s = Some w ->
  JS.is_empty (JS.trim (userInput s)) = false ->
  exists s' effects,
    handleCheckTyping s = Some (s', effects)
    /\ (isCorrectAnswer s' = Some true
        <-> JS.toLowerCase (JS.trim (userInput s)) = JS.toLowerCase (word w))
    /\ (isCorrectAnswer s' = Some false
        <-> JS.toLowerCase (JS.trim (userInput s)) <> JS.toLowerCase (word w))
    /\ isAnswered s' = true
    /\ currentWord s' = Some w
    /\ (forall scr, render s' = Some scr ->
        forall m w' p t shown, scr = Active m w' p t shown ->
        w' = w /\ shown = true).
Proof.
  intros Hw Hin. unfold handleCheckTyping. rewrite Hin, Hw.
  set (correct := bool_decide (JS.toLowerCase (JS.trim (userInput s))
                               = JS.toLowerCase (word w))).
  exists (set_isAnswered true (set_isCorrectAnswer (Some correct) s)),
         (if correct then [Speak (word w)] else []).
  split; [reflexivity|].
  change (isCorrectAnswer
            (set_isAnswered true (set_isCorrectAnswer (Some correct) s)))
    with (Some correct).
  split; [|split; [|split; [reflexivity|split; [exact Hw|]]]].
  - unfold correct. destruct (bool_decide_reflect
      (JS.toLowerCase (JS.trim (userInput s)) = JS.toLowerCase (word w)));
      intuition congruence.
  - unfold correct. destruct (bool_decide_reflect
      (JS.toLowerCase (JS.trim (userInput s)) = JS.toLowerCase (word w)));
      intuition congruence.
  - intros scr Hr m w' p t shown ->. unfold render in Hr. simpl in Hr.
    unfold currentWord in Hw.
    destruct (negb (bool_decide (is_Some (studyMode s)))
              && (0 <? length (queue s))%nat); [discriminate|].
    destruct ((length (queue s) =? 0)%nat
              || (length (queue s) <=? currentIndex s)%nat); [discriminate|].
    unfold currentWord in Hr. simpl in Hr. rewrite Hw in Hr.
    injection Hr as _ <- _ _ <-. split; [reflexivity|].
    apply orb_true_r.
Qed.

Lemma C6_typing_check_witness :
  exists s' effects,
    handleCheckTyping (set_userInput "  Apple " (Sample.session typing))
    = Some (s', effects)
    /\ isCorrectAnswer s' = Some true
    /\ isAnswered s' = true.
Proof.
  destruct (C6_typing_check
              (set_userInput "  Apple " (Sample.session typing))
              Sample.apple eq_refl eq_refl)
    as (s' & e & Hh & Hc & _ & Ha & _).
  exists s', e. split; [exact Hh|]. split; [|exact Ha].
  apply Hc. reflexivity.
Defined.

(** *** The empty queue *)

Lemma currentWord_guard (s : State) :
  (length (queue s) <= currentIndex s)%nat -> currentWord s = None.
Proof. intros Hle. unfold currentWord. now apply lookup_ge_None_2. Qed.

Lemma render_total (s : State) : is_Some (render s).
Proof.
  unfold render.
  destruct (negb (bool_decide (is_Some (studyMode s)))
            && (0 <? length (queue s))%nat); [eauto|].
  destruct (Nat.eqb_spec (length (queue s)) 0) as [|Hne]; simpl; [eauto|].
  destruct (Nat.leb_spec (length (queue s)) (currentIndex s)) as [|Hlt];
    [eauto|].
  unfold currentWord.
  destruct (lookup_lt_is_Some_2 (queue s) (currentIndex s) Hlt) as [w ->].
  eauto.
Qed.

(** C7: a session on an empty list shows the final screen at once, with
    [reviewed = 0] and [forgotten = 0], whatever mode is or is not
    chosen; and whenever [currentIndex] is not below the length of the
    queue the current word is undefined, a rating does nothing, and the
    component returns without reading a field of the current word. *)
Theorem C7_empty_queue (auto : bool) :
  render (mount auto []) = Some (Complete (mkStats 0 0))
  /\ (forall m, render (chooseMode m (mount auto []))
                = Some (Complete (mkStats 0 0)))
  /\ (forall s,
        (length (queue s) <= currentIndex s)%nat ->
        currentWord s = None
        /\ (forall now rating, handleRate now rating s = (s, []))
        /\ (render s = Some (Complete (sessionStats s))
            \/ render s = Some (ModeSelect (length (queue s)))))
  /\ (forall s, is_Some (render s)).
Proof.
  split; [reflexivity|]. split; [intros m; reflexivity|].
  split; [|exact render_total].
  intros s Hle. pose proof (currentWord_guard s Hle) as Hnone.
  split; [exact Hnone|].
  split; [intros now rating; now apply handleRate_guard|].
  unfold render.
  destruct (negb (bool_decide (is_Some (studyMode s)))
            && (0 <? length (queue s))%nat); [now right|].
  left. apply Nat.leb_le in Hle. rewrite Hle, orb_true_r. reflexivity.
Qed.

Lemma C7_empty_queue_witness :
  render (chooseMode quiz (mount true [])) = Some (Complete (mkStats 0 0))
  /\ handleRate 1000 rate_good (mount true []) = (mount true [], []).
Proof.
  destruct (C7_empty_queue true) as (_ & Hmode & Hguard & _).
  split; [exact (Hmode quiz)|].
  destruct (Hguard (mount true []) ltac:(simpl; lia)) as (_ & Hrate & _).
  exact (Hrate 1000 rate_good).
Defined.

End Session.

(** ** The lookup cache *)

Section Cache.

Import Gemini.

(** A lookup that returns a record leaves it in the cache under the
    normalized input. *)
Lemma lookupWord_cached (input : string) (reply : option WordData)
    (v v1 : Service) (r : WordData) :
  lookupWord input reply v = (Some r, v1) ->
  wordCache v1 !! JS.toLowerCase (JS.trim input) = Some r.
Proof.
  unfold lookupWord, lookupWord_start.
  destruct (wordCache v !! JS.toLowerCase (JS.trim input)) as [cached|] eqn:Hc.
  - intros [= <- <-]. exact Hc.
  - destruct reply as [result|]; [|discriminate].
    intros [= <- <-]. simpl. apply lookup_insert_eq.
Qed.

Lemma lookupSentence_cached (input : string) (reply : option SentenceData)
    (v v1 : Service) (r : SentenceData) :
  lookupSentence input reply v = (Some r, v1) ->
  sentenceCache v1 !! JS.trim input = Some r.
Proof.
  unfold lookupSentence, lookupSentence_start.
  destruct (sentenceCache v !! JS.trim input) as [cached|] eqn:Hc.
  - intros [= <- <-]. exact Hc.
  - destruct reply as [result|]; [|discriminate].
    intros [= <- <-]. simpl. apply lookup_insert_eq.
Qed.

(** A lookup that starts on a cached key is answered from the cache and
    sends nothing. *)
Lemma lookupWord_hit (input : string) (v : Service) (r : WordData) :
  wordCache v !! JS.toLowerCase (JS.trim input) = Some r ->
  lookupWord_start input v = (Hit r, v)
  /\ forall reply, lookupWord input reply v = (Some r, v).
Proof.
  intros Hc. unfold lookupWord, lookupWord_start. rewrite Hc. auto.
Qed.

Lemma lookupSentence_hit (input : string) (v : Service) (r : SentenceData) :
  sentenceCache v !! JS.trim input = Some r ->
  lookupSentence_start input v = (Hit r, v)
  /\ forall reply, lookupSentence input reply v = (Some r, v).
Proof.
  intros Hc. unfold lookupSentence, lookupSentence_start. rewrite Hc. auto.
Qed.

(** No step removes an entry; an entry is replaced only by a reply
    stored under its key. *)
Lemma op_word (o : Op) (v : Service) (k : string) (r : WordData) :
  wordCache v !! k = Some r ->
  is_Some (wordCache (op o v) !! k)
  /\ (storesWord k o = false -> wordCache (op o v) !! k = Some r).
Proof.
  intros Hk. destruct o as [input|n reply|input|n reply]; simpl.
  - unfold lookupWord_start.
    destruct (wordCache v !! JS.toLowerCase (JS.trim input)); simpl; eauto.
  - destruct reply as [result|]; simpl; [|eauto].
    destruct (String.eqb_spec n k) as [->|Hne].
    + rewrite lookup_insert_eq. split; [eauto|discriminate].
    + rewrite lookup_insert_ne by exact Hne. eauto.
  - unfold lookupSentence_start.
    destruct (sentenceCache v !! JS.trim input); simpl; eauto.
  - destruct reply; simpl; eauto.
Qed.

Lemma op_sentence (o : Op) (v : Service) (k : string) (r : SentenceData) :
  sentenceCache v !! k = Some r ->
  is_Some (sentenceCache (op o v) !! k)
  /\ (storesSentence k o = false -> sentenceCache (op o v) !! k = Some r).
Proof.
  intros Hk. destruct o as [input|n reply|input|n reply]; simpl.
  - unfold lookupWord_start.
    destruct (wordCache v !! JS.toLowerCase (JS.trim input)); simpl; eauto.
  - destruct reply; simpl; eauto.
  - unfold lookupSentence_start.
    destruct (sentenceCache v !! JS.trim input); simpl; eauto.
  - destruct reply as [result|]; simpl; [|eauto].
    destruct (String.eqb_spec n k) as [->|Hne].
    + rewrite lookup_insert_eq. split; [eauto|discriminate].
    + rewrite lookup_insert_ne by exact Hne. eauto.
Qed.

Lemma ops_word (os : list Op) (v : Service) (k : string) (r : WordData) :
  wordCache v !! k = Some r ->
  is_Some (wordCache (ops os v) !! k)
  /\ (existsb (storesWord k) os = false ->
      wordCache (ops os v) !! k = Some r).
Proof.
  revert v r. induction os as [|o os IH]; intros v r Hk; simpl; [eauto|].
  destruct (op_word o v k r Hk) as [[r' Hr'] Hsame].
  destruct (storesWord k o); simpl.
  - split; [apply (IH _ r' Hr')|discriminate].
  - apply IH. now apply Hsame.
Qed.

Lemma ops_sentence (os : list Op) (v : Service) (k : string)
    (r : SentenceData) :
  sentenceCache v !! k = Some r ->
  is_Some (sentenceCache (ops os v) !! k)
  /\ (existsb (storesSentence k) os = false ->
      sentenceCache (ops os v) !! k = Some r).
Proof.
  revert v r. induction os as [|o os IH]; intros v r Hk; simpl; [eauto|].
  destruct (op_sentence o v k r Hk) as [[r' Hr'] Hsame].
  destruct (storesSentence k o); simpl.
  - split; [apply (IH _ r' Hr')|discriminate].
  - apply IH. now apply Hsame.
Qed.

(** The first lookup of a pair fails, or has not returned yet: the
    second lookup of the same key finds nothing in the cache and asks the
    model again. *)
Lemma C8_counterexample :
  JS.toLowerCase (JS.trim "Hello") = JS.toLowerCase (JS.trim "hello")
  /\ fst (lookupWord "Hello" None fresh) = None
  /\ lookupWord_start "hello" (snd (lookupWord "Hello" None fresh))
     = (Asked "hello",
        send (String.append "Analyze this word: " (quoted "hello"))
          (snd (lookupWord "Hello" None fresh)))
  /\ length (prompts (snd (lookupWord "hello" (Some Sample.apple)
                             (snd (lookupWord "Hello" None fresh)))))
     = 2%nat
  /\ fst (lookupWord_start "hello" (snd (lookupWord_start "Hello" fresh)))
     = Asked "hello"
  /\ length (prompts (snd (lookupWord_start "hello"
                             (snd (lookupWord_start "Hello" fresh)))))
     = 2%nat
  /\ length (prompts (snd (lookupSentence "How are you?"
                             (Some Sample.greeting)
                             (snd (lookupSentence "How are you?" None
                                     fresh)))))
     = 2%nat.
Proof. repeat split. Qed.

(** C8: a lookup returns a record exactly when the model answers it or
    its key is cached (trimmed and lower-cased for words, trimmed only
    for sentences); on a key that is not cached the record is the reply
    of the model.  Once it has returned a record, a later lookup whose
    input has the same key is answered from the cache, whatever steps of
    other lookups came in between: it returns the record that the cache
    holds and leaves the service as it was, so no prompt is sent.  The
    record is the one of the first lookup unless a reply was stored
    under the same key in between. *)
Theorem C8_cache_hit :
  (forall (i1 i2 : string) (reply1 : option WordData) (between : list Op)
          (v : Service),
      JS.toLowerCase (JS.trim i1) = JS.toLowerCase (JS.trim i2) ->
      let first := lookupWord i1 reply1 v in
      let v2 := ops between (snd first) in
      (is_Some (fst first)
       <-> is_Some reply1
           \/ is_Some (wordCache v !! JS.toLowerCase (JS.trim i1)))
      /\ forall r,
           fst first = Some r ->
           (wordCache v !! JS.toLowerCase (JS.trim i1) = None ->
            reply1 = Some r)
           /\ exists r',
                wordCache v2 !! JS.toLowerCase (JS.trim i2) = Some r'
                /\ lookupWord_start i2 v2 = (Hit r', v2)
                /\ (forall reply2, lookupWord i2 reply2 v2 = (Some r', v2))
                /\ (existsb (storesWord (JS.toLowerCase (JS.trim i2)))
                      between = false -> r' = r))
  /\ (forall (i1 i2 : string) (reply1 : option SentenceData)
             (between : list Op) (v : Service),
        JS.trim i1 = JS.trim i2 ->
        let first := lookupSentence i1 reply1 v in
        let v2 := ops between (snd first) in
        (is_Some (fst first)
         <-> is_Some reply1 \/ is_Some (sentenceCache v !! JS.trim i1))
        /\ forall r,
             fst first = Some r ->
             (sentenceCache v !! JS.trim i1 = None -> reply1 = Some r)
             /\ exists r',
                  sentenceCache v2 !! JS.trim i2 = Some r'
                  /\ lookupSentence_start i2 v2 = (Hit r', v2)
                  /\ (forall reply2,
                        lookupSentence i2 reply2 v2 = (Some r', v2))
                  /\ (existsb (storesSentence (JS.trim i2)) between = false
                      -> r' = r)).
Proof.
  split.
  - intros i1 i2 reply1 between v Hkey first v2. split.
    { unfold first, lookupWord, lookupWord_start.
      destruct (wordCache v !! JS.toLowerCase (JS.trim i1)) as [cached|];
        destruct reply1 as [result|]; simpl; split; intros H;
        first [ eexists; reflexivity
              | left; eexists; reflexivity
              | right; eexists; reflexivity
              | destruct H as [x Hx]; discriminate
              | destruct H as [[x Hx]|[x Hx]]; discriminate ]. }
    intros r Hr.
    assert (Hfirst : lookupWord i1 reply1 v = (Some r, snd first)).
    { unfold first in *. destruct (lookupWord i1 reply1 v) as [res v1].
      simpl in *. now subst. }
    split.
    { intros Hmiss. revert Hfirst. unfold lookupWord, lookupWord_start.
      rewrite Hmiss. destruct reply1; simpl; congruence. }
    apply lookupWord_cached in Hfirst. rewrite Hkey in Hfirst.
    destruct (ops_word between (snd first) _ r Hfirst) as [[r' Hr'] Hsame].
    exists r'. split; [exact Hr'|].
    destruct (lookupWord_hit i2 _ r' Hr') as [Hstart Hwhole].
    split; [exact Hstart|]. split; [exact Hwhole|].
    intros Hnone. specialize (Hsame Hnone). unfold v2 in Hr'. congruence.
  - intros i1 i2 reply1 between v Hkey first v2. split.
    { unfold first, lookupSentence, lookupSentence_start.
      destruct (sentenceCache v !! JS.trim i1) as [cached|];
        destruct reply1 as [result|]; simpl; split; intros H;
        first [ eexists; reflexivity
              | left; eexists; reflexivity
              | right; eexists; reflexivity
              | destruct H as [x Hx]; discriminate
              | destruct H as [[x Hx]|[x Hx]]; discriminate ]. }
    intros r Hr.
    assert (Hfirst : lookupSentence i1 reply1 v = (Some r, snd first)).
    { unfold first in *. destruct (lookupSentence i1 reply1 v) as [res v1].
      simpl in *. now subst. }
    split.
    { intros Hmiss. revert Hfirst.
      unfold lookupSentence, lookupSentence_start.
      rewrite Hmiss. destruct reply1; simpl; congruence. }
    apply lookupSentence_cached in Hfirst. rewrite Hkey in Hfirst.
    destruct (ops_sentence between (snd first) _ r Hfirst)
      as [[r' Hr'] Hsame].
    exists r'. split; [exact Hr'|].
    destruct (lookupSentence_hit i2 _ r' Hr') as [Hstart Hwhole].
    split; [exact Hstart|]. split; [exact Hwhole|].
    intros Hnone. specialize (Hsame Hnone). unfold v2 in Hr'. congruence.
Qed.

Lemma C8_cache_hit_witness :
  (let v1 := snd (lookupWord "Hello" (Some Sample.apple) fresh) in
   fst (lookupWord "Hello" (Some Sample.apple) fresh) = Some Sample.apple
   /\ lookupWord " hello " (Some Sample.river) v1 = (Some Sample.apple, v1)
   /\ length (prompts v1) = 1%nat)
  /\ (let v1 :=
        snd (lookupSentence "How are you?" (Some Sample.greeting) fresh) in
      lookupSentence " How are you?  " None v1 = (Some Sample.greeting, v1)
      /\ length (prompts v1) = 1%nat).
Proof.
  split.
  - intros v1. split; [reflexivity|]. split; [|reflexivity].
    destruct (proj1 C8_cache_hit "Hello" " hello " (Some Sample.apple) []
                fresh eq_refl)
      as (_ & Hhit).
    destruct (Hhit Sample.apple eq_refl) as (_ & r' & _ & _ & Hwhole & Hsame).
    specialize (Hsame eq_refl). subst r'.
    exact (Hwhole (Some Sample.river)).
  - intros v1. split; [|reflexivity].
    destruct (proj2 C8_cache_hit "How are you?" " How are you?  "
                (Some Sample.greeting) [] fresh eq_refl)
      as (_ & Hhit).
    destruct (Hhit Sample.greeting eq_refl)
      as (_ & r' & _ & _ & Hwhole & Hsame).
    specialize (Hsame eq_refl). subst r'. exact (Hwhole None).
Defined.

(** Sentence keys keep their case: the same words in another case are
    looked up anew. *)
Example sentence_keys_keep_case :
  let v1 := snd (lookupSentence "How are you?" (Some Sample.greeting) fresh) in
  length (prompts (snd (lookupSentence "how are you?" None v1))) = 2%nat.
Proof. reflexivity. Qed.

(** Two lookups of one key that overlap both ask the model. *)
Example overlapping_lookups_ask_twice :
  length (prompts (ops [StartWord "Hello"; StartWord "hello"] fresh)) = 2%nat.
Proof. reflexivity. Qed.

End Cache.

(** ** The search controller *)

Section Search.

Import App.

(** A result for a query that is no longer the latest is dropped. *)
Lemma handleSearch_resume_stale (r : Request) (o : Outcome) (s : State) :
  req_query r <> latestQueryRef s -> handleSearch_resume r o s = s.
Proof.
  intros Hne. unfold handleSearch_resume.
  assert (Hd : bool_decide (latestQueryRef s = req_query r) = false)
    by (apply bool_decide_eq_false; congruence).
  destruct o; rewrite Hd; rewrite Hd; reflexivity.
Qed.

(** A result for the latest query is stored and ends the loading. *)
Lemma handleSearch_resume_fresh (r : Request) (o : Outcome) (s : State) :
  req_query r = latestQueryRef s ->
  handleSearch_resume r o s
  = set_loading false
      match o with
      | FoundWord w => set_wordData (Some w) s
      | FoundSentence d => set_sentenceData (Some d) s
      | Rejected => set_error (Some notFound) s
      end.
Proof.
  intros He. unfold handleSearch_resume.
  assert (Hd : bool_decide (latestQueryRef s = req_query r) = true)
    by (apply bool_decide_eq_true; congruence).
  destruct o; rewrite Hd; simpl; rewrite Hd; reflexivity.
Qed.

Lemma handleSearch_resume_cases (r : Request) (o : Outcome) (s : State) :
  (req_query r <> latestQueryRef s /\ handleSearch_resume r o s = s)
  \/ (req_query r = latestQueryRef s
      /\ handleSearch_resume r o s
         = set_loading false
             match o with
             | FoundWord w => set_wordData (Some w) s
             | FoundSentence d => set_sentenceData (Some d) s
             | Rejected => set_error (Some notFound) s
             end).
Proof.
  destruct (decide (req_query r = latestQueryRef s)) as [He|Hne].
  - right. split; [exact He|now apply handleSearch_resume_fresh].
  - left. split; [exact Hne|now apply handleSearch_resume_stale].
Qed.

Lemma handleSearch_cases (s : State) :
  (JS.is_empty (JS.trim (query s)) = true /\ handleSearch s = (s, None))
  \/ (JS.is_empty (JS.trim (query s)) = false
      /\ handleSearch s
         = (set_error None
              (set_loading true (set_latestQueryRef (JS.trim (query s)) s)),
            Some (mkRequest (JS.trim (query s)) (searchMode s)))).
Proof.
  unfold handleSearch. destruct (JS.is_empty (JS.trim (query s))); auto.
Qed.

Lemma run_snoc (es : list Event) (e : Event) (c0 : Config) :
  run (es ++ [e]) c0 = run es c0 ≫= step e.
Proof.
  revert c0. induction es as [|e' es IH]; intros c0; simpl.
  - destruct (step e c0); reflexivity.
  - destruct (step e' c0) as [c1|]; [apply IH|reflexivity].
Qed.

(** The reference holds the clean query of the last submission that was
    not blank. *)
Lemma latest_is_lastSubmitted (es : list Event) (c0 c : Config) :
  run es c0 = Some c ->
  latestQueryRef (app c)
  = lastSubmitted es (query (app c0)) (latestQueryRef (app c0)).
Proof.
  revert c0. induction es as [|e es IH]; intros c0 Hrun; simpl in Hrun.
  - now injection Hrun as <-.
  - destruct (step e c0) as [c1|] eqn:Hstep; [|discriminate].
    rewrite (IH c1 Hrun). clear IH Hrun.
    destruct e as [text|m| |r o]; simpl in Hstep.
    + now injection Hstep as <-.
    + now injection Hstep as <-.
    + destruct (handleSearch_cases (app c0)) as [[Hb Hh]|[Hb Hh]];
        rewrite Hh in Hstep; injection Hstep as <-; simpl; rewrite Hb;
        reflexivity.
    + destruct (bool_decide (r ∈ inflight c0) && fits r o); [|discriminate].
      injection Hstep as <-. simpl.
      destruct (handleSearch_resume_cases r o (app c0)) as [[_ ->]|[_ ->]];
        [reflexivity|].
      destruct o; reflexivity.
Qed.

(** Whatever is stored as the word result arrived for the query that
    was the latest submitted one when it arrived. *)
Lemma wordData_origin (es : list Event) (c0 c : Config) (w : WordData) :
  wordData (app c0) = None ->
  run es c0 = Some c ->
  wordData (app c) = Some w ->
  exists es1 r es2,
    es = es1 ++ Arrive r (FoundWord w) :: es2
    /\ req_query r
       = lastSubmitted es1 (query (app c0)) (latestQueryRef (app c0)).
Proof.
  intros H0. revert c w. induction es as [|e es IH] using rev_ind;
    intros c w Hrun Hw.
  - injection Hrun as <-. congruence.
  - rewrite run_snoc in Hrun.
    destruct (run es c0) as [c1|] eqn:Hes; [|discriminate]. simpl in Hrun.
    assert (Hold : wordData (app c) = wordData (app c1) ->
                   exists es1 r es2,
                     es ++ [e] = es1 ++ Arrive r (FoundWord w) :: es2
                     /\ req_query r
                        = lastSubmitted es1 (query (app c0))
                            (latestQueryRef (app c0))).
    { intros Hsame. rewrite Hsame in Hw.
      destruct (IH c1 w eq_refl Hw) as (es1 & r & es2 & -> & Hr).
      exists es1, r, (es2 ++ [e]). split; [|exact Hr].
      now rewrite <- app_assoc. }
    destruct e as [text|m| |r o]; simpl in Hrun.
    + injection Hrun as <-. now apply Hold.
    + injection Hrun as <-. now apply Hold.
    + destruct (handleSearch_cases (app c1)) as [[_ Hh]|[_ Hh]];
        rewrite Hh in Hrun; injection Hrun as <-; now apply Hold.
    + destruct (bool_decide (r ∈ inflight c1) && fits r o); [|discriminate].
      injection Hrun as <-. simpl in *.
      destruct (handleSearch_resume_cases r o (app c1))
        as [[_ Hres]|[Hfresh Hres]]; rewrite Hres in *; [now apply Hold|].
      destruct o as [w'|d|]; simpl in *; try now apply Hold.
      injection Hw as ->. exists es, r, []. split; [reflexivity|].
      rewrite Hfresh. now apply latest_is_lastSubmitted.
Qed.

Lemma sentenceData_origin (es : list Event) (c0 c : Config)
    (d : SentenceData) :
  sentenceData (app c0) = None ->
  run es c0 = Some c ->
  sentenceData (app c) = Some d ->
  exists es1 r es2,
    es = es1 ++ Arrive r (FoundSentence d) :: es2
    /\ req_query r
       = lastSubmitted es1 (query (app c0)) (latestQueryRef (app c0)).
Proof.
  intros H0. revert c d. induction es as [|e es IH] using rev_ind;
    intros c d Hrun Hd.
  - injection Hrun as <-. congruence.
  - rewrite run_snoc in Hrun.
    destruct (run es c0) as [c1|] eqn:Hes; [|discriminate]. simpl in Hrun.
    assert (Hold : sentenceData (app c) = sentenceData (app c1) ->
                   exists es1 r es2,
                     es ++ [e] = es1 ++ Arrive r (FoundSentence d) :: es2
                     /\ req_query r
                        = lastSubmitted es1 (query (app c0))
                            (latestQueryRef (app c0))).
    { intros Hsame. rewrite Hsame in Hd.
      destruct (IH c1 d eq_refl Hd) as (es1 & r & es2 & -> & Hr).
      exists es1, r, (es2 ++ [e]). split; [|exact Hr].
      now rewrite <- app_assoc. }
    destruct e as [text|m| |r o]; simpl in Hrun.
    + injection Hrun as <-. now apply Hold.
    + injection Hrun as <-. now apply Hold.
    + destruct (handleSearch_cases (app c1)) as [[_ Hh]|[_ Hh]];
        rewrite Hh in Hrun; injection Hrun as <-; now apply Hold.
    + destruct (bool_decide (r ∈ inflight c1) && fits r o); [|discriminate].
      injection Hrun as <-. simpl in *.
      destruct (handleSearch_resume_cases r o (app c1))
        as [[_ Hres]|[Hfresh Hres]]; rewrite Hres in *; [now apply Hold|].
      destruct o as [w'|d'|]; simpl in *; try now apply Hold.
      injection Hd as ->. exists es, r, []. split; [reflexivity|].
      rewrite Hfresh. now apply latest_is_lastSubmitted.
Qed.

Lemma remove_first_elem (r x : Request) (l : list Request) :
  x ∈ remove_first r l -> x ∈ l.
Proof.
  induction l as [|y l IH]; simpl; [auto|].
  destruct (bool_decide (y = r)); rewrite ?elem_of_cons; intuition.
Qed.

(** While the search mode stays [m]: every waiting call was made in the
    mode [m], and a result that is visible (no loading, no error) arrived
    for the query that is now the latest. *)
Lemma single_mode_invariant (m : SearchMode) (es : list Event)
    (c0 c : Config) :
  forallb keepsMode es = true ->
  searchMode (app c0) = m ->
  inflight c0 = [] ->
  wordData (app c0) = None ->
  sentenceData (app c0) = None ->
  run es c0 = Some c ->
  searchMode (app c) = m
  /\ (forall r, r ∈ inflight c -> req_mode r = m)
  /\ (loading (app c) = false -> error (app c) = None ->
      (forall w, m = wordMode -> wordData (app c) = Some w ->
         exists r, In (Arrive r (FoundWord w)) es
                   /\ req_query r = latestQueryRef (app c))
      /\ (forall d, m = sentenceMode -> sentenceData (app c) = Some d ->
            exists r, In (Arrive r (FoundSentence d)) es
                      /\ req_query r = latestQueryRef (app c))).
Proof.
  intros Hkeep Hm Hin Hw0 Hd0. revert c Hkeep.
  induction es as [|e es IH] using rev_ind; intros c Hkeep Hrun.
  - injection Hrun as <-. split; [exact Hm|]. rewrite Hin.
    split; [intros r Hr; now apply elem_of_nil in Hr|].
    intros _ _. split; intros; congruence.
  - rewrite run_snoc in Hrun. rewrite forallb_app in Hkeep.
    apply andb_true_iff in Hkeep as [Hkeep He]. simpl in He.
    destruct (run es c0) as [c1|] eqn:Hes; [|discriminate]. simpl in Hrun.
    destruct (IH c1 Hkeep eq_refl) as (Hmode & Hfl & Hvis). clear IH.
    assert (Hold : app c = app c1 \/ app c = set_query (query (app c)) (app c1) ->
                   loading (app c) = false -> error (app c) = None ->
                   (forall w, m = wordMode -> wordData (app c) = Some w ->
                      exists r, In (Arrive r (FoundWord w)) (es ++ [e])
                                /\ req_query r = latestQueryRef (app c))
                   /\ (forall d, m = sentenceMode ->
                         sentenceData (app c) = Some d ->
                         exists r, In (Arrive r (FoundSentence d)) (es ++ [e])
                                   /\ req_query r = latestQueryRef (app c))).
    { intros Hsame Hl Herr.
      assert (Hproj : loading (app c) = loading (app c1)
                      /\ error (app c) = error (app c1)
                      /\ wordData (app c) = wordData (app c1)
                      /\ sentenceData (app c) = sentenceData (app c1)
                      /\ latestQueryRef (app c) = latestQueryRef (app c1)).
      { destruct Hsame as [->| ->]; repeat split. }
      destruct Hproj as (Hp1 & Hp2 & Hp3 & Hp4 & Hp5).
      rewrite Hp1 in Hl. rewrite Hp2 in Herr. rewrite Hp3, Hp4, Hp5.
      destruct (Hvis Hl Herr) as [Hword Hsent]. split.
      - intros w Hmw Hw. destruct (Hword w Hmw Hw) as (r & Hr & Hq).
        exists r. split; [apply in_or_app; now left|exact Hq].
      - intros d Hmd Hd. destruct (Hsent d Hmd Hd) as (r & Hr & Hq).
        exists r. split; [apply in_or_app; now left|exact Hq]. }
    destruct e as [text|m'| |r o]; simpl in Hrun; [| discriminate | |].
    + injection Hrun as <-. simpl. split; [exact Hmode|].
      split; [exact Hfl|]. apply Hold. now right.
    + destruct (handleSearch_cases (app c1)) as [[_ Hh]|[_ Hh]];
        rewrite Hh in Hrun; injection Hrun as <-; simpl.
      * split; [exact Hmode|]. split; [exact Hfl|]. apply Hold. now left.
      * split; [exact Hmode|]. split; [|discriminate].
        intros r Hr. apply elem_of_cons in Hr as [->|Hr]; [exact Hmode|].
        now apply Hfl.
    + destruct (bool_decide (r ∈ inflight c1) && fits r o) eqn:Hen;
        [|discriminate].
      apply andb_true_iff in Hen as [Hr Hfit].
      apply bool_decide_eq_true in Hr. apply Hfl in Hr.
      injection Hrun as <-. simpl.
      destruct (handleSearch_resume_cases r o (app c1))
        as [[_ Hres]|[Hfresh Hres]]; rewrite Hres.
      * split; [exact Hmode|].
        split; [intros x Hx; apply Hfl; now apply remove_first_elem in Hx|].
        intros Hl Herr.
        destruct (Hvis Hl Herr) as [Hword Hsent]. split.
        -- intros w Hmw Hw. destruct (Hword w Hmw Hw) as (x & Hx & Hq).
           exists x. split; [apply in_or_app; now left|exact Hq].
        -- intros d Hmd Hd. destruct (Hsent d Hmd Hd) as (x & Hx & Hq).
           exists x. split; [apply in_or_app; now left|exact Hq].
      * split; [destruct o; exact Hmode|].
        split; [intros x Hx; apply Hfl; now apply remove_first_elem in Hx|].
        unfold fits in Hfit. rewrite Hr in Hfit.
        destruct o as [w'|d'|]; simpl; intros _ Herr; [| |discriminate].
        -- destruct m; [|discriminate]. split; [|discriminate].
           intros w _ [= <-]. exists r.
           split; [apply in_or_app; right; now left|exact Hfresh].
        -- destruct m; [discriminate|]. split; [discriminate|].
           intros d _ [= <-]. exists r.
           split; [apply in_or_app; right; now left|exact Hfresh].
Qed.

Lemma display_WordCard (s : State) (w : WordData) :
  display s = WordCard w ->
  loading s = false /\ error s = None /\ searchMode s = wordMode
  /\ wordData s = Some w.
Proof.
  unfold display. destruct (loading s); [discriminate|].
  destruct (error s); [discriminate|].
  destruct (searchMode s), (wordData s), (sentenceData s);
    try discriminate; intros [= <-]; auto.
Qed.

Lemma display_SentenceCard (s : State) (d : SentenceData) :
  display s = SentenceCard d ->
  loading s = false /\ error s = None /\ searchMode s = sentenceMode
  /\ sentenceData s = Some d.
Proof.
  unfold display. destruct (loading s); [discriminate|].
  destruct (error s); [discriminate|].
  destruct (searchMode s), (wordData s), (sentenceData s);
    try discriminate; intros [= <-]; auto.
Qed.

Lemma displays_cons (e : Event) (es : list Event) (c c' : Config) :
  step e c = Some c' ->
  displays (e :: es) c = cons (display (app c')) <$> displays es c'.
Proof. intros Hs. simpl. now rewrite Hs. Qed.

Lemma step_Submit (c : Config) :
  JS.is_empty (JS.trim (query (app c))) = false ->
  step Submit c
  = Some (mkConfig
            (set_error None
               (set_loading true
                  (set_latestQueryRef (JS.trim (query (app c))) (app c))))
            (mkRequest (JS.trim (query (app c))) (searchMode (app c))
               :: inflight c)).
Proof.
  intros Hb. unfold step.
  destruct (handleSearch_cases (app c)) as [[Hb' _]|[_ ->]]; [congruence|].
  reflexivity.
Qed.

Lemma step_Arrive (c : Config) (r : Request) (o : Outcome) :
  r ∈ inflight c ->
  fits r o = true ->
  step (Arrive r o) c
  = Some (mkConfig (handleSearch_resume r o (app c))
            (remove_first r (inflight c))).
Proof.
  intros Hr Hf. unfold step.
  rewrite (bool_decide_eq_true_2 _ Hr), Hf. reflexivity.
Qed.

(** The run of the scenario: [A] is submitted, then [B], and the two
    results arrive, in either order. *)
Lemma two_queries (A B : string) (words : list WordData)
    (sentences : list SentenceData) (rA rB : WordData) :
  JS.is_empty (JS.trim A) = false ->
  JS.is_empty (JS.trim B) = false ->
  JS.trim A <> JS.trim B ->
  displays [SetQuery A; Submit; SetQuery B; Submit;
            Arrive (mkRequest (JS.trim B) wordMode) (FoundWord rB);
            Arrive (mkRequest (JS.trim A) wordMode) (FoundWord rA)]
    (start wordMode words sentences)
  = Some [Placeholder; Skeleton; Skeleton; Skeleton; WordCard rB; WordCard rB]
  /\ displays [SetQuery A; Submit; SetQuery B; Submit;
               Arrive (mkRequest (JS.trim A) wordMode) (FoundWord rA);
               Arrive (mkRequest (JS.trim B) wordMode) (FoundWord rB)]
       (start wordMode words sentences)
     = Some [Placeholder; Skeleton; Skeleton; Skeleton; Skeleton;
             WordCard rB].
Proof.
  intros HA HB Hne.
  set (a := mkRequest (JS.trim A) wordMode).
  set (b := mkRequest (JS.trim B) wordMode).
  set (st := fun q l ld wd =>
               mkState q wordMode wd None ld None search l words sentences []).
  assert (Hba : b <> a) by (intros [= Heq]; exact (Hne (eq_sym Heq))).
  assert (E1 : step (SetQuery A) (start wordMode words sentences)
               = Some (mkConfig (st A "" false None) [])) by reflexivity.
  assert (E2 : step Submit (mkConfig (st A "" false None) [])
               = Some (mkConfig (st A (JS.trim A) true None) [a]))
    by (now rewrite step_Submit).
  assert (E3 : step (SetQuery B) (mkConfig (st A (JS.trim A) true None) [a])
               = Some (mkConfig (st B (JS.trim A) true None) [a]))
    by reflexivity.
  assert (E4 : step Submit (mkConfig (st B (JS.trim A) true None) [a])
               = Some (mkConfig (st B (JS.trim B) true None) [b; a]))
    by (now rewrite step_Submit).
  assert (Eb : forall wd l,
             b ∈ l ->
             step (Arrive b (FoundWord rB))
               (mkConfig (st B (JS.trim B) true wd) l)
             = Some (mkConfig (st B (JS.trim B) false (Some rB))
                       (remove_first b l))).
  { intros wd l Hl. rewrite step_Arrive by (auto; reflexivity).
    now rewrite handleSearch_resume_fresh. }
  assert (Ea : forall ld wd l,
             a ∈ l ->
             step (Arrive a (FoundWord rA))
               (mkConfig (st B (JS.trim B) ld wd) l)
             = Some (mkConfig (st B (JS.trim B) ld wd) (remove_first a l))).
  { intros ld wd l Hl. rewrite step_Arrive by (auto; reflexivity).
    now rewrite handleSearch_resume_stale. }
  assert (Rb : remove_first b [b; a] = [a]).
  { simpl. now rewrite bool_decide_eq_true_2. }
  assert (Ra : remove_first a [b; a] = [b]).
  { simpl. rewrite (bool_decide_eq_false_2 _ Hba).
    now rewrite bool_decide_eq_true_2. }
  split.
  - rewrite (displays_cons _ _ _ _ E1), (displays_cons _ _ _ _ E2),
      (displays_cons _ _ _ _ E3), (displays_cons _ _ _ _ E4).
    rewrite (displays_cons _ _ _ _ (Eb None [b; a] ltac:(set_solver))), Rb.
    rewrite (displays_cons _ _ _ _
               (Ea false (Some rB) [a] ltac:(set_solver))).
    reflexivity.
  - rewrite (displays_cons _ _ _ _ E1), (displays_cons _ _ _ _ E2),
      (displays_cons _ _ _ _ E3), (displays_cons _ _ _ _ E4).
    rewrite (displays_cons _ _ _ _ (Ea true None [b; a] ltac:(set_solver))),
      Ra.
    rewrite (displays_cons _ _ _ _ (Eb None [b] ltac:(set_solver))).
    reflexivity.
Qed.

(** The marker holds the text of the query only, and each mode keeps its
    own last result.  A sentence is looked up and shown; in the word mode
    [hello] is submitted, and again after the switch back to the
    sentence mode.  When the word lookup returns, its query is the latest
    one, so it ends the loading: the card of the earlier sentence is
    shown while the sentence lookup of [hello], the last submission, is
    still waiting, and no result of a query [hello] is on display. *)
Lemma C9_counterexample :
  exists c,
    run [SetQuery "How are you?"; Submit;
         Arrive (mkRequest "How are you?" sentenceMode)
           (FoundSentence Sample.greeting);
         SetSearchMode wordMode; SetQuery "hello"; Submit;
         SetSearchMode sentenceMode; Submit;
         Arrive (mkRequest "hello" wordMode) (FoundWord Sample.apple)]
      (start sentenceMode [] [])
    = Some c
    /\ display (app c) = SentenceCard Sample.greeting
    /\ lastSubmitted
         [SetQuery "How are you?"; Submit;
          Arrive (mkRequest "How are you?" sentenceMode)
            (FoundSentence Sample.greeting);
          SetSearchMode wordMode; SetQuery "hello"; Submit;
          SetSearchMode sentenceMode; Submit;
          Arrive (mkRequest "hello" wordMode) (FoundWord Sample.apple)]
         "" ""
       = "hello"
    /\ latestQueryRef (app c) = "hello"
    /\ inflight c = [mkRequest "hello" sentenceMode]
    /\ ~ (exists r,
            In (Arrive r (FoundSentence Sample.greeting))
              [SetQuery "How are you?"; Submit;
               Arrive (mkRequest "How are you?" sentenceMode)
                 (FoundSentence Sample.greeting);
               SetSearchMode wordMode; SetQuery "hello"; Submit;
               SetSearchMode sentenceMode; Submit;
               Arrive (mkRequest "hello" wordMode) (FoundWord Sample.apple)]
            /\ req_query r = "hello").
Proof.
  eexists. split; [reflexivity|]. split; [reflexivity|].
  split; [reflexivity|]. split; [reflexivity|]. split; [reflexivity|].
  intros (r & Hin & Hq). simpl in Hin.
  repeat (destruct Hin as [Hin|Hin]; [try discriminate Hin|]);
    [|contradiction].
  injection Hin as <-. discriminate Hq.
Qed.

(** C9: a result changes what is stored only if the query of its call is
    the latest submitted one when it arrives, and a result for another
    query is dropped; so whatever result is stored arrived for the query
    that was then the latest, and, while the search mode stays the same,
    a result on display arrived for the query submitted last.  When [A]
    and then [B] are submitted before any result arrives, only the
    result of [B] is ever shown, in either order of arrival. *)
Theorem C9_latest_query_wins (m : SearchMode) (words : list WordData)
    (sentences : list SentenceData) :
  (forall r o s,
      handleSearch_resume r o s <> s -> req_query r = latestQueryRef s)
  /\ (forall r o s,
        req_query r <> latestQueryRef s -> handleSearch_resume r o s = s)
  /\ (forall es c,
        run es (start m words sentences) = Some c ->
        latestQueryRef (app c) = lastSubmitted es "" ""
        /\ (forall w, wordData (app c) = Some w ->
              exists es1 r es2,
                es = es1 ++ Arrive r (FoundWord w) :: es2
                /\ req_query r = lastSubmitted es1 "" "")
        /\ (forall d, sentenceData (app c) = Some d ->
              exists es1 r es2,
                es = es1 ++ Arrive r (FoundSentence d) :: es2
                /\ req_query r = lastSubmitted es1 "" ""))
  /\ (forall es c,
        forallb keepsMode es = true ->
        run es (start m words sentences) = Some c ->
        (forall w, display (app c) = WordCard w ->
           exists r, In (Arrive r (FoundWord w)) es
                     /\ req_query r = lastSubmitted es "" "")
        /\ (forall d, display (app c) = SentenceCard d ->
              exists r, In (Arrive r (FoundSentence d)) es
                        /\ req_query r = lastSubmitted es "" ""))
  /\ (forall A B rA rB,
        JS.is_empty (JS.trim A) = false ->
        JS.is_empty (JS.trim B) = false ->
        JS.trim A <> JS.trim B ->
        displays [SetQuery A; Submit; SetQuery B; Submit;
                  Arrive (mkRequest (JS.trim B) wordMode) (FoundWord rB);
                  Arrive (mkRequest (JS.trim A) wordMode) (FoundWord rA)]
          (start wordMode words sentences)
        = Some [Placeholder; Skeleton; Skeleton; Skeleton; WordCard rB;
                WordCard rB]
        /\ displays [SetQuery A; Submit; SetQuery B; Submit;
                     Arrive (mkRequest (JS.trim A) wordMode) (FoundWord rA);
                     Arrive (mkRequest (JS.trim B) wordMode) (FoundWord rB)]
             (start wordMode words sentences)
           = Some [Placeholder; Skeleton; Skeleton; Skeleton; Skeleton;
                   WordCard rB]).
Proof.
  split.
  { intros r o s Hchanged.
    destruct (handleSearch_resume_cases r o s) as [[_ Hsame]|[Hfresh _]];
      [contradiction|exact Hfresh]. }
  split; [exact handleSearch_resume_stale|].
  split.
  { intros es c Hrun.
    split; [exact (latest_is_lastSubmitted es _ c Hrun)|].
    split.
    - intros w Hw. exact (wordData_origin es (start m words sentences) c w eq_refl Hrun Hw).
    - intros d Hd. exact (sentenceData_origin es (start m words sentences) c d eq_refl
             Hrun Hd). }
  split; [|intros A B rA rB; apply two_queries].
  intros es c Hkeep Hrun.
  destruct (single_mode_invariant m es (start m words sentences) c Hkeep
              eq_refl eq_refl eq_refl eq_refl Hrun) as (Hmode & _ & Hvis).
  pose proof (latest_is_lastSubmitted es _ c Hrun) as Hlatest.
  simpl in Hlatest. split.
  - intros w Hshow.
    apply display_WordCard in Hshow as (Hl & He & Hm & Hw).
    destruct (Hvis Hl He) as [Hword _].
    destruct (Hword w ltac:(congruence) Hw) as (r & Hin & Hq).
    exists r. split; [exact Hin|congruence].
  - intros d Hshow.
    apply display_SentenceCard in Hshow as (Hl & He & Hm & Hd).
    destruct (Hvis Hl He) as [_ Hsent].
    destruct (Hsent d ltac:(congruence) Hd) as (r & Hin & Hq).
    exists r. split; [exact Hin|congruence].
Qed.

Lemma C9_latest_query_wins_witness :
  displays [SetQuery "apple"; Submit; SetQuery " river"; Submit;
            Arrive (mkRequest "apple" wordMode) (FoundWord Sample.apple);
            Arrive (mkRequest "river" wordMode) (FoundWord Sample.river)]
    (start wordMode [] [])
  = Some [Placeholder; Skeleton; Skeleton; Skeleton; Skeleton;
          WordCard Sample.river]
  /\ exists r,
       In (Arrive r (FoundWord Sample.river))
         [SetQuery "apple"; Submit; SetQuery " river"; Submit;
          Arrive (mkRequest "apple" wordMode) (FoundWord Sample.apple);
          Arrive (mkRequest "river" wordMode) (FoundWord Sample.river)]
       /\ req_query r = "river".
Proof.
  destruct (C9_latest_query_wins wordMode [] [])
    as (_ & _ & _ & Hshown & Hscenario).
  split.
  - apply (Hscenario "apple" " river" Sample.apple Sample.river);
      [reflexivity|reflexivity|discriminate].
  - pose (es := [SetQuery "apple"; Submit; SetQuery " river"; Submit;
                 Arrive (mkRequest "apple" wordMode) (FoundWord Sample.apple);
                 Arrive (mkRequest "river" wordMode)
                   (FoundWord Sample.river)]).
    assert (Hrun : exists c, run es (start wordMode [] []) = Some c
                             /\ display (app c) = WordCard Sample.river)
      by (eexists; split; reflexivity).
    destruct Hrun as (c & Hrun & Hd).
    exact (proj1 (Hshown es c eq_refl Hrun) Sample.river Hd).
Defined.

(** The retained result of the other mode comes back into view when the
    mode is switched, whatever was submitted since. *)
Example mode_switch_shows_retained :
  (fun c => display (app c))
  <$> run [SetQuery "How are you?"; Submit;
           Arrive (mkRequest "How are you?" sentenceMode)
             (FoundSentence Sample.greeting);
           SetSearchMode wordMode; SetQuery "a"; Submit;
           Arrive (mkRequest "a" wordMode) (FoundWord Sample.apple);
           SetSearchMode sentenceMode]
        (start sentenceMode [] [])
  = Some (SentenceCard Sample.greeting).
Proof. reflexivity. Qed.

End Search.

(** * Further properties *)

(** ** The scheduler outside the table *)

Section SchedulerEdges.

Import Study.

Lemma index_outside (l : Z) :
  ~ 0 <= l <= lastIndex -> JS.index SRS_INTERVALS l = None.
Proof.
  rewrite lastIndex_value. intros Hout. unfold JS.index.
  destruct (Z.ltb_spec l 0); [reflexivity|].
  apply lookup_ge_None_2. simpl. lia.
Qed.

Lemma nextReviewDate_outside (now l : Z) :
  ~ 0 <= l <= lastIndex -> nextReviewDate now l = JS.NaN.
Proof.
  intros Hout. unfold nextReviewDate. now rewrite index_outside.
Qed.

Lemma nextReviewDate_inside (now l : Z) :
  0 <= l <= lastIndex ->
  exists days,
    SRS_INTERVALS !! Z.to_nat l = Some days
    /\ 1 <= days <= 180
    /\ nextReviewDate now l = JS.Num (now + days * 86400000).
Proof.
  intros Hin. destruct (index_valid l Hin) as (days & Hi & Hd).
  exists days. split; [exact Hd|]. split; [now apply interval_bounds in Hd|].
  now apply nextReviewDate_valid.
Qed.

(** The table does not decrease. *)
Lemma interval_mono (i j : nat) (a b : Z) :
  (i <= j)%nat ->
  SRS_INTERVALS !! i = Some a -> SRS_INTERVALS !! j = Some b -> a <= b.
Proof.
  intros Hij Ha Hb.
  assert (Hj : (j < 7)%nat) by (apply lookup_lt_Some in Hb; exact Hb).
  do 7 (destruct j as [|j]; [do 7 (destruct i as [|i]; [simpl in *; try lia;
     injection Ha as <-; injection Hb as <-; lia|]); lia|]).
  lia.
Qed.

(** X1: the level that a rating writes is an index of the table exactly
    when the rating is [fail], or [hard] on a level not above the last
    index, or [good] on a level from -1 on, or [easy] on a level from -2
    on.  Then [next_review] is an integer time after [now]; otherwise it
    is [NaN]. *)
Theorem X1_written_level (now : Z) (rating : Rating) (s : State)
    (w : WordData) :
  currentWord s = Some w ->
  exists s' u l,
    handleRate now rating s = (s', [UpdateWord u])
    /\ srs_level u = Some l
    /\ (0 <= l <= lastIndex
        <-> match rating with
            | rate_fail => True
            | rate_hard => default 0 (srs_level w) <= lastIndex
            | rate_good => -1 <= default 0 (srs_level w)
            | rate_easy => -2 <= default 0 (srs_level w)
            end)
    /\ (0 <= l <= lastIndex ->
        exists t, next_review u = Some (JS.Num t)
                  /\ now + 86400000 <= t <= now + 180 * 86400000)
    /\ (~ 0 <= l <= lastIndex -> next_review u = Some JS.NaN).
Proof.
  intros Hw.
  destruct (handleRate_current now rating s w Hw) as (s' & Hr & _).
  exists s'. eexists. exists (nextLevel rating (default 0 (srs_level w))).
  split; [exact Hr|]. split; [reflexivity|]. split; [|split].
  - unfold nextLevel. rewrite !lastIndex_value. destruct rating; lia.
  - intros Hin. destruct (nextReviewDate_inside now _ Hin)
      as (days & _ & Hb & Hd).
    exists (now + days * 86400000). split; [simpl; now f_equal|lia].
  - intros Hout. simpl. f_equal. now apply nextReviewDate_outside.
Qed.

Lemma X1_written_level_witness :
  exists s' u,
    handleRate 1000 rate_hard (Sample.session flashcard)
    = (s', [UpdateWord u])
    /\ next_review u = Some (JS.Num 86401000).
Proof.
  destruct (X1_written_level 1000 rate_hard (Sample.session flashcard)
              Sample.apple eq_refl)
    as (s' & u & l & Hr & _ & _ & _ & _).
  exists s', u. split; [exact Hr|].
  injection Hr as _ <-. reflexivity.
Defined.

(** X2: a word whose level is above the last index keeps that level
    under [hard] and is written back with [NaN] as its review time, so
    that it is due at every time; [fail] writes level 0, due one day
    after [now], and [good] and [easy] write the last index, due 180
    days after [now]. *)
Theorem X2_level_above_table (now : Z) (rating : Rating) (s : State)
    (w : WordData) :
  currentWord s = Some w ->
  lastIndex < default 0 (srs_level w) ->
  exists s' u,
    handleRate now rating s = (s', [UpdateWord u])
    /\ match rating with
       | rate_hard =>
           srs_level u = Some (default 0 (srs_level w))
           /\ next_review u = Some JS.NaN
           /\ forall t, App.isDue t (next_review u) = true
       | rate_fail =>
           srs_level u = Some 0
           /\ next_review u = Some (JS.Num (now + 86400000))
       | _ =>
           srs_level u = Some lastIndex
           /\ next_review u = Some (JS.Num (now + 180 * 86400000))
       end.
Proof.
  intros Hw Habove.
  destruct (handleRate_current now rating s w Hw) as (s' & Hr & _).
  exists s'. eexists. split; [exact Hr|].
  rewrite lastIndex_value in Habove.
  destruct rating; simpl.
  - split; reflexivity.
  - rewrite Z.max_r by lia.
    rewrite nextReviewDate_outside by (rewrite lastIndex_value; lia).
    repeat split.
  - rewrite lastIndex_value, Z.min_r by lia. split; reflexivity.
  - rewrite lastIndex_value, Z.min_r by lia. split; reflexivity.
Qed.

Lemma X2_level_above_table_witness :
  let w := plain_word "apple" "qua tao" (Some 9) None in
  exists s' u,
    handleRate 1000 rate_hard (mount false [w]) = (s', [UpdateWord u])
    /\ srs_level u = Some 9
    /\ next_review u = Some JS.NaN
    /\ App.isDue 5 (next_review u) = true.
Proof.
  intros w.
  destruct (X2_level_above_table 1000 rate_hard (mount false [w]) w eq_refl
              ltac:(rewrite lastIndex_value; simpl; lia))
    as (s' & u & Hr & Hl & Hnan & Hdue).
  exists s', u. split; [exact Hr|]. split; [exact Hl|].
  split; [exact Hnan|exact (Hdue 5)].
Defined.

(** X3: on a word whose level is an index of the table, the four
    ratings schedule the next review in the order [fail], [hard],
    [good], [easy], never earlier for the better rating; [fail] always
    schedules it one day after [now]. *)
Theorem X3_rating_order (now : Z) (s : State) (w : WordData) :
  currentWord s = Some w ->
  0 <= default 0 (srs_level w) <= lastIndex ->
  exists tf th tg te,
    (forall rating, exists s' u,
        handleRate now rating s = (s', [UpdateWord u])
        /\ next_review u
           = Some (JS.Num match rating with
                          | rate_fail => tf
                          | rate_hard => th
                          | rate_good => tg
                          | rate_easy => te
                          end))
    /\ tf = now + 86400000
    /\ tf <= th /\ th <= tg /\ tg <= te.
Proof.
  intros Hw Hl.
  pose proof (fun r => nextReviewDate_inside now _ (nextLevel_valid r _ Hl))
    as Hd.
  destruct (Hd rate_fail) as (df & Hf & _ & Ef).
  destruct (Hd rate_hard) as (dh & Hh & _ & Eh).
  destruct (Hd rate_good) as (dg & Hg & _ & Eg).
  destruct (Hd rate_easy) as (de & He & _ & Ee).
  exists (now + df * 86400000), (now + dh * 86400000),
         (now + dg * 86400000), (now + de * 86400000).
  split.
  { intros rating.
    destruct (handleRate_current now rating s w Hw) as (s' & Hr & _).
    exists s'. eexists. split; [exact Hr|]. simpl. f_equal.
    destruct rating; assumption. }
  rewrite lastIndex_value in Hl.
  assert (Hfh : df <= dh).
  { refine (interval_mono _ _ _ _ _ Hf Hh). unfold nextLevel. lia. }
  assert (Hhg : dh <= dg).
  { refine (interval_mono _ _ _ _ _ Hh Hg). unfold nextLevel.
    rewrite lastIndex_value. lia. }
  assert (Hge : dg <= de).
  { refine (interval_mono _ _ _ _ _ Hg He). unfold nextLevel.
    rewrite lastIndex_value. lia. }
  injection Hf as <-. repeat split; lia.
Qed.

Lemma X3_rating_order_witness :
  exists tf th tg te,
    (forall rating, exists s' u,
        handleRate 0 rating (Sample.session flashcard)
        = (s', [UpdateWord u])
        /\ next_review u
           = Some (JS.Num match rating with
                          | rate_fail => tf
                          | rate_hard => th
                          | rate_good => tg
                          | rate_easy => te
                          end))
    /\ tf = 0 + 86400000
    /\ tf <= th /\ th <= tg /\ tg <= te.
Proof.
  exact (X3_rating_order 0 (Sample.session flashcard) Sample.apple eq_refl
           ltac:(rewrite lastIndex_value; simpl; lia)).
Defined.

End SchedulerEdges.

(** ** The session as a machine *)

Section SessionMachine.

Import Study.

(** The three screens, read back from the state. *)
Lemma render_cases (s : State) :
  (studyMode s = None /\ (0 < length (queue s))%nat
   /\ render s = Some (ModeSelect (length (queue s))))
  \/ ((studyMode s <> None \/ length (queue s) = 0%nat)
      /\ (length (queue s) <= currentIndex s)%nat
      /\ render s = Some (Complete (sessionStats s)))
  \/ (exists m w,
        studyMode s = Some m /\ currentWord s = Some w
        /\ (currentIndex s < length (queue s))%nat
        /\ render s
           = Some (Active (Some m) w (currentIndex s + 1)
                     (length (queue s)) (isFlipped s || isAnswered s))).
Proof.
  unfold render.
  destruct (studyMode s) as [m|] eqn:Hm; simpl.
  - destruct (Nat.eqb_spec (length (queue s)) 0) as [Hz|Hnz]; simpl.
    { right. left. split; [left; discriminate|]. split; [lia|reflexivity]. }
    destruct (Nat.leb_spec (length (queue s)) (currentIndex s)) as [Hle|Hlt].
    { right. left. split; [left; discriminate|]. split; [lia|reflexivity]. }
    right. right.
    destruct (lookup_lt_is_Some_2 (queue s) (currentIndex s) Hlt) as [w Hw].
    exists m, w. unfold currentWord. rewrite Hw. auto.
  - destruct (Nat.ltb_spec 0 (length (queue s))) as [Hpos|Hz]; simpl.
    { left. auto. }
    right. left. assert (Hlen : length (queue s) = 0%nat) by lia.
    rewrite Hlen. simpl. split; [now right|]. split; [lia|reflexivity].
Qed.

(** X4: the chooser is shown exactly while no mode is chosen and the
    queue is not empty; a card is shown only after a mode was chosen, for
    the queue word at the position displayed, which lies between 1 and
    the total; the final screen is shown only when the index has passed
    the queue. *)
Theorem X4_screens (s : State) :
  match render s with
  | Some (ModeSelect n) =>
      studyMode s = None /\ n = length (queue s) /\ (0 < n)%nat
  | Some (Complete stats) =>
      stats = sessionStats s /\ (length (queue s) <= currentIndex s)%nat
      /\ (studyMode s <> None \/ queue s = [])
  | Some (Active m w position total shown) =>
      m = studyMode s /\ is_Some m
      /\ queue s !! (position - 1)%nat = Some w
      /\ (1 <= position <= total)%nat /\ total = length (queue s)
      /\ shown = isFlipped s || isAnswered s
  | None => False
  end.
Proof.
  destruct (render_cases s)
    as [(Hm & Hpos & ->)|[(Hm & Hle & ->)|(m & w & Hm & Hw & Hlt & ->)]].
  - auto.
  - split; [reflexivity|]. split; [exact Hle|].
    destruct Hm as [Hm|Hz]; [now left|right].
    now apply length_zero_iff_nil.
  - split; [now symmetry|]. split; [eauto|].
    replace (currentIndex s + 1 - 1)%nat with (currentIndex s) by lia.
    split; [exact Hw|]. split; [lia|]. auto.
Qed.

Lemma enabled_Active (a : Action) (s : State) :
  enabled a s = true ->
  match a with
  | Timer => (0 < timers s)%nat
  | Choose _ => studyMode s = None /\ (0 < length (queue s))%nat
  | _ => exists m w, studyMode s = Some m /\ currentWord s = Some w
                     /\ (currentIndex s < length (queue s))%nat
                     /\ match a with
                        | Flip => m = flashcard
                        | Input _ | CheckTyping =>
                            m = typing /\ isAnswered s = false
                        | SelectQuiz _ => m = quiz /\ isAnswered s = false
                        | _ => True
                        end
  end.
Proof.
  unfold enabled.
  destruct (render_cases s)
    as [(Hm & Hpos & ->)|[(Hm & Hle & ->)|(m & w & Hm & Hw & Hlt & ->)]].
  - destruct a; try discriminate; [auto|].
    intros H. now apply Nat.ltb_lt in H.
  - destruct a; try discriminate. intros H. now apply Nat.ltb_lt in H.
  - destruct a; try (destruct m; discriminate).
    + destruct m; try discriminate. intros _. exists flashcard, w. auto.
    + destruct m; try discriminate. intros H. apply negb_true_iff in H.
      exists typing, w. auto.
    + destruct m; try discriminate. intros H. apply negb_true_iff in H.
      exists typing, w. auto.
    + destruct m; try discriminate. intros H.
      apply andb_true_iff in H as [H _]. apply negb_true_iff in H.
      exists quiz, w. auto.
    + intros H. exists m, w. auto.
    + intros H. now apply Nat.ltb_lt in H.
Qed.

(** X5: no control that a screen offers ends in a [TypeError]: the
    handlers that read [currentWord.word] without a guard are reachable
    only from a card, where the current word is defined. *)
Theorem X5_no_type_error (words : list WordData) (a : Action) (rnd : Random)
    (s : State) :
  step words a rnd s <> Throws.
Proof.
  unfold step. destruct (enabled a s) eqn:Hen; [|discriminate].
  apply enabled_Active in Hen.
  assert (Hh : exists s1 e1, handle a s = Some (s1, e1)).
  { destruct a; simpl; eauto.
    - destruct Hen as (m & w & _ & Hw & _).
      unfold handleCheckTyping. rewrite Hw.
      destruct (JS.is_empty (JS.trim (userInput s))); eauto.
    - destruct Hen as (m & w & _ & Hw & _).
      unfold handleSelectQuiz. rewrite Hw.
      destruct (isAnswered s); eauto.
    - destruct (handleRate now rating s). eauto. }
  destruct Hh as (s1 & e1 & ->).
  destruct (depsChanged s s1); [|discriminate].
  destruct (itemEffect _ _ words s1). discriminate.
Qed.

(** What the effect leaves alone, and what it resets. *)
Lemma itemEffect_frame (sw : list WordData -> list WordData)
    (st : list string -> list string) (words : list WordData) (s : State) :
  let s2 := fst (itemEffect sw st words s) in
  let e2 := snd (itemEffect sw st words s) in
  queue s2 = queue s /\ currentIndex s2 = currentIndex s
  /\ isFlipped s2 = isFlipped s /\ studyMode s2 = studyMode s
  /\ sessionStats s2 = sessionStats s /\ autoRead s2 = autoRead s
  /\ isRecording s2 = isRecording s /\ timers s2 = timers s
  /\ (isAnswered s2 = false \/ isAnswered s2 = isAnswered s)
  /\ List.filter isUpdate e2 = [].
Proof.
  unfold itemEffect. destruct (currentWord s) as [w|]; simpl.
  - destruct (bool_decide (studyMode s = Some quiz)); simpl;
      repeat split; auto;
      destruct (autoRead s && bool_decide (studyMode s = Some flashcard)
                && negb (isFlipped s));
      destruct (bool_decide (studyMode s = Some typing)); reflexivity.
  - repeat split; auto.
Qed.

Lemma handle_steady (a : Action) (rnd : Random) (s s1 : State)
    (e1 : list Effect) :
  enabled a s = true ->
  handle a s = Some (s1, e1) ->
  steady s ->
  steady s1
  /\ queue s1 = queue s
  /\ (is_Some (studyMode s) -> studyMode s1 = studyMode s)
  /\ reviewed (sessionStats s1)
     = (reviewed (sessionStats s) + if isRate (a, rnd) then 1 else 0)%nat
  /\ forgotten (sessionStats s1)
     = (forgotten (sessionStats s) + if isFail (a, rnd) then 1 else 0)%nat
  /\ length (List.filter isUpdate e1)
     = if isRate (a, rnd) then 1%nat else 0%nat.
Proof.
  intros Hen Hh (I1 & I2 & I3 & I4 & I5 & I6).
  apply enabled_Active in Hen. unfold steady.
  destruct a as [m| |text| |opt|now rating|]; simpl in Hh.
  - injection Hh as <- <-. destruct Hen as [Hnone _]. simpl.
    rewrite Hnone in *.
    refine (conj (conj _ (conj _ (conj I3 (conj I4 (conj I5 _)))))
              (conj eq_refl (conj _ (conj _ (conj _ eq_refl))))); try lia.
    + intros _. apply I1. discriminate.
    + intros _ _. apply I2; discriminate.
    + discriminate.
    + intros [x Hx]. discriminate.
  - injection Hh as <- <-. destruct Hen as (m & w & Hm & _ & _ & ->).
    unfold handleFlip. rewrite I3, Hm. simpl.
    refine (conj (conj _ (conj _ (conj I3 (conj I4 (conj I5 _)))))
              (conj eq_refl (conj _ (conj _ (conj _ eq_refl))))); try lia.
    + congruence.
    + intros. apply I2; congruence.
    + congruence.
    + intros _. simpl. congruence.
  - injection Hh as <- <-. simpl.
    refine (conj (conj I1 (conj I2 (conj I3 (conj I4 (conj I5 I6)))))
              (conj eq_refl (conj _ (conj _ (conj _ eq_refl))))); try lia.
    reflexivity.
  - destruct Hen as (m & w & Hm & Hw & _ & -> & _).
    unfold handleCheckTyping in Hh. rewrite Hw in Hh.
    destruct (JS.is_empty (JS.trim (userInput s)));
      injection Hh as <- <-; simpl;
      (refine (conj (conj I1 (conj _ (conj I3 (conj I4 (conj I5 I6)))))
                 (conj eq_refl (conj _ (conj _ (conj _ _)))));
       [congruence|reflexivity|lia|lia|]);
      [reflexivity|].
    now destruct (bool_decide _).
  - destruct Hen as (m & w & Hm & Hw & _ & -> & _).
    unfold handleSelectQuiz in Hh. rewrite Hw in Hh.
    destruct (isAnswered s);
      injection Hh as <- <-; simpl;
      (refine (conj (conj I1 (conj _ (conj I3 (conj I4 (conj I5 I6)))))
                 (conj eq_refl (conj _ (conj _ (conj _ _)))));
       [congruence|reflexivity|lia|lia|]);
      [reflexivity|].
    now destruct (bool_decide _).
  - destruct Hen as (m & w & Hm & Hw & _ & _).
    unfold handleRate in Hh. rewrite Hw in Hh. injection Hh as <- <-.
    destruct rating;
      destruct (Z.of_nat (currentIndex s) <? Z.of_nat (length (queue s)) - 1);
      simpl;
      (refine (conj (conj _ (conj I2 (conj I3 (conj _ (conj _ _)))))
                 (conj eq_refl (conj _ (conj _ (conj _ eq_refl)))));
       try lia; try reflexivity; try congruence; auto).
  - injection Hh as <- <-. unfold timerFires.
    destruct (timers s) as [|n] eqn:Ht; [lia|]. simpl.
    refine (conj (conj I1 (conj I2 (conj I3 (conj _ (conj I5 I6)))))
              (conj eq_refl (conj _ (conj _ (conj _ eq_refl))))); try lia.
    reflexivity.
Qed.

Lemma step_steady (words : list WordData) (a : Action) (rnd : Random)
    (s s' : State) (e : list Effect) :
  step words a rnd s = Stepped s' e ->
  steady s ->
  steady s'
  /\ queue s' = queue s
  /\ (is_Some (studyMode s) -> studyMode s' = studyMode s)
  /\ reviewed (sessionStats s')
     = (reviewed (sessionStats s) + length (List.filter isRate [(a, rnd)]))%nat
  /\ forgotten (sessionStats s')
     = (forgotten (sessionStats s) + length (List.filter isFail [(a, rnd)]))%nat
  /\ length (List.filter isUpdate e) = length (List.filter isRate [(a, rnd)]).
Proof.
  unfold step. intros Hstep Hs.
  destruct (enabled a s) eqn:Hen; [|discriminate].
  destruct (handle a s) as [[s1 e1]|] eqn:Hh; [|discriminate].
  destruct (handle_steady a rnd s s1 e1 Hen Hh Hs)
    as (Hs1 & Hq & Hm & Hr & Hf & Hu).
  assert (Hcount : forall (f : Action * Random -> bool),
             length (List.filter f [(a, rnd)])
             = if f (a, rnd) then 1%nat else 0%nat).
  { intros f. simpl. now destruct (f (a, rnd)). }
  rewrite !Hcount.
  destruct (depsChanged s s1).
  - pose proof (itemEffect_frame (shuffleWords rnd) (shuffleTexts rnd)
                  words s1) as Hframe.
    destruct (itemEffect (shuffleWords rnd) (shuffleTexts rnd) words s1)
      as [s2 e2].
    simpl in Hframe.
    destruct Hframe
      as (F1 & F2 & F3 & F4 & F5 & F6 & F7 & F8 & F9 & F10).
    injection Hstep as <- <-.
    destruct Hs1 as (I1 & I2 & I3 & I4 & I5 & I6).
    split.
    { unfold steady. rewrite F2, F3, F4, F5, F7, F8.
      refine (conj I1 (conj _ (conj I3 (conj I4 (conj I5 I6))))).
      intros Ht Hq'. destruct F9 as [->| ->]; auto. }
    rewrite F1, F4, F5, List.filter_app, F10, app_nil_r.
    exact (conj Hq (conj Hm (conj Hr (conj Hf Hu)))).
  - injection Hstep as <- <-.
    exact (conj Hs1 (conj Hq (conj Hm (conj Hr (conj Hf Hu))))).
Qed.

Lemma run_steady (words : list WordData) (acts : list (Action * Random))
    (s s' : State) (e : list Effect) :
  run words acts s = Stepped s' e ->
  steady s ->
  steady s'
  /\ queue s' = queue s
  /\ (is_Some (studyMode s) -> studyMode s' = studyMode s)
  /\ reviewed (sessionStats s')
     = (reviewed (sessionStats s) + length (List.filter isRate acts))%nat
  /\ forgotten (sessionStats s')
     = (forgotten (sessionStats s) + length (List.filter isFail acts))%nat
  /\ length (List.filter isUpdate e) = length (List.filter isRate acts).
Proof.
  revert s e. induction acts as [|[a rnd] acts IH]; intros s e Hrun Hs.
  - injection Hrun as <- <-. simpl. split; [exact Hs|]. repeat split; lia.
  - simpl in Hrun.
    destruct (step words a rnd s) as [s1 e1| |] eqn:Hstep; try discriminate.
    destruct (run words acts s1) as [s2 e2| |] eqn:Hrest; try discriminate.
    injection Hrun as <- <-.
    destruct (step_steady words a rnd s s1 e1 Hstep Hs)
      as (Hs1 & Hq1 & Hm1 & Hr1 & Hf1 & Hu1).
    destruct (IH s1 e2 Hrest Hs1) as (Hs2 & Hq2 & Hm2 & Hr2 & Hf2 & Hu2).
    split; [exact Hs2|]. split; [congruence|].
    split.
    { intros Hsome. rewrite Hm2; [now apply Hm1|].
      rewrite Hm1; assumption. }
    change ((a, rnd) :: acts) with ([(a, rnd)] ++ acts).
    rewrite !List.filter_app, !length_app, Hr2, Hr1, Hf2, Hf1, Hu1, Hu2.
    repeat split; lia.
Qed.

Lemma mount_steady (auto : bool) (words : list WordData) :
  steady (mount auto words).
Proof.
  unfold mount, syncQueue, steady.
  destruct (0 <? length words)%nat; simpl; repeat split; auto.
Qed.

(** X6: in every run of a session, [reviewed] is the number of ratings
    given and of words handed to [onUpdateWord], [forgotten] is the
    number of [fail] ratings, and [currentIndex] plus the pending timers
    equals [reviewed]; the queue stays the list the session was given,
    and with no timer pending the final screen is shown exactly when
    [reviewed] has reached the length of that list. *)
Theorem X6_session_counters (auto : bool) (words : list WordData)
    (acts : list (Action * Random)) (s : State) (effects : list Effect) :
  run words acts (mount auto words) = Stepped s effects ->
  reviewed (sessionStats s) = length (List.filter isRate acts)
  /\ forgotten (sessionStats s) = length (List.filter isFail acts)
  /\ length (List.filter isUpdate effects) = length (List.filter isRate acts)
  /\ (currentIndex s + timers s)%nat = reviewed (sessionStats s)
  /\ (forgotten (sessionStats s) <= reviewed (sessionStats s))%nat
  /\ queue s = words
  /\ (timers s = 0%nat ->
      (render s = Some (Complete (sessionStats s))
       <-> (length words <= reviewed (sessionStats s))%nat)).
Proof.
  intros Hrun.
  destruct (run_steady words acts _ s effects Hrun (mount_steady auto words))
    as ((_ & _ & _ & I4 & I5 & I6) & Hq & _ & Hr & Hf & Hu).
  assert (H0 : reviewed (sessionStats (mount auto words)) = 0%nat
               /\ forgotten (sessionStats (mount auto words)) = 0%nat).
  { unfold mount, syncQueue. destruct (0 <? length words)%nat; auto. }
  destruct H0 as [R0 F0]. rewrite R0 in Hr. rewrite F0 in Hf.
  simpl in Hr, Hf.
  split; [exact Hr|]. split; [exact Hf|]. split; [exact Hu|].
  split; [exact I4|]. split; [exact I5|].
  assert (Hqueue : queue s = words) by (rewrite Hq; apply mount_queue).
  split; [exact Hqueue|].
  intros Ht. rewrite <- I4, Ht, Nat.add_0_r, <- Hqueue.
  destruct (render_cases s)
    as [(Hn & Hpos & ->)|[(Hn & Hle & ->)|(m & w & Hn & Hw & Hlt & ->)]].
  - specialize (I6 Hn). split; [discriminate|]. lia.
  - split; auto.
  - split; [discriminate|]. lia.
Qed.

Lemma X6_session_counters_witness :
  exists s effects,
    run Sample.deck
      [(Choose flashcard, Sample.reversing); (Flip, Sample.reversing);
       (Rate 1000 rate_fail, Sample.reversing); (Timer, Sample.reversing);
       (Flip, Sample.reversing); (Rate 2000 rate_easy, Sample.reversing)]
      (mount true Sample.deck)
    = Stepped s effects
    /\ reviewed (sessionStats s) = 2%nat
    /\ forgotten (sessionStats s) = 1%nat.
Proof.
  destruct (run Sample.deck
              [(Choose flashcard, Sample.reversing); (Flip, Sample.reversing);
               (Rate 1000 rate_fail, Sample.reversing);
               (Timer, Sample.reversing); (Flip, Sample.reversing);
               (Rate 2000 rate_easy, Sample.reversing)]
              (mount true Sample.deck)) as [s effects| |] eqn:Hrun.
  - exists s, effects. split; [reflexivity|].
    destruct (X6_session_counters true Sample.deck _ s effects Hrun)
      as (Hr & Hf & _).
    split; [exact Hr|exact Hf].
  - vm_compute in Hrun. discriminate.
  - vm_compute in Hrun. discriminate.
Defined.

(** X7: in every run of a session the mode, once chosen, stays; outside
    the flashcard mode no card is ever flipped, and in the flashcard mode
    nothing is ever answered, so a card shows its rating bar exactly
    after a flip (flashcard) or after an answer (typing, quiz). *)
Theorem X7_mode_discipline (auto : bool) (words : list WordData)
    (acts more : list (Action * Random)) (s s' : State)
    (effects effects' : list Effect) :
  run words acts (mount auto words) = Stepped s effects ->
  run words more s = Stepped s' effects' ->
  (is_Some (studyMode s) -> studyMode s' = studyMode s)
  /\ (studyMode s <> Some flashcard -> isFlipped s = false)
  /\ (studyMode s = Some flashcard -> isAnswered s = false)
  /\ (forall m w position total shown,
        render s = Some (Active m w position total shown) ->
        shown = match studyMode s with
                | Some flashcard => isFlipped s
                | _ => isAnswered s
                end).
Proof.
  intros Hrun Hmore.
  destruct (run_steady words acts _ s effects Hrun (mount_steady auto words))
    as (Hs & _).
  destruct (run_steady words more s s' effects' Hmore Hs) as (_ & _ & Hm & _).
  destruct Hs as (I1 & I2 & _).
  split; [exact Hm|]. split; [exact I1|].
  split; [intros Hf; apply I2; congruence|].
  intros m0 w0 position total shown.
  destruct (render_cases s)
    as [(Hn & Hpos & ->)|[(Hn & Hle & ->)|(m & w & Hn & Hw & Hlt & ->)]];
    [discriminate..|].
  intros [= _ _ _ _ <-]. rewrite Hn.
  destruct m.
  - rewrite I2 by congruence. apply orb_false_r.
  - rewrite I1 by congruence. reflexivity.
  - rewrite I1 by congruence. reflexivity.
Qed.

Lemma X7_mode_discipline_witness :
  exists s e s' e',
    run Sample.deck [(Choose typing, Sample.reversing);
                     (Input "apple", Sample.reversing);
                     (CheckTyping, Sample.reversing)]
      (mount false Sample.deck) = Stepped s e
    /\ run Sample.deck [(Rate 1000 rate_good, Sample.reversing)] s
       = Stepped s' e'
    /\ studyMode s' = studyMode s
    /\ isFlipped s = false
    /\ (forall m w position total shown,
          render s = Some (Active m w position total shown) ->
          shown = isAnswered s).
Proof.
  destruct (run Sample.deck [(Choose typing, Sample.reversing);
                             (Input "apple", Sample.reversing);
                             (CheckTyping, Sample.reversing)]
              (mount false Sample.deck)) as [s e| |] eqn:Hrun;
    [|vm_compute in Hrun; discriminate..].
  destruct (run Sample.deck [(Rate 1000 rate_good, Sample.reversing)] s)
    as [s' e'| |] eqn:Hmore;
    [|vm_compute in Hrun; injection Hrun as <- _; vm_compute in Hmore;
      discriminate..].
  exists s, e, s', e'. split; [reflexivity|]. split; [exact Hmore|].
  destruct (X7_mode_discipline false Sample.deck _ _ s s' e e' Hrun Hmore)
    as (Hm & Hflip & _ & Hbar).
  vm_compute in Hrun. injection Hrun as <- _.
  split; [apply Hm; eexists; reflexivity|].
  split; [apply Hflip; discriminate|].
  intros m w position total shown Hshown.
  exact (Hbar m w position total shown Hshown).
Defined.

(** The state that a rating of a word that is not the last leaves. *)
Lemma handleRate_not_last (now : Z) (rating : Rating) (s : State)
    (w : WordData) :
  currentWord s = Some w ->
  (currentIndex s + 1 < length (queue s))%nat ->
  exists s1,
    handleRate now rating s
    = (s1, [UpdateWord
              (with_schedule w (nextLevel rating (default 0 (srs_level w)))
                 (nextReviewDate now
                    (nextLevel rating (default 0 (srs_level w)))))])
    /\ queue s1 = queue s /\ currentIndex s1 = currentIndex s
    /\ isFlipped s1 = false /\ studyMode s1 = studyMode s
    /\ autoRead s1 = autoRead s /\ isAnswered s1 = isAnswered s
    /\ timers s1 = (timers s + 1)%nat
    /\ reviewed (sessionStats s1) = (reviewed (sessionStats s) + 1)%nat.
Proof.
  intros Hw Hlt. unfold handleRate. rewrite Hw, or_zero_default.
  destruct (Z.ltb_spec (Z.of_nat (currentIndex s))
              (Z.of_nat (length (queue s)) - 1)) as [_|Hge]; [|lia].
  eexists. split; [reflexivity|].
  destruct rating; simpl; repeat split; lia.
Qed.

Lemma enabled_Rate (now : Z) (rating : Rating) (s : State) (m : StudyMode) :
  studyMode s = Some m ->
  (currentIndex s < length (queue s))%nat ->
  enabled (Rate now rating) s = true.
Proof.
  intros Hm Hlt. unfold enabled.
  destruct (render_cases s)
    as [(Hn & _ & _)|[(_ & Hle & _)|(m' & w & _ & _ & _ & ->)]];
    [congruence|lia|reflexivity].
Qed.

Lemma depsChanged_same (s s1 : State) :
  currentIndex s1 = currentIndex s -> studyMode s1 = studyMode s ->
  autoRead s1 = autoRead s -> isFlipped s1 = isFlipped s ->
  depsChanged s s1 = false.
Proof.
  intros H1 H2 H3 H4. unfold depsChanged. rewrite H1, H2, H3, H4.
  rewrite Nat.eqb_refl, bool_decide_eq_true_2 by reflexivity.
  now rewrite !Bool.eqb_reflx.
Qed.

(** A rating in the typing or quiz mode of a word that is not the last:
    nothing but the counters and the timer changes. *)
Lemma step_Rate_answered (words : list WordData) (now : Z) (rating : Rating)
    (rnd : Random) (s : State) (m : StudyMode) (w : WordData) :
  studyMode s = Some m -> isFlipped s = false -> isAnswered s = true ->
  currentWord s = Some w ->
  (currentIndex s + 1 < length (queue s))%nat ->
  exists s1,
    step words (Rate now rating) rnd s
    = Stepped s1
        [UpdateWord
           (with_schedule w (nextLevel rating (default 0 (srs_level w)))
              (nextReviewDate now
                 (nextLevel rating (default 0 (srs_level w)))))]
    /\ queue s1 = queue s /\ currentIndex s1 = currentIndex s
    /\ isFlipped s1 = false /\ studyMode s1 = studyMode s
    /\ isAnswered s1 = true
    /\ timers s1 = (timers s + 1)%nat
    /\ reviewed (sessionStats s1) = (reviewed (sessionStats s) + 1)%nat.
Proof.
  intros Hm Hf Ha Hw Hlt.
  destruct (handleRate_not_last now rating s w Hw Hlt)
    as (s1 & Hr & Hq & Hi & Hf1 & Hm1 & Hau & Ha1 & Ht & Hrev).
  exists s1. unfold step.
  rewrite (enabled_Rate now rating s m Hm) by lia.
  simpl. rewrite Hr.
  rewrite depsChanged_same by congruence.
  repeat split; congruence.
Qed.

(** A pending timer advances the index; the effect then prepares the
    next word and asks for no update. *)
Lemma step_Timer (words : list WordData) (rnd : Random) (s : State)
    (n : nat) :
  timers s = S n ->
  exists s1 e1,
    step words Timer rnd s = Stepped s1 e1
    /\ List.filter isUpdate e1 = []
    /\ queue s1 = queue s
    /\ currentIndex s1 = (currentIndex s + 1)%nat
    /\ timers s1 = n
    /\ sessionStats s1 = sessionStats s.
Proof.
  intros Ht. unfold step, enabled.
  assert (Hen : (match render s with _ => (0 <? timers s)%nat end) = true).
  { rewrite Ht. now destruct (render s) as [[]|]. }
  assert (Hen' : enabled Timer s = true).
  { unfold enabled. rewrite Ht. now destruct (render s) as [[]|]. }
  unfold enabled in Hen'. rewrite Hen'. simpl. unfold timerFires. rewrite Ht.
  assert (Hdeps : depsChanged s
                    (set_timers n (set_currentIndex (currentIndex s + 1) s))
                  = true).
  { unfold depsChanged. simpl.
    destruct (Nat.eqb_spec (currentIndex s) (currentIndex s + 1)); [lia|].
    reflexivity. }
  rewrite Hdeps.
  pose proof (itemEffect_frame (shuffleWords rnd) (shuffleTexts rnd) words
                (set_timers n (set_currentIndex (currentIndex s + 1) s)))
    as Hframe.
  destruct (itemEffect (shuffleWords rnd) (shuffleTexts rnd) words
              (set_timers n (set_currentIndex (currentIndex s + 1) s)))
    as [s2 e2].
  simpl in Hframe.
  destruct Hframe as (F1 & F2 & _ & _ & F5 & _ & _ & F8 & _ & F10).
  exists s2, e2. repeat split; assumption.
Qed.

(** X8: in the typing and quiz modes the rating buttons stay active
    until the timer of a rating has fired.  Two ratings given in that time
    both rate the same word, each from the level stored in the queue, and
    the two timers then advance the index by two: the word after it is
    passed without a rating. *)
Theorem X8_double_rating (words : list WordData) (s : State) (m : StudyMode)
    (w : WordData) (now1 now2 : Z) (r1 r2 : Rating)
    (rnd1 rnd2 rnd3 rnd4 : Random) :
  studyMode s = Some m -> isFlipped s = false -> isAnswered s = true ->
  currentWord s = Some w ->
  (currentIndex s + 1 < length (queue s))%nat ->
  timers s = 0%nat ->
  exists s' effects,
    run words [(Rate now1 r1, rnd1); (Rate now2 r2, rnd2); (Timer, rnd3);
               (Timer, rnd4)] s
    = Stepped s' effects
    /\ List.filter isUpdate effects
       = [UpdateWord
            (with_schedule w (nextLevel r1 (default 0 (srs_level w)))
               (nextReviewDate now1
                  (nextLevel r1 (default 0 (srs_level w)))));
          UpdateWord
            (with_schedule w (nextLevel r2 (default 0 (srs_level w)))
               (nextReviewDate now2
                  (nextLevel r2 (default 0 (srs_level w)))))]
    /\ currentIndex s' = (currentIndex s + 2)%nat
    /\ reviewed (sessionStats s') = (reviewed (sessionStats s) + 2)%nat
    /\ timers s' = 0%nat.
Proof.
  intros Hm Hf Ha Hw Hlt Ht.
  destruct (step_Rate_answered words now1 r1 rnd1 s m w Hm Hf Ha Hw Hlt)
    as (s1 & E1 & Q1 & I1 & F1 & M1 & A1 & T1 & R1).
  assert (Hw1 : currentWord s1 = Some w)
    by (unfold currentWord in *; congruence).
  destruct (step_Rate_answered words now2 r2 rnd2 s1 m w
              ltac:(congruence) F1 A1 Hw1 ltac:(rewrite Q1, I1; exact Hlt))
    as (s2 & E2 & Q2 & I2 & F2 & M2 & A2 & T2 & R2).
  destruct (step_Timer words rnd3 s2 1 ltac:(lia))
    as (s3 & e3 & E3 & U3 & Q3 & I3 & T3 & S3).
  destruct (step_Timer words rnd4 s3 0 T3)
    as (s4 & e4 & E4 & U4 & Q4 & I4 & T4 & S4).
  exists s4. eexists. unfold run. rewrite E1, E2, E3, E4.
  split; [reflexivity|].
  rewrite app_nil_r. simpl. rewrite !List.filter_app, U3, U4. simpl.
  split; [reflexivity|]. rewrite S4, S3. repeat split; lia.
Qed.

Lemma X8_double_rating_witness :
  exists s' effects,
    run Sample.deck
      [(Rate 1000 rate_good, Sample.reversing);
       (Rate 1001 rate_good, Sample.reversing);
       (Timer, Sample.reversing); (Timer, Sample.reversing)]
      (set_isAnswered true (Sample.session typing))
    = Stepped s' effects
    /\ currentIndex s' = 2%nat
    /\ reviewed (sessionStats s') = 2%nat.
Proof.
  destruct (X8_double_rating Sample.deck
              (set_isAnswered true (Sample.session typing)) typing
              Sample.apple 1000 1001 rate_good rate_good Sample.reversing
              Sample.reversing Sample.reversing Sample.reversing
              eq_refl eq_refl eq_refl eq_refl ltac:(simpl; lia) eq_refl)
    as (s' & effects & Hrun & _ & Hi & Hr & _).
  exists s', effects. split; [exact Hrun|]. split; [exact Hi|exact Hr].
Defined.

Lemma itemEffect_flashcard (sw : list WordData -> list WordData)
    (st : list string -> list string) (words : list WordData) (s : State)
    (w : WordData) :
  studyMode s = Some flashcard ->
  currentWord s = Some w ->
  itemEffect sw st words s
  = (set_isCorrectAnswer None (set_isAnswered false (set_userInput "" s)),
     if autoRead s && negb (isFlipped s) then [Speak (word w)] else []).
Proof.
  intros Hm Hw. unfold itemEffect. rewrite Hw, Hm.
  rewrite (bool_decide_eq_false_2 (Some flashcard = Some quiz))
    by discriminate.
  rewrite (bool_decide_eq_false_2 (Some flashcard = Some typing))
    by discriminate.
  rewrite (bool_decide_eq_true_2 (Some flashcard = Some flashcard))
    by reflexivity.
  rewrite andb_true_r, app_nil_r. reflexivity.
Qed.

Lemma enabled_Timer (s : State) (n : nat) :
  timers s = S n -> enabled Timer s = true.
Proof.
  intros Ht. unfold enabled. rewrite Ht. now destruct (render s) as [[]|].
Qed.

Lemma step_Timer_flashcard (words : list WordData) (rnd : Random)
    (s : State) (n : nat) (w2 : WordData) :
  timers s = S n ->
  studyMode s = Some flashcard ->
  queue s !! (currentIndex s + 1)%nat = Some w2 ->
  step words Timer rnd s
  = Stepped
      (set_isCorrectAnswer None
         (set_isAnswered false
            (set_userInput ""
               (set_timers n (set_currentIndex (currentIndex s + 1) s)))))
      (if autoRead s && negb (isFlipped s) then [Speak (word w2)] else []).
Proof.
  intros Ht Hm Hw2. unfold step. rewrite (enabled_Timer s n Ht).
  change (handle Timer s) with (Some (timerFires s, @nil Effect)).
  unfold timerFires. rewrite Ht.
  assert (Hd : depsChanged s
                 (set_timers n (set_currentIndex (currentIndex s + 1) s))
               = true).
  { unfold depsChanged. simpl.
    destruct (Nat.eqb_spec (currentIndex s) (currentIndex s + 1));
      [lia|reflexivity]. }
  rewrite Hd.
  rewrite (itemEffect_flashcard _ _ words _ w2); [reflexivity|exact Hm|].
  unfold currentWord. simpl. exact Hw2.
Qed.

(** X9: in the flashcard mode, rating a flipped card that is not the
    last turns the card back at once: until the timer fires the screen
    is the card of the word just rated, front side up, with the rating
    bar hidden, and the card can be flipped again; with auto-read on,
    the word just rated is spoken once more, and the next word is spoken
    when the timer advances the index. *)
Theorem X9_flashcard_rating (words : list WordData) (now : Z)
    (rating : Rating) (rnd rnd' : Random) (s : State) (w w2 : WordData) :
  studyMode s = Some flashcard -> isFlipped s = true ->
  isAnswered s = false ->
  currentWord s = Some w ->
  queue s !! (currentIndex s + 1)%nat = Some w2 ->
  timers s = 0%nat ->
  exists s1 s2,
    step words (Rate now rating) rnd s
    = Stepped s1
        (UpdateWord
           (with_schedule w (nextLevel rating (default 0 (srs_level w)))
              (nextReviewDate now
                 (nextLevel rating (default 0 (srs_level w)))))
         :: if autoRead s then [Speak (word w)] else [])
    /\ currentWord s1 = Some w
    /\ render s1
       = Some (Active (Some flashcard) w (currentIndex s + 1)
                 (length (queue s)) false)
    /\ isFlipped s1 = false
    /\ enabled Flip s1 = true
    /\ step words Timer rnd' s1
       = Stepped s2 (if autoRead s then [Speak (word w2)] else [])
    /\ currentWord s2 = Some w2
    /\ isFlipped s2 = false.
Proof.
  intros Hm Hf Ha Hw Hw2 Ht.
  assert (Hlt : (currentIndex s + 1 < length (queue s))%nat)
    by (now apply lookup_lt_Some in Hw2).
  destruct (handleRate_not_last now rating s w Hw Hlt)
    as (s1 & Hr & Hq & Hi & Hf1 & Hm1 & Hau & Ha1 & Ht1 & _).
  assert (Hw1 : currentWord s1 = Some w)
    by (unfold currentWord in *; congruence).
  set (s1' := set_isCorrectAnswer None
                (set_isAnswered false (set_userInput "" s1))).
  set (t := set_timers 0 (set_currentIndex (currentIndex s1' + 1) s1')).
  set (s2 := set_isCorrectAnswer None
               (set_isAnswered false (set_userInput "" t))).
  exists s1', s2.
  assert (Hrender : render s1'
                    = Some (Active (Some flashcard) w (currentIndex s + 1)
                              (length (queue s)) false)).
  { unfold s1'.
    match goal with
    | |- render ?x = _ =>
        destruct (render_cases x)
          as [(Hn & _ & _)|[(_ & Hle & _)|(m' & w' & Hm' & Hw' & _ & ->)]]
    end.
    - simpl in Hn. congruence.
    - simpl in Hle. rewrite Hq, Hi in Hle. lia.
    - simpl in Hm'. unfold currentWord in Hw', Hw1. simpl in Hw'.
      simpl. rewrite Hq, Hi, Hf1. simpl. congruence. }
  split.
  { unfold step. rewrite (enabled_Rate now rating s flashcard Hm) by lia.
    simpl. rewrite Hr.
    assert (Hd : depsChanged s s1 = true).
    { unfold depsChanged. rewrite Hf1, Hf. simpl. apply orb_true_r. }
    rewrite Hd, (itemEffect_flashcard _ _ words s1 w) by congruence.
    rewrite Hf1, Hau, andb_true_r. reflexivity. }
  split; [exact Hw1|].
  split; [exact Hrender|].
  split; [exact Hf1|].
  split; [unfold enabled; now rewrite Hrender|].
  assert (Hwt : currentWord t = Some w2).
  { unfold currentWord, t, s1'. simpl. rewrite Hq, Hi. exact Hw2. }
  split.
  { rewrite (step_Timer_flashcard words rnd' s1' 0 w2).
    - unfold s2, t, s1'. simpl. rewrite Hf1, Hau, andb_true_r. reflexivity.
    - unfold s1'. simpl. lia.
    - unfold s1'. simpl. congruence.
    - unfold s1'. simpl. rewrite Hq, Hi. exact Hw2. }
  split; [exact Hwt|]. exact Hf1.
Qed.

Lemma X9_flashcard_rating_witness :
  exists s1 s2,
    step Sample.deck (Rate 1000 rate_good) Sample.reversing
      (set_isFlipped true (chooseMode flashcard (mount true Sample.deck)))
    = Stepped s1
        [UpdateWord
           (with_schedule Sample.apple 1 (JS.Num 259201000));
         Speak "apple"]
    /\ step Sample.deck Timer Sample.reversing s1
       = Stepped s2 [Speak "river"].
Proof.
  destruct (X9_flashcard_rating Sample.deck 1000 rate_good Sample.reversing
              Sample.reversing
              (set_isFlipped true
                 (chooseMode flashcard (mount true Sample.deck)))
              Sample.apple Sample.river eq_refl eq_refl eq_refl eq_refl
              eq_refl eq_refl)
    as (s1 & s2 & H1 & _ & _ & _ & _ & H2 & _).
  exists s1, s2. split; [exact H1|exact H2].
Defined.

(** *** Quiz *)

(** The correct text is among the options exactly once. *)
Lemma quiz_options_count
    (shuffleW : list WordData -> list WordData)
    (shuffleS : list string -> list string)
    (words : list WordData) (correctWord : string) :
  (forall l, Permutation l (shuffleW l)) ->
  (forall l, Permutation l (shuffleS l)) ->
  count_occ string_dec
    (generateQuizOptions shuffleW shuffleS words correctWord) correctWord
  = 1%nat.
Proof.
  intros HpW HpS. unfold generateQuizOptions.
  destruct (Nat.ltb_spec (length words) 2) as [Hlt|Hge].
  { simpl. now destruct (string_dec correctWord correctWord). }
  pose proof (HpW (others correctWord words)) as Hp.
  pose proof (Permutation_sym
                (HpS (map word (take 3 (shuffleW (others correctWord words)))
                      ++ [correctWord]))) as Hopts.
  rewrite (proj1 (Permutation_count_occ string_dec _ _) Hopts).
  rewrite count_occ_app.
  rewrite (proj1 (count_occ_not_In string_dec _ _)).
  - simpl. now destruct (string_dec correctWord correctWord).
  - intros Hin. apply in_map_iff in Hin as (w & Hw & Hin).
    apply list_elem_of_In in Hin. apply elem_of_take in Hin as (i & Hi & _).
    apply list_elem_of_lookup_2 in Hi. apply list_elem_of_In in Hi.
    apply (Permutation_in _ (Permutation_sym Hp)) in Hi.
    apply others_In in Hi. tauto.
Qed.


(** X10: for every deck, also one with repeated texts, the options hold
    the correct text exactly once; every other option is the text of a
    deck word and differs from the correct text; and a deck of at least
    two words gives one option more than the lesser of three and the
    number of deck words with another text. *)
Theorem X10_quiz_options_any_deck
    (shuffleW : list WordData -> list WordData)
    (shuffleS : list string -> list string)
    (words : list WordData) (correctWord : string) :
  (forall l, Permutation l (shuffleW l)) ->
  (forall l, Permutation l (shuffleS l)) ->
  count_occ string_dec
    (generateQuizOptions shuffleW shuffleS words correctWord) correctWord
  = 1%nat
  /\ (forall o,
        In o (generateQuizOptions shuffleW shuffleS words correctWord) ->
        o = correctWord
        \/ (o <> correctWord /\ exists w, In w words /\ word w = o))
  /\ ((2 <= length words)%nat ->
      length (generateQuizOptions shuffleW shuffleS words correctWord)
      = S (Nat.min 3 (length (others correctWord words)))).
Proof.
  intros HpW HpS. unfold generateQuizOptions.
  destruct (Nat.ltb_spec (length words) 2) as [Hlt|Hge].
  { split; [|split; [|lia]].
    - simpl. now destruct (string_dec correctWord correctWord).
    - intros o [<-|[]]. now left. }
  pose proof (HpW (others correctWord words)) as Hp.
  set (picked := take 3 (shuffleW (others correctWord words))).
  assert (Hpicked : forall w, In w picked ->
                              word w <> correctWord /\ In w words).
  { intros w Hin. apply list_elem_of_In in Hin.
    apply elem_of_take in Hin as (i & Hi & _).
    apply list_elem_of_lookup_2 in Hi. apply list_elem_of_In in Hi.
    apply (Permutation_in _ (Permutation_sym Hp)) in Hi.
    apply others_In in Hi. tauto. }
  pose proof (Permutation_sym (HpS (map word picked ++ [correctWord])))
    as Hopts.
  assert (Hnone : count_occ string_dec (map word picked) correctWord = 0%nat).
  { apply count_occ_not_In. intros Hin.
    apply in_map_iff in Hin as (w & Hw & Hin).
    now apply Hpicked in Hin as [Hne _]. }
  split; [|split].
  - rewrite (proj1 (Permutation_count_occ string_dec _ _) Hopts).
    rewrite count_occ_app, Hnone. simpl.
    now destruct (string_dec correctWord correctWord).
  - intros o Hin. apply (Permutation_in _ Hopts) in Hin.
    apply in_app_or in Hin as [Hin|[<-|[]]]; [|now left].
    apply in_map_iff in Hin as (w & <- & Hin).
    apply Hpicked in Hin as [Hne Hin]. right. eauto.
  - intros _. rewrite (Permutation_length Hopts), length_app, length_map.
    unfold picked. rewrite length_take, <- (Permutation_length Hp).
    simpl. lia.
Qed.

Lemma X10_quiz_options_any_deck_witness :
  length
    (generateQuizOptions (@rev WordData) (@rev string)
       [Sample.apple; Sample.apple; Sample.river] "apple")
  = 2%nat.
Proof.
  apply (X10_quiz_options_any_deck (@rev WordData) (@rev string)
           [Sample.apple; Sample.apple; Sample.river] "apple"
           (@Permutation_rev WordData) (@Permutation_rev string)).
  simpl. lia.
Defined.

(** X11: in the quiz mode, once the effect has drawn the options for the
    current word, the text of that word is among them exactly once; the
    option chosen is marked correct exactly when it is that text, letter
    for letter; and after the first choice a further choice changes
    nothing. *)
Theorem X11_quiz_choice (words : list WordData) (rnd : Random) (s : State)
    (w : WordData) (opt opt' : string) :
  (forall l, Permutation l (shuffleWords rnd l)) ->
  (forall l, Permutation l (shuffleTexts rnd l)) ->
  studyMode s = Some quiz ->
  currentWord s = Some w ->
  exists s1 e1 s2 e2,
    itemEffect (shuffleWords rnd) (shuffleTexts rnd) words s = (s1, e1)
    /\ count_occ string_dec (quizOptions s1) (word w) = 1%nat
    /\ isAnswered s1 = false
    /\ handleSelectQuiz opt s1 = Some (s2, e2)
    /\ isAnswered s2 = true
    /\ (isCorrectAnswer s2 = Some true <-> opt = word w)
    /\ (isCorrectAnswer s2 = Some false <-> opt <> word w)
    /\ handleSelectQuiz opt' s2 = Some (s2, []).
Proof.
  intros HpW HpS Hm Hw.
  pose proof (quiz_options_count (shuffleWords rnd) (shuffleTexts rnd) words
                (word w) HpW HpS) as Hcount.
  set (s1 := set_isCorrectAnswer None
               (set_isAnswered false
                  (set_userInput ""
                     (set_quizOptions
                        (generateQuizOptions (shuffleWords rnd)
                           (shuffleTexts rnd) words (word w)) s)))).
  set (correct := bool_decide (opt = word w)).
  set (s2 := set_isAnswered true (set_isCorrectAnswer (Some correct) s1)).
  exists s1. eexists. exists s2. eexists.
  split.
  { unfold itemEffect. rewrite Hw, Hm.
    rewrite (bool_decide_eq_true_2 (Some quiz = Some quiz)) by reflexivity.
    reflexivity. }
  split; [exact Hcount|]. split; [reflexivity|].
  assert (Hw1 : currentWord s1 = Some w) by exact Hw.
  split.
  { unfold handleSelectQuiz. rewrite Hw1. reflexivity. }
  split; [reflexivity|].
  change (isCorrectAnswer s2) with (Some correct). unfold correct.
  split; [|split].
  - destruct (bool_decide_reflect (opt = word w)); intuition congruence.
  - destruct (bool_decide_reflect (opt = word w)); intuition congruence.
  - reflexivity.
Qed.

Lemma X11_quiz_choice_witness :
  exists s1 e1 s2 e2,
    itemEffect (@rev WordData) (@rev string) Sample.deck
      (Sample.session quiz) = (s1, e1)
    /\ quizOptions s1 = ["apple"; "river"; "stone"; "cloud"]
    /\ handleSelectQuiz "Apple" s1 = Some (s2, e2)
    /\ isCorrectAnswer s2 = Some false.
Proof.
  destruct (X11_quiz_choice Sample.deck Sample.reversing
              (Sample.session quiz) Sample.apple "Apple" "apple"
              (@Permutation_rev WordData) (@Permutation_rev string)
              eq_refl eq_refl)
    as (s1 & e1 & s2 & e2 & H1 & _ & _ & H2 & _ & _ & Hfalse & _).
  exists s1, e1, s2, e2. split; [exact H1|].
  split; [now injection H1 as <- _|].
  split; [exact H2|]. apply Hfalse. discriminate.
Defined.

End SessionMachine.

(** ** The decks of [App], through their events *)

Section DeckEvents.

Import App.

Lemma state_eta (s : State) :
  mkState (query s) (searchMode s) (wordData s) (sentenceData s) (loading s)
    (error s) (currentView s) (latestQueryRef s) (savedWords s)
    (savedSentences s) (studyQueue s) = s.
Proof. now destruct s. Qed.

Lemma filter_all {A : Type} (q : A -> bool) (l : list A) :
  existsb q l = false -> List.filter (fun x => negb (q x)) l = l.
Proof.
  induction l as [|a l IH]; simpl; [reflexivity|].
  intros H. apply orb_false_iff in H as [Ha Hl].
  rewrite Ha. simpl. f_equal. now apply IH.
Qed.

Lemma NoDup_map_filter {A B : Type} (f : A -> B) (p : A -> bool)
    (l : list A) :
  List.NoDup (map f l) -> List.NoDup (map f (List.filter p l)).
Proof.
  induction l as [|a l IH]; simpl; [auto|].
  intros Hnd. apply List.NoDup_cons_iff in Hnd as [Hnot Hnd].
  destruct (p a); simpl; [|now apply IH].
  apply List.NoDup_cons_iff. split; [|now apply IH].
  intros Hin. apply Hnot. apply in_map_iff in Hin as (x & Hx & Hin).
  apply in_map_iff. exists x. split; [exact Hx|].
  now apply List.filter_In in Hin as [Hin _].
Qed.

(** The word that a rating of the queue word at [i] writes back. *)
Lemma rated_effect (s : State) (i : nat) (w : WordData) (now : Z)
    (rating : Study.Rating) :
  studyQueue s !! i = Some w ->
  applyEffects
    (snd (Study.handleRate now rating
            (Study.set_currentIndex i (studySession false s)))) s
  = onUpdateWord
      (with_schedule w
         (Study.nextLevel rating (default 0 (srs_level w)))
         (Study.nextReviewDate now
            (Study.nextLevel rating (default 0 (srs_level w))))) s.
Proof.
  intros Hw.
  assert (Hcur : Study.currentWord
                   (Study.set_currentIndex i (studySession false s))
                 = Some w).
  { unfold Study.currentWord, studySession. simpl.
    now rewrite mount_queue. }
  destruct (handleRate_current now rating _ w Hcur) as (s' & -> & _).
  reflexivity.
Qed.

Lemma onUpdateWord_texts (w : WordData) (s : State) :
  map word (savedWords (onUpdateWord w s)) = map word (savedWords s).
Proof.
  unfold onUpdateWord. simpl. rewrite map_map. apply map_ext.
  intros old. destruct (String.eqb_spec (word old) (word w)); congruence.
Qed.

Lemma onUpdateWord_members (w : WordData) (s : State) (x : WordData) :
  In x (savedWords (onUpdateWord w s)) ->
  (x = w /\ In (word w) (map word (savedWords s)))
  \/ (In x (savedWords s) /\ word x <> word w).
Proof.
  intros Hin. unfold onUpdateWord in Hin. simpl in Hin.
  apply in_map_iff in Hin as (old & Hx & Hin).
  destruct (String.eqb_spec (word old) (word w)) as [He|Hne].
  - left. split; [now symmetry|]. rewrite <- He. now apply in_map.
  - right. subst x. auto.
Qed.

(** X12: writing a word back keeps the length, the order and the texts
    of the saved words, touches neither the saved sentences nor the
    queue of the session, and puts the word in the place of every saved
    word of exactly its text; when no saved word has that text, nothing
    changes and the new schedule is lost. *)
Theorem X12_write_back (w : WordData) (s : State) :
  map word (savedWords (onUpdateWord w s)) = map word (savedWords s)
  /\ savedSentences (onUpdateWord w s) = savedSentences s
  /\ studyQueue (onUpdateWord w s) = studyQueue s
  /\ (forall x, In x (savedWords (onUpdateWord w s)) ->
        (x = w /\ In (word w) (map word (savedWords s)))
        \/ (In x (savedWords s) /\ word x <> word w))
  /\ (In (word w) (map word (savedWords s)) ->
      In w (savedWords (onUpdateWord w s)))
  /\ (~ In (word w) (map word (savedWords s)) -> onUpdateWord w s = s).
Proof.
  split; [apply onUpdateWord_texts|]. split; [reflexivity|].
  split; [reflexivity|]. split; [|split].
  - apply onUpdateWord_members.
  - intros Hin. apply in_map_iff in Hin as (old & He & Hin).
    unfold onUpdateWord. simpl. apply in_map_iff. exists old.
    split; [|exact Hin]. now rewrite He, String.eqb_refl.
  - intros Hnot. unfold onUpdateWord, set_savedWords.
    rewrite <- (state_eta s) at 12. f_equal.
    rewrite <- (map_id (savedWords s)) at 2. apply map_ext_in.
    intros old Hin. destruct (String.eqb_spec (word old) (word w)) as [He|];
      [|reflexivity].
    exfalso. apply Hnot. rewrite <- He. now apply in_map.
Qed.

Lemma X12_write_back_witness :
  onUpdateWord Sample.padded (initial Sample.deck [])
  = initial Sample.deck [].
Proof.
  apply (X12_write_back Sample.padded (initial Sample.deck [])).
  simpl. intuition discriminate.
Defined.

(** X13: when the session rates a word of its queue whose level is an
    index of the table, every saved word of that text gets the new level
    and is due from [now] plus the interval of that level on, not before:
    it is not due at [now]. *)
Theorem X13_rated_word_due_later (s : State) (i : nat) (w : WordData)
    (now : Z) (rating : Study.Rating) :
  studyQueue s !! i = Some w ->
  0 <= default 0 (srs_level w) <= Study.lastIndex ->
  0 <= now ->
  exists days,
    Study.SRS_INTERVALS
      !! Z.to_nat (Study.nextLevel rating (default 0 (srs_level w)))
    = Some days
    /\ 1 <= days
    /\ forall x,
         In x (savedWords
                 (applyEffects
                    (snd (Study.handleRate now rating
                            (Study.set_currentIndex i
                               (studySession false s)))) s)) ->
         word x = word w ->
         srs_level x
         = Some (Study.nextLevel rating (default 0 (srs_level w)))
         /\ isDue now (next_review x) = false
         /\ forall t, isDue t (next_review x) = (now + days * 86400000 <=? t).
Proof.
  intros Hw Hl Hnow. rewrite (rated_effect s i w now rating Hw).
  destruct (nextReviewDate_inside now _
              (nextLevel_valid rating _ Hl)) as (days & Hd & Hb & Hdate).
  exists days. split; [exact Hd|]. split; [lia|].
  intros x Hin Hx.
  destruct (onUpdateWord_members _ s x Hin) as [[-> _]|[_ Hne]];
    [|contradiction].
  split; [reflexivity|]. simpl. rewrite Hdate.
  assert (Hdue : forall t, isDue t (Some (JS.Num (now + days * 86400000)))
                           = (now + days * 86400000 <=? t)).
  { intros t. rewrite isDue_cases.
    destruct (Z.eqb_spec (now + days * 86400000) 0); [lia|reflexivity]. }
  split; [|exact Hdue].
  rewrite Hdue. apply Z.leb_gt. lia.
Qed.

Lemma X13_rated_word_due_later_witness :
  let s := onStartStudy (fun l => l) (initial Sample.deck []) in
  exists days,
    Study.SRS_INTERVALS !! 3%nat = Some days
    /\ 1 <= days
    /\ Forall (fun x => word x = "river" ->
                        srs_level x = Some 3
                        /\ isDue 1000 (next_review x) = false)
         (savedWords
            (applyEffects
               (snd (Study.handleRate 1000 Study.rate_good
                       (Study.set_currentIndex 1 (studySession false s))))
               s)).
Proof.
  intros s.
  destruct (X13_rated_word_due_later s 1 Sample.river 1000 Study.rate_good
              eq_refl ltac:(simpl; rewrite lastIndex_value; lia) ltac:(lia))
    as (days & Hdays & Hpos & Hall).
  exists days. split; [exact Hdays|]. split; [exact Hpos|].
  apply List.Forall_forall. intros x Hin Hx.
  destruct (Hall x Hin Hx) as (Hl & Hdue & _).
  split; [exact Hl|exact Hdue].
Defined.

Lemma isItemSaved_word (w : WordData) (s : State) :
  isItemSaved (Some (inl w)) s = true
  <-> In (lowerText w) (map lowerText (savedWords s)).
Proof.
  simpl. rewrite existsb_exists, in_map_iff. unfold lowerText.
  split; intros (x & H1 & H2); exists x.
  - apply String.eqb_eq in H2. auto.
  - split; [exact H2|]. now apply String.eqb_eq.
Qed.

Lemma isItemSaved_sentence (d : SentenceData) (s : State) :
  isItemSaved (Some (inr d)) s = true
  <-> In (sentence d) (map sentence (savedSentences s)).
Proof.
  simpl. rewrite existsb_exists, in_map_iff.
  split; intros (x & H1 & H2); exists x.
  - apply String.eqb_eq in H2. auto.
  - split; [exact H2|]. now apply String.eqb_eq.
Qed.

(** X14: saving an item that is not saved puts it first in its deck at
    level 0, due at once, and makes it saved; toggling it again gives
    back the state from before.  Toggling a saved word removes every
    saved word with the same letters in any case, so that it is no
    longer saved. *)
Theorem X14_toggle_save (now now' : Z) (item : Item) (s : State) :
  (isItemSaved (Some item) s = false ->
   isItemSaved (Some item) (handleToggleSave now (Some item) s) = true
   /\ handleToggleSave now' (Some item) (handleToggleSave now (Some item) s)
      = s
   /\ match item with
      | inl w =>
          savedWords (handleToggleSave now (Some item) s)
          = with_schedule w 0 (JS.Num now) :: savedWords s
      | inr d =>
          savedSentences (handleToggleSave now (Some item) s)
          = s_with_schedule d 0 (JS.Num now) :: savedSentences s
      end
   /\ dueCount now (handleToggleSave now (Some item) s)
      = S (dueCount now s))
  /\ (isItemSaved (Some item) s = true ->
      isItemSaved (Some item) (handleToggleSave now (Some item) s) = false
      /\ match item with
         | inl w =>
             forall x, In x (savedWords (handleToggleSave now (Some item) s))
                       <-> In x (savedWords s) /\ lowerText x <> lowerText w
         | inr d =>
             forall x,
               In x (savedSentences (handleToggleSave now (Some item) s))
               <-> In x (savedSentences s) /\ sentence x <> sentence d
         end).
Proof.
  assert (Hdue : forall t, isDue t (Some (JS.Num t)) = true).
  { intros t. rewrite isDue_cases, Z.leb_refl. apply orb_true_r. }
  split.
  - intros Hno. unfold handleToggleSave. rewrite Hno.
    destruct s as [q m wd sd ld er cv lq sw ss sq].
    destruct item as [w|d]; simpl in *.
    + rewrite String.eqb_refl. simpl.
      split; [reflexivity|]. split; [|split; [reflexivity|]].
      * unfold set_savedWords. simpl. f_equal.
        now apply (filter_all
                     (fun x => String.eqb (JS.toLowerCase (word x))
                                 (JS.toLowerCase (word w)))).
      * unfold dueCount. simpl. now rewrite Hdue.
    + rewrite String.eqb_refl. simpl.
      split; [reflexivity|]. split; [|split; [reflexivity|]].
      * unfold set_savedSentences. simpl. f_equal.
        now apply (filter_all
                     (fun x => String.eqb (sentence x) (sentence d))).
      * unfold dueCount. simpl. rewrite Hdue. simpl. lia.
  - intros Hyes. unfold handleToggleSave. rewrite Hyes.
    destruct item as [w|d].
    + assert (Hmem : forall x,
                 In x (List.filter
                         (fun x => negb (String.eqb (JS.toLowerCase (word x))
                                           (JS.toLowerCase (word w))))
                         (savedWords s))
                 <-> In x (savedWords s) /\ lowerText x <> lowerText w).
      { intros x. rewrite List.filter_In, negb_true_iff. unfold lowerText.
        destruct (String.eqb_spec (JS.toLowerCase (word x))
                    (JS.toLowerCase (word w))); intuition congruence. }
      split; [|exact Hmem].
      apply not_true_is_false. intros Hsaved.
      apply isItemSaved_word in Hsaved.
      apply in_map_iff in Hsaved as (x & Hx & Hin). simpl in Hin.
      apply Hmem in Hin as [_ Hne]. congruence.
    + assert (Hmem : forall x,
                 In x (List.filter
                         (fun x => negb (String.eqb (sentence x) (sentence d)))
                         (savedSentences s))
                 <-> In x (savedSentences s) /\ sentence x <> sentence d).
      { intros x. rewrite List.filter_In, negb_true_iff.
        destruct (String.eqb_spec (sentence x) (sentence d));
          intuition congruence. }
      split; [|exact Hmem].
      apply not_true_is_false. intros Hsaved.
      apply isItemSaved_sentence in Hsaved.
      apply in_map_iff in Hsaved as (x & Hx & Hin). simpl in Hin.
      apply Hmem in Hin as [_ Hne]. congruence.
Qed.

Lemma X14_toggle_save_witness :
  handleToggleSave 2000 (Some (inl Sample.padded))
    (handleToggleSave 1000 (Some (inl Sample.padded))
       (initial Sample.deck []))
  = initial Sample.deck [].
Proof.
  apply (X14_toggle_save 1000 2000 (inl Sample.padded)
           (initial Sample.deck [])).
  reflexivity.
Defined.

Lemma deckRun_invariant (Q : DeckEvent -> Prop) (P : State -> Prop) :
  (forall e s s', Q e -> deckStep e s = Some s' -> P s -> P s') ->
  forall es s0 s,
    Forall Q es -> deckRun es s0 = Some s -> P s0 -> P s.
Proof.
  intros Hstep es. induction es as [|e es IH]; intros s0 s HQ Hrun H0.
  - now injection Hrun as <-.
  - simpl in Hrun. destruct (deckStep e s0) as [s1|] eqn:He; [|discriminate].
    apply Forall_cons_1 in HQ as [Hq HQ].
    exact (IH s1 s HQ Hrun (Hstep e s0 s1 Hq He H0)).
Qed.

Lemma deckStep_Rated (s s' : State) (i : nat) (now : Z)
    (rating : Study.Rating) :
  deckStep (Rated i now rating) s = Some s' ->
  exists w,
    studyQueue s !! i = Some w
    /\ s' = onUpdateWord
              (with_schedule w
                 (Study.nextLevel rating (default 0 (srs_level w)))
                 (Study.nextReviewDate now
                    (Study.nextLevel rating (default 0 (srs_level w))))) s.
Proof.
  simpl. destruct (bool_decide (currentView s = study)); [|discriminate].
  simpl. destruct (Nat.ltb_spec i (length (studyQueue s))) as [Hlt|];
    [|discriminate].
  destruct (lookup_lt_is_Some_2 _ _ Hlt) as [w Hw].
  intros [= <-]. exists w. split; [exact Hw|].
  now apply rated_effect.
Qed.

Lemma deckStep_StartStudy (s s' : State) (shuffled : list WordData) :
  deckStep (StartStudy shuffled) s = Some s' ->
  Permutation (savedWords s) shuffled
  /\ s' = set_currentView study (set_studyQueue shuffled s).
Proof.
  simpl.
  destruct (bool_decide_reflect (Permutation (savedWords s) shuffled));
    [|discriminate].
  intros [= <-]. auto.
Qed.

Lemma scheduled_spec (w : WordData) :
  scheduled w = true
  <-> exists l t, srs_level w = Some l /\ 0 <= l <= Study.lastIndex
                  /\ next_review w = Some (JS.Num t).
Proof.
  unfold scheduled. split.
  - destruct (srs_level w) as [l|]; [|discriminate].
    destruct (next_review w) as [[t|]|]; try discriminate.
    intros H. apply andb_true_iff in H as [H1 H2].
    exists l, t. repeat split; lia.
  - intros (l & t & -> & Hl & ->).
    apply andb_true_iff. split; lia.
Qed.

Lemma scheduled_rated (w : WordData) (now : Z) (rating : Study.Rating) :
  scheduled w = true ->
  scheduled
    (with_schedule w (Study.nextLevel rating (default 0 (srs_level w)))
       (Study.nextReviewDate now
          (Study.nextLevel rating (default 0 (srs_level w))))) = true.
Proof.
  intros Hs. apply scheduled_spec in Hs as (l & t & Hl & Hr & _).
  rewrite Hl. simpl.
  pose proof (nextLevel_valid rating l Hr) as Hv.
  destruct (nextReviewDate_inside now _ Hv) as (days & _ & _ & Hd).
  apply scheduled_spec. eexists. eexists.
  split; [reflexivity|]. split; [exact Hv|]. simpl. now rewrite Hd.
Qed.

(** X15: on decks that start with every word at a level of the table
    and an integer review time (the empty decks, for one), saving,
    removing, starting to study and rating keep this for the saved words
    and for the queue of the session: no event leads to a level outside
    the table or to a review time that is [NaN] or missing. *)
Theorem X15_schedule_invariant (es : list DeckEvent) (s0 s : State) :
  deckRun es s0 = Some s ->
  Forall (fun w => scheduled w = true) (savedWords s0) ->
  Forall (fun w => scheduled w = true) (studyQueue s0) ->
  Forall (fun w => scheduled w = true) (savedWords s)
  /\ Forall (fun w => scheduled w = true) (studyQueue s)
  /\ (forall w, In w (savedWords s) \/ In w (studyQueue s) ->
        0 <= default 0 (srs_level w) <= Study.lastIndex
        /\ exists t, next_review w = Some (JS.Num t)).
Proof.
  intros Hrun Hw0 Hq0.
  assert (Hinv : Forall (fun w => scheduled w = true) (savedWords s)
                 /\ Forall (fun w => scheduled w = true) (studyQueue s)).
  { refine (deckRun_invariant (fun _ => True)
              (fun s => Forall (fun w => scheduled w = true) (savedWords s)
                        /\ Forall (fun w => scheduled w = true)
                             (studyQueue s))
              _ es s0 s _ Hrun (conj Hw0 Hq0)).
    - clear. intros e s s' _ Hstep [Hw Hq].
      destruct e as [now item|text|text|shuffled|i now rating|].
      + injection Hstep as <-. unfold handleToggleSave.
        destruct item as [w|d]; simpl;
          match goal with
          | |- context [if ?b then _ else _] => destruct b
          end; simpl; split; auto;
          first
            [ now constructor
            | apply List.Forall_forall; intros x Hin;
              apply List.filter_In in Hin as [Hin _];
              now apply (proj1 (List.Forall_forall _ _) Hw) ].
      + injection Hstep as <-. simpl. split; [|exact Hq].
        apply List.Forall_forall. intros x Hin.
        apply List.filter_In in Hin as [Hin _].
        now apply (proj1 (List.Forall_forall _ _) Hw).
      + injection Hstep as <-. simpl. auto.
      + apply deckStep_StartStudy in Hstep as [Hp ->]. simpl.
        split; [exact Hw|]. now rewrite <- Hp.
      + apply deckStep_Rated in Hstep as (w & Hi & ->). simpl.
        split; [|exact Hq].
        apply list_elem_of_lookup_2, list_elem_of_In in Hi.
        pose proof (proj1 (List.Forall_forall _ _) Hq w Hi) as Hsw.
        apply List.Forall_forall. intros x Hin.
        apply in_map_iff in Hin as (old & <- & Hin).
        destruct (String.eqb (word old) _).
        * now apply scheduled_rated.
        * now apply (proj1 (List.Forall_forall _ _) Hw).
      + injection Hstep as <-. simpl. auto.
    - apply Forall_forall. auto. }
  destruct Hinv as [Hw Hq]. split; [exact Hw|]. split; [exact Hq|].
  intros w Hin.
  assert (Hs : scheduled w = true).
  { destruct Hin as [Hin|Hin];
      [exact (proj1 (List.Forall_forall _ _) Hw w Hin)
      |exact (proj1 (List.Forall_forall _ _) Hq w Hin)]. }
  apply scheduled_spec in Hs as (l & t & -> & Hl & ->). simpl. eauto.
Qed.

Lemma X15_schedule_invariant_witness :
  exists s,
    deckRun [ToggleSave 1000 (inl Sample.stone); StartStudy [with_schedule Sample.stone 0 (JS.Num 1000)];
             Rated 0 2000 Study.rate_easy]
      (initial [] []) = Some s
    /\ forall w, In w (savedWords s) ->
         0 <= default 0 (srs_level w) <= Study.lastIndex.
Proof.
  destruct (deckRun [ToggleSave 1000 (inl Sample.stone);
                     StartStudy [with_schedule Sample.stone 0 (JS.Num 1000)];
                     Rated 0 2000 Study.rate_easy] (initial [] []))
    as [s|] eqn:Hrun; [|vm_compute in Hrun; discriminate].
  exists s. split; [reflexivity|]. intros w Hin.
  destruct (X15_schedule_invariant _ _ s Hrun ltac:(constructor)
              ltac:(constructor)) as (_ & _ & Hall).
  now destruct (Hall w (or_introl Hin)).
Defined.

Lemma lowerText_words (l : list WordData) :
  map lowerText l = map JS.toLowerCase (map word l).
Proof. now rewrite map_map. Qed.

(** X16: on decks that start without two words of the same letters in
    any case (the empty decks, for one), saving, removing, starting to
    study and rating keep it so, for the saved words and for the queue of
    the session; the texts of a queue are then pairwise distinct, which
    is what the quiz options need. *)
Theorem X16_distinct_texts (es : list DeckEvent) (s0 s : State) :
  deckRun es s0 = Some s ->
  List.NoDup (map lowerText (savedWords s0)) ->
  List.NoDup (map lowerText (studyQueue s0)) ->
  List.NoDup (map lowerText (savedWords s))
  /\ List.NoDup (map lowerText (studyQueue s))
  /\ List.NoDup (map word (savedWords s))
  /\ forall auto,
       List.NoDup (map word (Study.queue (studySession auto s))).
Proof.
  intros Hrun Hw0 Hq0.
  assert (Hinv : List.NoDup (map lowerText (savedWords s))
                 /\ List.NoDup (map lowerText (studyQueue s))).
  { refine (deckRun_invariant (fun _ => True)
              (fun s => List.NoDup (map lowerText (savedWords s))
                        /\ List.NoDup (map lowerText (studyQueue s)))
              _ es s0 s _ Hrun (conj Hw0 Hq0)).
    - clear. intros e s s' _ Hstep [Hw Hq].
      destruct e as [now item|text|text|shuffled|i now rating|].
      + change (deckStep (ToggleSave now item) s)
          with (Some (handleToggleSave now (Some item) s)) in Hstep.
        injection Hstep as <-.
        destruct item as [w|d].
        * match goal with
          | |- context [if ?b then _ else _] => destruct b eqn:Hsaved
          end; simpl; (split; [|exact Hq]).
          -- now apply NoDup_map_filter.
          -- apply List.NoDup_cons_iff. split; [|exact Hw].
             intros Hin. apply (isItemSaved_word w s) in Hin.
             simpl in Hin. congruence.
        * match goal with
          | |- context [if ?b then _ else _] => destruct b
          end; simpl; auto.
      + injection Hstep as <-. simpl. split; [|exact Hq].
        now apply NoDup_map_filter.
      + injection Hstep as <-. simpl. auto.
      + apply deckStep_StartStudy in Hstep as [Hp ->]. simpl.
        split; [exact Hw|].
        exact (Permutation_NoDup (Permutation_map lowerText Hp) Hw).
      + apply deckStep_Rated in Hstep as (w & Hi & ->).
        split; [|exact Hq].
        rewrite lowerText_words, onUpdateWord_texts, <- lowerText_words.
        exact Hw.
      + injection Hstep as <-. simpl. auto.
    - apply Forall_forall. auto. }
  destruct Hinv as [Hw Hq]. split; [exact Hw|]. split; [exact Hq|].
  split.
  - rewrite lowerText_words in Hw. now apply NoDup_map_inv in Hw.
  - intros auto. unfold studySession. rewrite mount_queue.
    rewrite lowerText_words in Hq. now apply NoDup_map_inv in Hq.
Qed.

Lemma X16_distinct_texts_witness :
  exists s,
    deckRun [ToggleSave 1000 (inl Sample.stone);
             ToggleSave 1500 (inl Sample.apple);
             StartStudy [with_schedule Sample.stone 0 (JS.Num 1000);
                         with_schedule Sample.apple 0 (JS.Num 1500)]]
      (initial [] []) = Some s
    /\ List.NoDup (map word (Study.queue (studySession true s))).
Proof.
  destruct (deckRun [ToggleSave 1000 (inl Sample.stone);
                     ToggleSave 1500 (inl Sample.apple);
                     StartStudy [with_schedule Sample.stone 0 (JS.Num 1000);
                         with_schedule Sample.apple 0 (JS.Num 1500)]]
              (initial [] [])) as [s|] eqn:Hrun.
  - exists s. split; [reflexivity|].
    destruct (X16_distinct_texts _ _ s Hrun ltac:(constructor)
                ltac:(constructor)) as (_ & _ & _ & Hall).
    exact (Hall true).
  - vm_compute in Hrun. discriminate.
Defined.

(** X17: no event reviews a sentence.  On decks that start without
    sentences, every saved sentence is the sentence of one of the saving
    events with level 0 and the time of that event as its review time,
    whatever was saved, removed, studied or rated since; at any time not
    before the events it is due, so the due count is never below the
    number of saved sentences. *)
Theorem X17_sentences_stay_due (es : list DeckEvent) (s0 s : State)
    (now : Z) :
  deckRun es s0 = Some s ->
  savedSentences s0 = [] ->
  Forall (fun e => forall t, eventTime e = Some t -> t <= now) es ->
  Forall (fun d => exists t d0,
                     In (ToggleSave t (inr d0)) es
                     /\ d = s_with_schedule d0 0 (JS.Num t)
                     /\ s_srs_level d = Some 0
                     /\ s_next_review d = Some (JS.Num t)
                     /\ isDue now (s_next_review d) = true)
    (savedSentences s)
  /\ (length (savedSentences s) <= dueCount now s)%nat.
Proof.
  intros Hrun H0 Htimes.
  assert (Horigin : Forall (fun d => exists t d0,
                                       In (ToggleSave t (inr d0)) es
                                       /\ d = s_with_schedule d0 0 (JS.Num t))
                      (savedSentences s)).
  { refine (deckRun_invariant
              (fun e => In e es)
              (fun s => Forall (fun d => exists t d0,
                                           In (ToggleSave t (inr d0)) es
                                           /\ d = s_with_schedule d0 0
                                                    (JS.Num t))
                          (savedSentences s))
              _ es s0 s _ Hrun _);
      [|now apply List.Forall_forall|rewrite H0; constructor].
    clear. intros e s s' Hin Hstep Hs.
    destruct e as [t item|text|text|shuffled|i t rating|].
    - change (deckStep (ToggleSave t item) s)
        with (Some (handleToggleSave t (Some item) s)) in Hstep.
      injection Hstep as <-.
      destruct item as [w|d].
      + match goal with
        | |- context [if ?b then _ else _] => destruct b
        end; exact Hs.
      + match goal with
        | |- context [if ?b then _ else _] => destruct b
        end; simpl.
        * apply List.Forall_forall. intros x Hx.
          apply List.filter_In in Hx as [Hx _].
          now apply (proj1 (List.Forall_forall _ _) Hs).
        * constructor; [|exact Hs]. exists t, d. auto.
    - injection Hstep as <-. exact Hs.
    - injection Hstep as <-. simpl.
      apply List.Forall_forall. intros x Hx.
      apply List.filter_In in Hx as [Hx _].
      now apply (proj1 (List.Forall_forall _ _) Hs).
    - apply deckStep_StartStudy in Hstep as [_ ->]. exact Hs.
    - apply deckStep_Rated in Hstep as (w & _ & ->). exact Hs.
    - injection Hstep as <-. exact Hs. }
  assert (Hinv : Forall (fun d => exists t d0,
                                    In (ToggleSave t (inr d0)) es
                                    /\ d = s_with_schedule d0 0 (JS.Num t)
                                    /\ s_srs_level d = Some 0
                                    /\ s_next_review d = Some (JS.Num t)
                                    /\ isDue now (s_next_review d) = true)
                   (savedSentences s)).
  { apply List.Forall_forall. intros d Hd.
    destruct (proj1 (List.Forall_forall _ _) Horigin d Hd)
      as (t & d0 & Hin & ->).
    exists t, d0. split; [exact Hin|]. split; [reflexivity|].
    split; [reflexivity|]. split; [reflexivity|].
    simpl. rewrite isDue_cases. apply orb_true_iff. right.
    apply Z.leb_le.
    exact (proj1 (List.Forall_forall _ _) Htimes _ Hin t eq_refl). }
  split; [exact Hinv|].
  unfold dueCount.
  rewrite (forallb_filter_id (fun d => isDue now (s_next_review d))
             (savedSentences s)); [lia|].
  apply forallb_forall. intros d Hin.
  destruct (proj1 (List.Forall_forall _ _) Hinv d Hin)
    as (t & d0 & _ & _ & _ & _ & Hdue).
  exact Hdue.
Qed.

Lemma X17_sentences_stay_due_witness :
  exists s,
    deckRun [ToggleSave 1000 (inr Sample.greeting);
             ToggleSave 1500 (inl Sample.apple)] (initial [] []) = Some s
    /\ savedSentences s = [s_with_schedule Sample.greeting 0 (JS.Num 1000)]
    /\ (1 <= dueCount 99999999999 s)%nat.
Proof.
  destruct (deckRun [ToggleSave 1000 (inr Sample.greeting);
                     ToggleSave 1500 (inl Sample.apple)] (initial [] []))
    as [s|] eqn:Hrun; [|vm_compute in Hrun; discriminate].
  exists s. split; [reflexivity|].
  destruct (X17_sentences_stay_due _ _ s 99999999999 Hrun eq_refl
              ltac:(repeat constructor; simpl; intros t [= <-]; lia))
    as [_ Hle].
  vm_compute in Hrun. injection Hrun as <-. split; [reflexivity|exact Hle].
Defined.

End DeckEvents.

(** ** The search view: loading, errors, blank queries *)

Section SearchMore.

Import App.

Lemma remove_first_other (r x : Request) (l : list Request) :
  x <> r -> x ∈ l -> x ∈ remove_first r l.
Proof.
  intros Hne. induction l as [|y l IH]; simpl; [auto|].
  intros Hin. apply elem_of_cons in Hin as [->|Hin].
  - rewrite bool_decide_eq_false_2 by exact Hne. apply elem_of_cons. now left.
  - destruct (bool_decide (y = r)); [exact Hin|].
    apply elem_of_cons. right. now apply IH.
Qed.

(** What one event keeps: while the skeleton is shown a call for the
    latest query is waiting, and the only error message is [notFound]. *)
Lemma step_waiting (e : Event) (c c' : Config) :
  step e c = Some c' ->
  (loading (app c) = true ->
   exists r, r ∈ inflight c /\ req_query r = latestQueryRef (app c)) ->
  (forall m, error (app c) = Some m -> m = notFound) ->
  (loading (app c') = true ->
   exists r, r ∈ inflight c' /\ req_query r = latestQueryRef (app c'))
  /\ (forall m, error (app c') = Some m -> m = notFound).
Proof.
  intros Hstep Hl He.
  destruct e as [text|m| |r o]; simpl in Hstep.
  - injection Hstep as <-. simpl. auto.
  - injection Hstep as <-. simpl. auto.
  - destruct (handleSearch_cases (app c)) as [[_ Hh]|[_ Hh]];
      rewrite Hh in Hstep; injection Hstep as <-; simpl; [auto|].
    split; [|discriminate].
    intros _. eexists. split; [apply elem_of_cons; now left|reflexivity].
  - destruct (bool_decide (r ∈ inflight c) && fits r o); [|discriminate].
    injection Hstep as <-. simpl.
    destruct (handleSearch_resume_cases r o (app c))
      as [[Hstale ->]|[_ ->]].
    + split; [|exact He]. intros Hload.
      destruct (Hl Hload) as (x & Hx & Hq). exists x.
      split; [|exact Hq]. apply remove_first_other; [congruence|exact Hx].
    + split; [discriminate|].
      destruct o; simpl; [exact He|exact He|]. now intros m [= <-].
Qed.

(** X18: in every run of the search view, mode switches included, the
    skeleton is shown only while a call for the latest submitted query is
    still waiting for its result; and an error box only ever holds the
    one message of the program. *)
Theorem X18_skeleton_has_pending_call (m : SearchMode)
    (words : list WordData) (sentences : list SentenceData)
    (es : list Event) (c : Config) :
  run es (start m words sentences) = Some c ->
  (display (app c) = Skeleton ->
   exists r, r ∈ inflight c /\ req_query r = latestQueryRef (app c)
             /\ req_query r = lastSubmitted es "" "")
  /\ (forall message, display (app c) = ErrorBox message ->
        message = notFound).
Proof.
  intros Hrun.
  assert (Hinv : forall es c0 c,
             run es c0 = Some c ->
             (loading (app c0) = true ->
              exists r, r ∈ inflight c0
                        /\ req_query r = latestQueryRef (app c0)) ->
             (forall m, error (app c0) = Some m -> m = notFound) ->
             (loading (app c) = true ->
              exists r, r ∈ inflight c
                        /\ req_query r = latestQueryRef (app c))
             /\ (forall m, error (app c) = Some m -> m = notFound)).
  { clear. intros es. induction es as [|e es IH]; intros c0 c Hrun Hl He.
    - injection Hrun as <-. auto.
    - simpl in Hrun. destruct (step e c0) as [c1|] eqn:Hs; [|discriminate].
      destruct (step_waiting e c0 c1 Hs Hl He) as [Hl1 He1].
      exact (IH c1 c Hrun Hl1 He1). }
  destruct (Hinv es _ c Hrun ltac:(discriminate) ltac:(discriminate))
    as [Hl He].
  pose proof (latest_is_lastSubmitted es _ c Hrun) as Hlatest.
  simpl in Hlatest. split.
  - intros Hshow. unfold display in Hshow.
    destruct (loading (app c)) eqn:Hload.
    + destruct (Hl eq_refl) as (r & Hr & Hq). exists r.
      split; [exact Hr|]. split; [exact Hq|congruence].
    + destruct (error (app c)); [discriminate|].
      destruct (searchMode (app c)), (wordData (app c)),
        (sentenceData (app c)); discriminate.
  - intros message Hshow. unfold display in Hshow.
    destruct (loading (app c)); [discriminate|].
    destruct (error (app c)) as [m'|] eqn:Herr.
    + injection Hshow as <-. now apply He.
    + destruct (searchMode (app c)), (wordData (app c)),
        (sentenceData (app c)); discriminate.
Qed.

Lemma X18_skeleton_has_pending_call_witness :
  exists c r,
    run [SetQuery " river "; Submit; SetSearchMode sentenceMode]
      (start wordMode [] []) = Some c
    /\ r ∈ inflight c /\ req_query r = "river".
Proof.
  destruct (run [SetQuery " river "; Submit; SetSearchMode sentenceMode]
              (start wordMode [] [])) as [c|] eqn:Hrun;
    [|vm_compute in Hrun; discriminate].
  destruct (X18_skeleton_has_pending_call wordMode [] [] _ c Hrun)
    as [Hskel _].
  assert (Hshow : display (app c) = Skeleton)
    by (vm_compute in Hrun; now injection Hrun as <-).
  destruct (Hskel Hshow) as (r & Hr & _ & Hq).
  exists c, r. split; [reflexivity|]. split; [exact Hr|exact Hq].
Defined.

(** A string of white space trims to the empty string. *)
Lemma trimStart_white (t : string) :
  Forall (fun ch => JS.is_white ch = true) (list_ascii_of_string t) ->
  JS.trimStart t = "".
Proof.
  induction t as [|ch t IH]; simpl; [reflexivity|].
  intros H. apply Forall_cons_1 in H as [Hc Ht]. rewrite Hc. now apply IH.
Qed.

(** X19: a submission while the box holds nothing but white space
    changes nothing and starts no lookup, however long the text is. *)
Theorem X19_blank_submission (c : Config) :
  Forall (fun ch => JS.is_white ch = true)
    (list_ascii_of_string (query (app c))) ->
  handleSearch (app c) = (app c, None)
  /\ step Submit c = Some (mkConfig (app c) (inflight c)).
Proof.
  intros Hwhite.
  assert (Hblank : JS.trim (query (app c)) = "").
  { unfold JS.trim. now rewrite trimStart_white. }
  unfold step, handleSearch. rewrite Hblank. simpl. auto.
Qed.

Lemma X19_blank_submission_witness :
  step Submit
    (mkConfig (set_query "    " (initial Sample.deck [])) [])
  = Some (mkConfig (set_query "    " (initial Sample.deck [])) []).
Proof.
  apply (X19_blank_submission
           (mkConfig (set_query "    " (initial Sample.deck [])) [])).
  repeat constructor.
Defined.

(** *** The debounced search *)

Lemma handleSearch_closure (s : State) :
  handleSearch s = handleSearch_from (query s) (searchMode s) s.
Proof. reflexivity. Qed.

Lemma settled_tracked (p : Page) : settled p -> tracked p.
Proof.
  intros [H|(id & H & Hr & Hc & _)]; [now left|right].
  eexists. split; [exact H|]. auto.
Qed.

Lemma clearRef_tracked (p : Page) :
  tracked p -> hasCleanup p = true \/ alive p = [] ->
  alive (clearRef p) = [] /\ config (clearRef p) = config p
  /\ nextTimer (clearRef p) = nextTimer p.
Proof.
  intros [Hnil|(t & Ht & Hr & Hc)] _; unfold clearRef.
  - destruct (debounceTimerRef p); simpl; rewrite ?Hnil; auto.
  - rewrite Hr. simpl. rewrite Ht. simpl. rewrite Nat.eqb_refl. auto.
Qed.

Lemma debounceEffect_settled (p : Page) :
  tracked p -> settled (debounceEffect p)
               /\ app (config (debounceEffect p)) = app (config p)
               /\ inflight (config (debounceEffect p)) = inflight (config p).
Proof.
  intros Ht. unfold debounceEffect.
  assert (H1 : exists p1,
             (if hasCleanup p then clearRef p else p) = p1
             /\ alive p1 = [] /\ config p1 = config p).
  { destruct (hasCleanup p) eqn:Hc.
    - destruct (clearRef_tracked p Ht (or_introl Hc)) as (Ha & Hcfg & _).
      eauto.
    - destruct Ht as [Hnil|(t & _ & _ & Hc')]; [eauto|congruence]. }
  destruct H1 as (p1 & -> & Ha1 & Hc1).
  destruct (negb (bool_decide (currentView (app (config p1)) = search))
            || (String.length (JS.trim (query (app (config p1)))) <? 2)%nat)
    eqn:Hret.
  - split; [left; exact Ha1|]. simpl. now rewrite Hc1.
  - apply orb_false_iff in Hret as [Hview Hlen].
    apply negb_false_iff, bool_decide_eq_true in Hview.
    apply Nat.ltb_ge in Hlen.
    destruct (clearRef_tracked p1 (or_introl Ha1) (or_intror Ha1))
      as (Ha2 & Hc2 & Hn2).
    split; [|simpl; now rewrite Hc2, Hc1].
    right. exists (nextTimer (clearRef p1)). simpl.
    rewrite Ha2, Hc2. auto.
Qed.

Lemma step_keeps_box (e : Event) (c c' : Config) :
  match e with SetQuery _ | SetSearchMode _ => False | _ => True end ->
  step e c = Some c' ->
  query (app c') = query (app c)
  /\ searchMode (app c') = searchMode (app c)
  /\ currentView (app c') = currentView (app c).
Proof.
  intros He Hs. destruct e as [text|m| |r o]; try contradiction;
    simpl in Hs.
  - destruct (handleSearch_cases (app c)) as [[_ Hh]|[_ Hh]];
      rewrite Hh in Hs; injection Hs as <-; simpl; auto.
  - destruct (bool_decide (r ∈ inflight c) && fits r o); [|discriminate].
    injection Hs as <-. simpl.
    destruct (handleSearch_resume_cases r o (app c)) as [[_ ->]|[_ ->]];
      [auto|].
    destruct o; simpl; auto.
Qed.

Lemma settled_withConfig (c : Config) (p : Page) :
  query (app c) = query (app (config p)) ->
  searchMode (app c) = searchMode (app (config p)) ->
  currentView (app c) = currentView (app (config p)) ->
  settled p -> settled (withConfig c p).
Proof.
  intros Hq Hm Hv [H|(id & H & Hr & Hc & Hview & Hlen)]; [now left|].
  right. exists id. simpl. rewrite Hq, Hm, Hv. auto.
Qed.

Lemma pageStep_settled (e : PageEvent) (p p' : Page) :
  pageStep e p = Some p' -> settled p -> settled p'.
Proof.
  intros Hstep Hs. pose proof (settled_tracked p Hs) as Ht.
  assert (Hset : forall changed s,
             settled (setAndRun changed s p)).
  { intros changed s. unfold setAndRun. destruct changed; [|exact Hs].
    apply debounceEffect_settled.
    destruct Ht as [Hnil|(t & Ha & Hr & Hc)]; [now left|right].
    exists t. auto. }
  destruct e as [text|m|v|id| |r o]; unfold pageStep in Hstep.
  - injection Hstep as <-. apply Hset.
  - injection Hstep as <-. apply Hset.
  - injection Hstep as <-. apply Hset.
  - destruct (find _ (alive p)) as [t|] eqn:Hfind; [|discriminate].
    destruct (handleSearch_from _ _ _) as [s' r]. injection Hstep as <-.
    left. simpl.
    destruct Ht as [Hnil|(t' & Ha & _)]; [now rewrite Hnil|].
    rewrite Ha in *. simpl in Hfind. simpl.
    destruct (timer_id t' =? id)%nat; [reflexivity|discriminate].
  - destruct (bool_decide (currentView (app (config p)) = search));
      [|discriminate].
    destruct (step Submit (config p)) as [c|] eqn:Hc; [|discriminate].
    injection Hstep as <-.
    destruct (step_keeps_box Submit _ c I Hc) as (Hq & Hm & Hv).
    now apply settled_withConfig.
  - destruct (step (Arrive r o) (config p)) as [c|] eqn:Hc; [|discriminate].
    injection Hstep as <-.
    destruct (step_keeps_box (Arrive r o) _ c I Hc) as (Hq & Hm & Hv).
    now apply settled_withConfig.
Qed.

Lemma pageRun_settled (es : list PageEvent) (p p' : Page) :
  pageRun es p = Some p' -> settled p -> settled p'.
Proof.
  revert p. induction es as [|e es IH]; intros p Hrun Hs; simpl in Hrun.
  - now injection Hrun as <-.
  - destruct (pageStep e p) as [p1|] eqn:He; [|discriminate].
    exact (IH p1 Hrun (pageStep_settled e p p1 He Hs)).
Qed.

(** X20: in every run of the search view at most one debounce timer is
    alive, and it was set for what the box and the mode show now, on the
    search view, with at least two characters after trimming.  So a timer
    that fires does what a submission at that moment does: it starts one
    lookup, for the trimmed text of the box in the current mode, and
    leaves no timer behind. *)
Theorem X20_debounce (words : list WordData) (sentences : list SentenceData)
    (es : list PageEvent) (p : Page) :
  pageRun es (pageStart words sentences) = Some p ->
  settled p
  /\ (length (alive p) <= 1)%nat
  /\ forall id p',
       pageStep (TimerFires id) p = Some p' ->
       step Submit (config p) = Some (config p')
       /\ alive p' = []
       /\ currentView (app (config p)) = search
       /\ exists r,
            inflight (config p') = r :: inflight (config p)
            /\ req_query r = JS.trim (query (app (config p)))
            /\ req_mode r = searchMode (app (config p))
            /\ (2 <= String.length (req_query r))%nat.
Proof.
  intros Hrun.
  assert (Hs : settled p)
    by (apply (pageRun_settled es _ p Hrun); now left).
  split; [exact Hs|]. split.
  { destruct Hs as [->|(id & -> & _)]; simpl; lia. }
  intros id p' Hfire. simpl in Hfire.
  destruct Hs as [Hnil|(id' & Ha & Hr & Hc & Hview & Hlen)].
  { rewrite Hnil in Hfire. discriminate. }
  rewrite Ha in Hfire. simpl in Hfire.
  destruct (id' =? id)%nat; [|discriminate]. simpl in Hfire.
  rewrite <- handleSearch_closure in Hfire.
  destruct (handleSearch_cases (app (config p))) as [[Hb _]|[Hb Hh]].
  { destruct (JS.trim (query (app (config p)))); [simpl in Hlen; lia|].
    discriminate. }
  rewrite Hh in Hfire. injection Hfire as <-. simpl.
  split; [now rewrite Hh|]. split; [reflexivity|]. split; [exact Hview|].
  eexists. split; [reflexivity|]. simpl. auto.
Qed.

Lemma X20_debounce_witness :
  exists p p',
    pageRun [Typed "r"; Typed "ri"; Typed "riv"] (pageStart [] []) = Some p
    /\ pageStep (TimerFires 2) p = Some p'
    /\ inflight (config p') = [mkRequest "riv" wordMode]
    /\ alive p' = [].
Proof.
  destruct (pageRun [Typed "r"; Typed "ri"; Typed "riv"] (pageStart [] []))
    as [p|] eqn:Hrun; [|vm_compute in Hrun; discriminate].
  destruct (pageStep (TimerFires 2) p) as [p'|] eqn:Hfire;
    [|vm_compute in Hrun; injection Hrun as <-; vm_compute in Hfire;
      discriminate].
  exists p, p'. split; [reflexivity|]. split; [exact Hfire|].
  destruct (X20_debounce [] [] _ p Hrun) as (_ & _ & Hall).
  destruct (Hall 2%nat p' Hfire) as (_ & Ha & _ & r & Hin & Hq & Hm & _).
  split; [|exact Ha].
  rewrite Hin. vm_compute in Hrun. injection Hrun as <-.
  destruct r as [q m]. simpl in Hq, Hm. subst q m. reflexivity.
Defined.

End SearchMore.

(** ** Trimming, and the keys of the caches *)

Section Keys.

Import Gemini.

Lemma rev_app_list (s1 s2 : string) :
  list_ascii_of_string (String.rev_app s1 s2)
  = rev (list_ascii_of_string s1) ++ list_ascii_of_string s2.
Proof.
  revert s2. induction s1 as [|c s1 IH]; intros s2; simpl; [reflexivity|].
  rewrite IH. simpl. now rewrite <- app_assoc.
Qed.

Lemma rev_list (s : string) :
  list_ascii_of_string (String.rev s) = rev (list_ascii_of_string s).
Proof. unfold String.rev. rewrite rev_app_list. apply app_nil_r. Qed.

Lemma trimStart_list (s : string) :
  list_ascii_of_string (JS.trimStart s) = dropWhite (list_ascii_of_string s).
Proof.
  induction s as [|c s IH]; simpl; [reflexivity|].
  destruct (JS.is_white c); [exact IH|reflexivity].
Qed.

Lemma trim_list (s : string) :
  list_ascii_of_string (JS.trim s)
  = rev (dropWhite (rev (dropWhite (list_ascii_of_string s)))).
Proof.
  unfold JS.trim, JS.trimEnd.
  now rewrite rev_list, trimStart_list, rev_list, trimStart_list.
Qed.

Lemma dropWhite_idem (l : list ascii) : dropWhite (dropWhite l) = dropWhite l.
Proof.
  induction l as [|c l IH]; simpl; [reflexivity|].
  destruct (JS.is_white c) eqn:Hc; [exact IH|]. simpl. now rewrite Hc.
Qed.

Lemma dropWhite_snoc (l : list ascii) (c : ascii) :
  JS.is_white c = false -> dropWhite (l ++ [c]) = dropWhite l ++ [c].
Proof.
  intros Hc. induction l as [|x l IH]; simpl; [now rewrite Hc|].
  destruct (JS.is_white x); [exact IH|reflexivity].
Qed.

(** What is left of a list trimmed at its start, once its end is
    trimmed too, is still trimmed at its start. *)
Lemma dropWhite_trimmed_end (l : list ascii) :
  dropWhite (rev (dropWhite (rev (dropWhite l))))
  = rev (dropWhite (rev (dropWhite l))).
Proof.
  assert (Hhead : dropWhite l = []
                  \/ exists c m, dropWhite l = c :: m
                                 /\ JS.is_white c = false).
  { induction l as [|x l IH]; simpl; [now left|].
    destruct (JS.is_white x) eqn:Hx; [exact IH|]. right. eauto. }
  destruct Hhead as [->|(c & m & -> & Hc)]; [reflexivity|].
  simpl. rewrite dropWhite_snoc by exact Hc.
  rewrite rev_app_distr. simpl. now rewrite Hc.
Qed.

Lemma list_ascii_inj (s1 s2 : string) :
  list_ascii_of_string s1 = list_ascii_of_string s2 -> s1 = s2.
Proof.
  intros H. rewrite <- (string_of_list_ascii_of_string s1),
    <- (string_of_list_ascii_of_string s2). now rewrite H.
Qed.

Lemma trim_idem (s : string) : JS.trim (JS.trim s) = JS.trim s.
Proof.
  apply list_ascii_inj. rewrite trim_list, trim_list.
  rewrite (dropWhite_trimmed_end (list_ascii_of_string s)).
  now rewrite rev_involutive, dropWhite_idem.
Qed.

(** X21: trimming twice is trimming once; so the lookup that
    [handleSearch] starts with its trimmed query uses the cache key of
    the text in the box itself, for words and for sentences: it hits
    what the cache holds for that text and, on a miss, sends the same
    prompt. *)
Theorem X21_clean_query_key (s s' : App.State) (r : App.Request)
    (v : Service) :
  App.handleSearch s = (s', Some r) ->
  JS.trim (App.req_query r) = App.req_query r
  /\ lookupWord_start (App.req_query r) v
     = lookupWord_start (App.query s) v
  /\ lookupSentence_start (App.req_query r) v
     = lookupSentence_start (App.query s) v
  /\ App.latestQueryRef s' = App.req_query r.
Proof.
  intros Hh.
  destruct (handleSearch_cases s) as [[_ Hc]|[_ Hc]];
    rewrite Hc in Hh; [discriminate|].
  injection Hh as <- <-. simpl.
  unfold lookupWord_start, lookupSentence_start.
  rewrite !trim_idem. auto.
Qed.

Lemma X21_clean_query_key_witness :
  let s := App.set_query "  Hello " (App.initial [] []) in
  exists s' r,
    App.handleSearch s = (s', Some r)
    /\ lookupWord_start (App.req_query r) fresh
       = lookupWord_start "  Hello " fresh.
Proof.
  intros s.
  destruct (App.handleSearch s) as [s' [r|]] eqn:Hh;
    [|vm_compute in Hh; discriminate].
  exists s', r. split; [reflexivity|].
  exact (proj1 (proj2 (X21_clean_query_key s s' r fresh Hh))).
Defined.

(** X22: when the model cannot be reached, a lookup answers exactly
    what the cache holds for its key: the cached record without any
    prompt, or a failure after one prompt; either way both caches stay as
    they were, so a failure is never cached and the next lookup asks
    again. *)
Theorem X22_unreachable_model (input : string) (v : Service) :
  (fst (lookupWord input None v)
   = wordCache v !! JS.toLowerCase (JS.trim input)
   /\ wordCache (snd (lookupWord input None v)) = wordCache v
   /\ sentenceCache (snd (lookupWord input None v)) = sentenceCache v
   /\ length (prompts (snd (lookupWord input None v)))
      = (length (prompts v)
         + match wordCache v !! JS.toLowerCase (JS.trim input) with
           | Some _ => 0 | None => 1 end)%nat)
  /\ (fst (lookupSentence input None v) = sentenceCache v !! JS.trim input
      /\ wordCache (snd (lookupSentence input None v)) = wordCache v
      /\ sentenceCache (snd (lookupSentence input None v))
         = sentenceCache v
      /\ length (prompts (snd (lookupSentence input None v)))
         = (length (prompts v)
            + match sentenceCache v !! JS.trim input with
              | Some _ => 0 | None => 1 end)%nat).
Proof.
  unfold lookupWord, lookupWord_start, lookupSentence, lookupSentence_start.
  split.
  - destruct (wordCache v !! JS.toLowerCase (JS.trim input)); simpl;
      repeat split; lia.
  - destruct (sentenceCache v !! JS.trim input); simpl; repeat split; lia.
Qed.

End Keys.
